(** * Tableflow metadata generator: validation and dashboard layout

    A shallow embedding of the field sanitizer and schema validator of
    [Experiments/table_generator.py] and of the id assignment and the
    positional aligner of [Experiments/dashboard_generator.py], with the
    properties their specification states.

    Modelling conventions.
    - A Python [str] is a [string] of ASCII characters; case folding and
      white space are those of the ASCII range, and nothing is claimed
      for strings with other code points.
    - A pandas DataFrame with its default [RangeIndex] is a [list] of row
      records; the index label of a row is its position, [df.at[idx, c] = v]
      is [alter] at position [idx].
    - Python integers are [Z] or [nat]; a [dict] is a [gmap]. *)

From Stdlib Require Import ZArith Ascii.
From stdpp Require Import base list strings gmap pretty sorting.

Local Open Scope Z_scope.

(** ** Python string primitives *)

Module PyStr.

(** [s.replace(c, new)] for a one-character [c]. *)
Fixpoint replace_char (c : ascii) (new : string) (s : string) : string :=
  match s with
  | EmptyString => EmptyString
  | String a s' =>
      if Ascii.eqb a c then new +:+ replace_char c new s'
      else String a (replace_char c new s')
  end.

Definition lower_char (a : ascii) : ascii :=
  let n := nat_of_ascii a in
  if ((65 <=? n) && (n <=? 90))%nat then ascii_of_nat (n + 32) else a.

(** [s.lower()] *)
Fixpoint lower (s : string) : string :=
  match s with
  | EmptyString => EmptyString
  | String a s' => String (lower_char a) (lower s')
  end.

Fixpoint startswith (p s : string) : bool :=
  match p, s with
  | EmptyString, _ => true
  | String _ _, EmptyString => false
  | String a p', String b s' => Ascii.eqb a b && startswith p' s'
  end.

(** [p in s] on strings: [p] occurs as a substring of [s]. *)
Fixpoint contains (p s : string) : bool :=
  startswith p s ||
  match s with
  | EmptyString => false
  | String _ s' => contains p s'
  end.

(** White space as [str.strip()] sees it, on the ASCII range. *)
Definition is_space (a : ascii) : bool :=
  let n := nat_of_ascii a in
  (((9 <=? n) && (n <=? 13)) || ((28 <=? n) && (n <=? 32)))%nat.

Fixpoint lstrip (s : string) : string :=
  match s with
  | EmptyString => EmptyString
  | String a s' => if is_space a then lstrip s' else s
  end.

Fixpoint rstrip (s : string) : string :=
  match s with
  | EmptyString => EmptyString
  | String a s' =>
      match rstrip s' with
      | EmptyString => if is_space a then EmptyString else String a EmptyString
      | r => String a r
      end
  end.

(** [s.strip()] *)
Definition strip (s : string) : string := rstrip (lstrip s).

(** [sep.join(l)] *)
Fixpoint join (sep : string) (l : list string) : string :=
  match l with
  | [] => EmptyString
  | [x] => x
  | x :: l' => x +:+ sep +:+ join sep l'
  end.

(** Membership of a character in a string. *)
Fixpoint has_char (c : ascii) (s : string) : bool :=
  match s with
  | EmptyString => false
  | String a s' => Ascii.eqb a c || has_char c s'
  end.

(** [x in l] for a list of strings. *)
Definition str_in (x : string) (l : list string) : bool :=
  existsb (String.eqb x) l.

(** [Series.unique()]: the distinct values in order of first appearance. *)
Fixpoint unique {A} `{EqDecision A} (l : list A) : list A :=
  match l with
  | [] => []
  | x :: l' => x :: filter (λ y, y ≠ x) (unique l')
  end.

End PyStr.

(** ** [table_generator.py]: sanitizer and schema validator *)

Definition invalid_chars : list ascii :=
  [ "."; "+"; "-"; "*"; "/"; "("; ")"; "["; "]"; "034"; "{"; "}"; "_" ]%char.

Definition sanitize_field (field : string) : string :=
  fold_left (λ field char, PyStr.replace_char char EmptyString field)
            invalid_chars field.

Module TableGen.

(** The columns of the table-metadata frame that [validate_fields] reads
    and writes. *)
Record Row := mkRow {
  Table_Name : string;
  Field : string;
  Display_Field : string
}.

(** One line printed by [validate_fields]: the rejected field and its
    table. *)
Record Warning := mkWarning { w_field : string; w_table : string }.

(** Step 1 of [validate_fields]: the summary with every column name
    sanitized. *)
Definition sanitize_summary (user_data_summary : gmap string (list string))
  : gmap string (list string) :=
  (λ columns : list string, sanitize_field <$> columns)
    <$> user_data_summary.

(** The body of the loop over [df.iterrows()]. *)
Definition validate_row (sanitized_summary : gmap string (list string))
    (row : Row) : Row * list Warning :=
  let table_name := Table_Name row in
  let valid_columns := default [] (sanitized_summary !! table_name) in
  let row_field_clean := sanitize_field (Field row) in
  let row_display_clean := sanitize_field (Display_Field row) in
  let '(field', out) :=
    if negb (PyStr.str_in row_field_clean valid_columns)
    then ("Record ID", [mkWarning (Field row) table_name])
    else (row_field_clean, []) in
  let display' :=
    if negb (PyStr.str_in row_display_clean valid_columns)
       && negb (String.eqb row_display_clean "Record ID")
    then "Record ID"
    else row_display_clean in
  (mkRow table_name field' display', out).

Fixpoint validate_rows (sanitized_summary : gmap string (list string))
    (df : list Row) : list Row * list Warning :=
  match df with
  | [] => ([], [])
  | row :: rest =>
      let '(row', out) := validate_row sanitized_summary row in
      let '(rest', outs) := validate_rows sanitized_summary rest in
      (row' :: rest', out ++ outs)
  end.

(** [TableGeneratorAI.validate_fields]: the repaired frame and the
    warnings printed on the way. *)
Definition validate_fields (user_data_summary : gmap string (list string))
    (df : list Row) : list Row * list Warning :=
  validate_rows (sanitize_summary user_data_summary) df.

End TableGen.

(** ** [dashboard_generator.py]: the dashboard frame *)

(** A value of the [Field] column: a string, a missing value ([None] or
    NaN), or a number. *)
Inductive cell := CStr (s : string) | CNull | CInt (n : Z).

Record Row := mkRow {
  Module_ : string;
  Dashboard : string;
  Element_Id : string;
  Object_Type : string;
  Object_Name : string;
  View_Type : string;
  Field : cell;
  PosX : Z; PosY : Z; Width : Z; Height : Z;
  PosX_1 : Z; PosY_1 : Z; Width_1 : Z; Height_1 : Z;
  View_Type_Attributes : string
}.

Record DataFrame := mkDataFrame { columns : list string; data : list Row }.

Definition set_Element_Id (v : string) (r : Row) : Row :=
  mkRow (Module_ r) (Dashboard r) v (Object_Type r) (Object_Name r)
        (View_Type r) (Field r) (PosX r) (PosY r) (Width r) (Height r)
        (PosX_1 r) (PosY_1 r) (Width_1 r) (Height_1 r)
        (View_Type_Attributes r).

Definition set_PosX (v : Z) (r : Row) : Row :=
  mkRow (Module_ r) (Dashboard r) (Element_Id r) (Object_Type r)
        (Object_Name r) (View_Type r) (Field r) v (PosY r) (Width r)
        (Height r) (PosX_1 r) (PosY_1 r) (Width_1 r) (Height_1 r)
        (View_Type_Attributes r).

Definition set_PosY (v : Z) (r : Row) : Row :=
  mkRow (Module_ r) (Dashboard r) (Element_Id r) (Object_Type r)
        (Object_Name r) (View_Type r) (Field r) (PosX r) v (Width r)
        (Height r) (PosX_1 r) (PosY_1 r) (Width_1 r) (Height_1 r)
        (View_Type_Attributes r).

Definition set_Width (v : Z) (r : Row) : Row :=
  mkRow (Module_ r) (Dashboard r) (Element_Id r) (Object_Type r)
        (Object_Name r) (View_Type r) (Field r) (PosX r) (PosY r) v
        (Height r) (PosX_1 r) (PosY_1 r) (Width_1 r) (Height_1 r)
        (View_Type_Attributes r).

Definition set_Height (v : Z) (r : Row) : Row :=
  mkRow (Module_ r) (Dashboard r) (Element_Id r) (Object_Type r)
        (Object_Name r) (View_Type r) (Field r) (PosX r) (PosY r) (Width r)
        v (PosX_1 r) (PosY_1 r) (Width_1 r) (Height_1 r)
        (View_Type_Attributes r).

Definition set_PosX_1 (v : Z) (r : Row) : Row :=
  mkRow (Module_ r) (Dashboard r) (Element_Id r) (Object_Type r)
        (Object_Name r) (View_Type r) (Field r) (PosX r) (PosY r) (Width r)
        (Height r) v (PosY_1 r) (Width_1 r) (Height_1 r)
        (View_Type_Attributes r).

Definition set_PosY_1 (v : Z) (r : Row) : Row :=
  mkRow (Module_ r) (Dashboard r) (Element_Id r) (Object_Type r)
        (Object_Name r) (View_Type r) (Field r) (PosX r) (PosY r) (Width r)
        (Height r) (PosX_1 r) v (Width_1 r) (Height_1 r)
        (View_Type_Attributes r).

Definition set_Width_1 (v : Z) (r : Row) : Row :=
  mkRow (Module_ r) (Dashboard r) (Element_Id r) (Object_Type r)
        (Object_Name r) (View_Type r) (Field r) (PosX r) (PosY r) (Width r)
        (Height r) (PosX_1 r) (PosY_1 r) v (Height_1 r)
        (View_Type_Attributes r).

Definition set_Height_1 (v : Z) (r : Row) : Row :=
  mkRow (Module_ r) (Dashboard r) (Element_Id r) (Object_Type r)
        (Object_Name r) (View_Type r) (Field r) (PosX r) (PosY r) (Width r)
        (Height r) (PosX_1 r) (PosY_1 r) (Width_1 r) v
        (View_Type_Attributes r).

Definition set_View_Type_Attributes (v : string) (r : Row) : Row :=
  mkRow (Module_ r) (Dashboard r) (Element_Id r) (Object_Type r)
        (Object_Name r) (View_Type r) (Field r) (PosX r) (PosY r) (Width r)
        (Height r) (PosX_1 r) (PosY_1 r) (Width_1 r) (Height_1 r) v.

(** The frame as a list of (index label, row), the shape a boolean
    selection [df[mask]] keeps. *)
Definition enumerate {A} (l : list A) : list (nat * A) :=
  imap (λ i x, (i, x)) l.

(** [df.at[idx, "Field"]]; the labels used below are always labels of [df]. *)
Definition field_at (df : list Row) (idx : nat) : cell :=
  match df !! idx with
  | Some r => Field r
  | None => CNull
  end.

(** *** [DashboardGeneratorAI.assign_ids] *)

Record id_state := mkIdState {
  element_counter : nat;
  dashboard_map : gmap string nat
}.

Definition dashboard_key (row : Row) : string :=
  Module_ row +:+ "|" +:+ Dashboard row.

Definition note_key (key : string) (st : id_state) : id_state :=
  match dashboard_map st !! key with
  | Some _ => st
  | None => mkIdState (S (element_counter st))
                      (<[key := element_counter st]> (dashboard_map st))
  end.

Definition assign_step (acc : list Row * id_state) (ir : nat * Row)
    : list Row * id_state :=
  let '(df, st) := acc in
  let '(idx, row) := ir in
  let key := dashboard_key row in
  let st := note_key key st in
  (alter (set_Element_Id (pretty (dashboard_map st !!! key))) idx df, st).

Definition assign_ids (df : list Row) : list Row :=
  (fold_left assign_step (enumerate df) (df, mkIdState 1 ∅)).1.

(** *** [PositionalAligner] *)

Definition HORIZONTAL_STEP : Z := 60.
Definition VERTICAL_STEP : Z := 55.
Definition INITIAL_X : Z := 3.
Definition INITIAL_Y : Z := 5.

Definition ID_PATTERN : list string := ["id"; "code"; "number"; "key"].
Definition DATE_PATTERN : list string :=
  ["date"; "created"; "modified"; "time"].

(** [if c not in self.df.columns: self.df[c] = v] *)
Definition init_column (c : string) (fill : Row → Row) (df : DataFrame)
    : DataFrame :=
  if PyStr.str_in c (columns df) then df
  else mkDataFrame (columns df ++ [c]) (fill <$> data df).

(** The cosmetic columns (colours, fonts, sizes) are not part of [Row]. *)
Definition initialize_dataframe_columns (df : DataFrame) : DataFrame :=
  let df := init_column "PosX" (set_PosX 0) df in
  let df := init_column "PosY" (set_PosY 0) df in
  let df := init_column "Width" (set_Width 6) df in
  let df := init_column "Height" (set_Height 14) df in
  let df := init_column "PosX.1" (set_PosX_1 INITIAL_X) df in
  let df := init_column "PosY.1" (set_PosY_1 INITIAL_Y) df in
  let df := init_column "Width.1" (set_Width_1 50) df in
  let df := init_column "Height.1" (set_Height_1 50) df in
  df.

(** [math.ceil(z / 2)] on an integer [z]. *)
Definition ceil_half (z : Z) : Z := - ((- z) `div` 2).

Definition panel_width (dashboard_elements : list (nat * Row)) : Z :=
  let width := 6 in
  if bool_decide ("Report" ∈ (Object_Type ∘ snd) <$> dashboard_elements)
  then width + 3 else width.

Definition panel_height (dashboard_elements : list (nat * Row)) : Z :=
  let field_count := Z.of_nat (length dashboard_elements) in
  let height := 14 in
  let height :=
    if bool_decide (field_count > 8)
    then height + ceil_half (field_count - 8) * 2 else height in
  let height :=
    if bool_decide
         ("Report Summary" ∈ (View_Type ∘ snd) <$> dashboard_elements)
    then height + 4 else height in
  height.

Record cursor := mkCursor {
  current_x : Z;
  current_y : Z;
  max_height_in_row : Z
}.

(** The four [df.at] writes of the innermost loop. *)
Definition set_panel (x y w h : Z) (r : Row) : Row :=
  set_Height h (set_Width w (set_PosY y (set_PosX x r))).

(** The cursor update that ends the body of the dashboard loop. *)
Definition advance (c : cursor) (width height : Z) : cursor :=
  let max_height_in_row := Z.max (max_height_in_row c) height in
  let current_x := current_x c + width in
  if bool_decide (current_x >= 18)
  then mkCursor 0 (current_y c + (max_height_in_row + 5)) 0
  else mkCursor current_x (current_y c) max_height_in_row.

(** The body of [for dashboard in dashboards]. *)
Definition place_dashboard (module_df : list (nat * Row))
    (acc : list Row * cursor) (dashboard : string) : list Row * cursor :=
  let '(df, c) := acc in
  let dashboard_elements :=
    filter (λ ir : nat * Row, Dashboard ir.2 = dashboard) module_df in
  let width := panel_width dashboard_elements in
  let height := panel_height dashboard_elements in
  let df :=
    fold_left
      (λ df idx, alter (set_panel (current_x c) (current_y c) width height)
                       idx df)
      (dashboard_elements.*1) df in
  (df, advance c width height).

(** The body of [for module in modules]. *)
Definition position_module (df : list Row) (module : string) : list Row :=
  let module_df :=
    filter (λ ir : nat * Row, Module_ ir.2 = module) (enumerate df) in
  let dashboards := PyStr.unique ((Dashboard ∘ snd) <$> module_df) in
  (fold_left (place_dashboard module_df) dashboards (df, mkCursor 0 0 0)).1.

Definition position_dashboard_panels_by_module (modules : list string)
    (df : list Row) : list Row :=
  fold_left position_module modules df.

(** [field.lower().replace('-', ' ').replace('_', ' ')] *)
Definition normalize (field : string) : string :=
  PyStr.replace_char "_" " " (PyStr.replace_char "-" " " (PyStr.lower field)).

(** [any(p in s for p in patterns)] *)
Definition any_in (patterns : list string) (s : string) : bool :=
  existsb (λ p, PyStr.contains p s) patterns.

Definition priority_map : list (list string * Z) :=
  [ (["id"; "code"; "number"; "key"], -10);
    (["name"; "title"; "label"], -5);
    (["date"; "created"; "modified"; "time"], 0);
    (["status"; "state"; "condition"; "phase"], 5);
    (["amount"; "price"; "cost"; "value"; "total"], 10);
    (["email"; "phone"; "contact"; "address"], 15) ].

(** The [for pattern_list, score in priority_map] loop with its early
    return, and the fallback after it. *)
Fixpoint scan_priority (pm : list (list string * Z)) (field_lower : string)
    : Z :=
  match pm with
  | [] => 20
  | (pattern_list, score) :: pm' =>
      if any_in pattern_list field_lower then score
      else scan_priority pm' field_lower
  end.

Definition advanced_field_priority (field : cell) : Z :=
  match field with
  | CStr s => scan_priority priority_map (normalize s)
  | _ => 100
  end.

(** The built-in [sorted(l, key=key)]: ascending by key, equal keys in
    their original order. *)
Fixpoint insert_by {A} (key : A → Z) (x : A) (l : list A) : list A :=
  match l with
  | [] => [x]
  | y :: l' => if key x <=? key y then x :: l else y :: insert_by key x l'
  end.

Definition sorted {A} (key : A → Z) (l : list A) : list A :=
  foldr (insert_by key) [] l.

(** [min(max(1, math.ceil(math.sqrt(field_count))), 4)].  The floating
    point square root and [Z.sqrt_up] give the same clamped value: on
    counts up to 9 the float is exact at the squares and strictly between
    two integers elsewhere, and from 10 on both ceilings are at least 4. *)
Definition column_count (field_count : nat) : Z :=
  Z.min (Z.max 1 (Z.sqrt_up (Z.of_nat field_count))) 4.

(** [w * 1.5]; exact on the even widths 50 and 100 that reach it. *)
Definition times_1_5 (w : Z) : Z := (w * 3) `div` 2.

(** The sizing block for a string [field_name]: (width, height). *)
Definition field_size (field_name : string) : Z * Z :=
  let normalized_field := normalize field_name in
  let field_width := 50 in
  let field_height := 74 in
  let '(field_width, field_height) :=
    if any_in ["description"; "comment"; "notes"] normalized_field
    then (100, 100)
    else if any_in DATE_PATTERN normalized_field then (field_width, 64)
    else if any_in ID_PATTERN normalized_field then (field_width, 50)
    else (field_width, field_height) in
  let field_width :=
    if bool_decide (Z.of_nat (String.length field_name) > 15)
    then Z.min (times_1_5 field_width) 100 else field_width in
  (field_width, field_height).

(** The body of [for position, idx in enumerate(sorted_indices)]. *)
Definition place_field (column_count : Z) (df : list Row) (pi : nat * nat)
    : list Row :=
  let '(position, idx) := pi in
  let col := Z.of_nat position `mod` column_count in
  let row := Z.of_nat position `div` column_count in
  let x_pos := INITIAL_X + col * HORIZONTAL_STEP in
  let y_pos := INITIAL_Y + row * VERTICAL_STEP in
  let df := alter (set_PosY_1 y_pos ∘ set_PosX_1 x_pos) idx df in
  match field_at df idx with
  | CStr field_name =>
      let '(field_width, field_height) := field_size field_name in
      alter (set_Height_1 field_height ∘ set_Width_1 field_width) idx df
  | _ => df
  end.

(** [self.df[self.df["Dashboard"] == dashboard]] *)
Definition dashboard_df (df : list Row) (dashboard : string)
    : list (nat * Row) :=
  filter (λ ir : nat * Row, Dashboard ir.2 = dashboard) (enumerate df).

(** The index labels of a dashboard in the order of
    [sorted(field_indices, key=...)]. *)
Definition sorted_indices (df : list Row) (dashboard : string) : list nat :=
  let field_indices := (dashboard_df df dashboard).*1 in
  sorted (λ idx, advanced_field_priority (field_at df idx)) field_indices.

(** The body of the loop over [self.df["Dashboard"].unique()]. *)
Definition layout_dashboard (df : list Row) (dashboard : string)
    : list Row :=
  let dashboard_df := dashboard_df df dashboard in
  let field_count := length dashboard_df in
  let column_count := column_count field_count in
  let sorted_indices := sorted_indices df dashboard in
  fold_left (place_field column_count) (enumerate sorted_indices) df.

Definition position_dashboard_fields (df : list Row) : list Row :=
  fold_left layout_dashboard (PyStr.unique (Dashboard <$> df)) df.

(** *** [generate_view_type_attributes] *)

(** [dropna().astype(str)] on one value of the [Field] column. *)
Definition cell_str (c : cell) : option string :=
  match c with
  | CStr s => Some s
  | CNull => None
  | CInt n => Some (pretty n)
  end.

Definition clean_field (field : string) : string :=
  PyStr.strip (PyStr.replace_char " " EmptyString field).

Definition group_key (r : Row) : string * string * string :=
  (Dashboard r, Object_Name r, View_Type r).

(** The order in which [groupby] yields its groups: ascending key tuples. *)
Definition key_le (a b : string * string * string) : Prop :=
  match String.compare a.1.1 b.1.1 with
  | Lt => True
  | Gt => False
  | Eq => match String.compare a.1.2 b.1.2 with
          | Lt => True
          | Gt => False
          | Eq => String.le a.2 b.2
          end
  end.

#[global] Instance key_le_dec : RelDecision key_le.
Proof.
  intros a b. unfold key_le.
  destruct (String.compare a.1.1 b.1.1); [|apply _..].
  destruct (String.compare a.1.2 b.1.2); apply _.
Defined.

Definition group_keys (df : list Row) : list (string * string * string) :=
  merge_sort key_le (PyStr.unique (group_key <$> df)).

(** The attribute string of one group. *)
Definition attr_string (group : list (nat * Row)) : string :=
  let field_names := PyStr.unique (omap (cell_str ∘ Field ∘ snd) group) in
  let fields_cleaned :=
    clean_field
      <$> filter (λ f, PyStr.lower (PyStr.strip f) ≠ "record id")
                 field_names in
  PyStr.join "|" ((λ f, f +:+ "::False::0::0") <$> fields_cleaned).

(** The body of the loop over the groups. *)
Definition write_group (df : list Row) (key : string * string * string)
    : list Row :=
  let group :=
    filter (λ ir : nat * Row, group_key ir.2 = key) (enumerate df) in
  let attr_string := attr_string group in
  fold_left (λ df idx, alter (set_View_Type_Attributes attr_string) idx df)
            (group.*1) df.

Definition generate_view_type_attributes (df : DataFrame) : DataFrame :=
  let df :=
    init_column "View Type Attributes"
                (set_View_Type_Attributes EmptyString) df in
  mkDataFrame (columns df)
              (fold_left write_group (group_keys (data df)) (data df)).

(** *** [apply_smart_layout] *)

Definition layoutPanels (df : list Row) : list Row :=
  position_dashboard_panels_by_module (PyStr.unique (Module_ <$> df)) df.

Definition apply_smart_layout (df : DataFrame) : DataFrame :=
  let df := initialize_dataframe_columns df in
  let df := mkDataFrame (columns df) (layoutPanels (data df)) in
  let df := mkDataFrame (columns df) (position_dashboard_fields (data df)) in
  generate_view_type_attributes df.

(** ** The specification's reading of the layout, for comparison *)

Module Spec.

(** The rows of one panel: those of module [m] and dashboard [d]. *)
Definition panel_rows (df : list Row) (m d : string) : list Row :=
  filter (λ r, Module_ r = m ∧ Dashboard r = d) df.

(** The dashboards of module [m] in first-seen order. *)
Definition dashboards_of (df : list Row) (m : string) : list string :=
  PyStr.unique (Dashboard <$> filter (λ r, Module_ r = m) df).

(** The ceiling of [n / 2]. *)
Definition ceil_div2 (n : Z) : Z := (n + 1) `div` 2.

(** Base 6, plus 3 if any row of the group has object type Report. *)
Definition panel_width (g : list Row) : Z :=
  6 + (if decide (Exists (λ r, Object_Type r = "Report") g) then 3 else 0).

(** Base 14, plus [2 * ceil ((fieldCount - 8) / 2)] beyond 8 rows, plus 4
    if any row of the group has the view type [summary]. *)
Definition panel_height (summary : string) (g : list Row) : Z :=
  let fieldCount := Z.of_nat (length g) in
  14
  + (if decide (8 < fieldCount) then 2 * ceil_div2 (fieldCount - 8) else 0)
  + (if decide (Exists (λ r, View_Type r = summary) g) then 4 else 0).

(** The cursor (currentX, currentY, maxHeightInRow) after a panel of the
    given width and height has been placed at it. *)
Definition step (c : Z * Z * Z) (wh : Z * Z) : Z * Z * Z :=
  let '(currentX, currentY, maxHeightInRow) := c in
  let '(width, height) := wh in
  let maxHeightInRow := Z.max maxHeightInRow height in
  let currentX := currentX + width in
  if decide (18 ≤ currentX) then (0, currentY + maxHeightInRow + 5, 0)
  else (currentX, currentY, maxHeightInRow).

(** The sizes of the panels of module [m], in placement order. *)
Definition panel_sizes (summary : string) (df : list Row) (m : string)
    : list (Z * Z) :=
  (λ d, (panel_width (panel_rows df m d),
         panel_height summary (panel_rows df m d)))
    <$> dashboards_of df m.

(** The cursor at which the [k]-th panel of module [m] is placed. *)
Definition cursor_at (summary : string) (df : list Row) (m : string)
    (k : nat) : Z * Z * Z :=
  fold_left step (take k (panel_sizes summary df m)) (0, 0, 0).


(** The name in lower case with hyphens and underscores turned into
    spaces, one character at a time. *)
Definition normalize_char (c : ascii) : ascii :=
  if (Ascii.eqb c "-" || Ascii.eqb c "_")%bool then " "%char
  else PyStr.lower_char c.

Fixpoint normalize (name : string) : string :=
  match name with
  | EmptyString => EmptyString
  | String c rest => String (normalize_char c) (normalize rest)
  end.

(** The six pattern groups in order, first match wins. *)
Definition score (name : string) : Z :=
  let n := normalize name in
  if any_in ["id"; "code"; "number"; "key"] n then -10
  else if any_in ["name"; "title"; "label"] n then -5
  else if any_in ["date"; "created"; "modified"; "time"] n then 0
  else if any_in ["status"; "state"; "condition"; "phase"] n then 5
  else if any_in ["amount"; "price"; "cost"; "value"; "total"] n then 10
  else if any_in ["email"; "phone"; "contact"; "address"] n then 15
  else 20.

(** Field box (width, height): the pattern override, then the length
    rule on the raw name. *)
Definition box (name : string) : Z * Z :=
  let n := normalize name in
  let '(width, height) :=
    if any_in ["description"; "comment"; "notes"] n then (100, 100)
    else if any_in ["date"; "created"; "modified"; "time"] n then (50, 64)
    else if any_in ["id"; "code"; "number"; "key"] n then (50, 50)
    else (50, 74) in
  (if decide (15 < String.length name)%nat
   then Z.min ((width * 3) `div` 2) 100 else width, height).


(** The sub-grid has [clamp (ceil (sqrt fieldCount)) 1 4] columns: [s]
    is the least natural number whose square reaches [fieldCount]. *)
Definition is_ceil_sqrt (fieldCount s : Z) : Prop :=
  0 ≤ s ∧ fieldCount ≤ s * s ∧ ∀ t, 0 ≤ t → fieldCount ≤ t * t → s ≤ t.

(** The rows of a view group with their field values, in encounter
    order. *)
Definition view_rows (df : list Row) (key : string * string * string)
    : list Row :=
  filter (λ r, group_key r = key) df.

Definition remove_spaces (s : string) : string :=
  PyStr.replace_char " " EmptyString s.

Definition is_fallback (f : string) : Prop :=
  PyStr.lower (PyStr.strip f) = "record id".

#[global] Instance is_fallback_dec f : Decision (is_fallback f).
Proof. unfold is_fallback. apply _. Defined.

(** The serialized attribute string of a group, with the cleaning of a
    name left open. *)
Definition serialize (clean : string → string) (g : list Row) : string :=
  PyStr.join "|"
    ((λ f, clean f +:+ "::False::0::0")
       <$> filter (λ f, ¬ is_fallback f)
             (PyStr.unique (omap (cell_str ∘ Field) g))).

Definition view_attributes (clean : string → string)
    (pass : list Row → list Row) : Prop :=
  ∀ (df : list Row) (i : nat) (r : Row),
    df !! i = Some r →
    pass df !! i =
      Some (set_View_Type_Attributes
              (serialize clean (view_rows df (group_key r))) r).

End Spec.

(** ** Auxiliary notions used to state and prove the properties *)

(** Position of the first occurrence of [x] in [l] (0 if there is none). *)
Definition index_of {A} `{EqDecision A} (x : A) (l : list A) : nat :=
  from_option fst 0%nat (list_find (λ y, y = x) l).

(** A row with the columns written by the panel pass erased. *)
Definition erase_panel (r : Row) : Row := set_panel 0 0 0 0 r.

Definition cursor_triple (c : cursor) : Z * Z * Z :=
  (current_x c, current_y c, max_height_in_row c).

(** Where the panel pass leaves a row of the frame [df]. *)
Definition panel_target (df : list Row) (i : nat) (r : Row) : Row :=
  let k := index_of (Dashboard r) (Spec.dashboards_of df (Module_ r)) in
  let c := Spec.cursor_at "Report Summary" df (Module_ r) k in
  let g := Spec.panel_rows df (Module_ r) (Dashboard r) in
  set_panel c.1.1 c.1.2 (Spec.panel_width g)
            (Spec.panel_height "Report Summary" g) r.

(** A row with the columns written by the field pass erased; the box of
    a row whose field is not a string is not written. *)
Definition erase_field (r : Row) : Row :=
  match Field r with
  | CStr _ => set_Height_1 0 (set_Width_1 0 (set_PosY_1 0 (set_PosX_1 0 r)))
  | _ => set_PosY_1 0 (set_PosX_1 0 r)
  end.

(** What the field pass does to the row laid out at sorted position [p]
    of a sub-grid of [cc] columns. *)
Definition field_update (cc : Z) (p : nat) (r : Row) : Row :=
  let x_pos := INITIAL_X + (Z.of_nat p `mod` cc) * HORIZONTAL_STEP in
  let y_pos := INITIAL_Y + (Z.of_nat p `div` cc) * VERTICAL_STEP in
  let r1 := set_PosY_1 y_pos (set_PosX_1 x_pos r) in
  match Field r with
  | CStr field_name =>
      set_Height_1 (field_size field_name).2
                   (set_Width_1 (field_size field_name).1 r1)
  | _ => r1
  end.

(** Where the field pass leaves a row of the frame [df]. *)
Definition field_target (df : list Row) (i : nat) (r : Row) : Row :=
  field_update (column_count (length (dashboard_df df (Dashboard r))))
               (index_of i (sorted_indices df (Dashboard r))) r.

(** A row with the column written by the serializer erased. *)
Definition erase_attributes (r : Row) : Row :=
  set_View_Type_Attributes EmptyString r.

(** Where the serializer leaves a row of the frame [df]. *)
Definition view_target (df : list Row) (i : nat) (r : Row) : Row :=
  set_View_Type_Attributes
    (Spec.serialize clean_field (Spec.view_rows df (group_key r))) r.

(** The serializer as a function on the rows of a frame with the columns
    [cols]. *)
Definition serialize_rows (cols : list string) (rows : list Row)
    : list Row :=
  data (generate_view_type_attributes (mkDataFrame cols rows)).

(** The ids handed out from the state [st] on, row by row. *)
Fixpoint stamp (st : id_state) (rows : list Row) : list Row :=
  match rows with
  | [] => []
  | row :: rest =>
      let st' := note_key (dashboard_key row) st in
      set_Element_Id (pretty (dashboard_map st' !!! dashboard_key row)) row
        :: stamp st' rest
  end.

(** The state reached after the keys [seen]: the counter is one more than
    the number of distinct keys, and each key maps to one more than its
    position in first-seen order. *)
Definition ids_invariant (seen : list string) (st : id_state) : Prop :=
  element_counter st = S (length (PyStr.unique seen)) ∧
  ∀ key, dashboard_map st !! key
         = if decide (key ∈ seen)
           then Some (S (index_of key (PyStr.unique seen))) else None.

(** The columns the validator accepts for a table. *)
Definition valid_columns (user_data_summary : gmap string (list string))
    (table_name : string) : list string :=
  sanitize_field <$> default [] (user_data_summary !! table_name).

Definition invalid_field (user_data_summary : gmap string (list string))
    (row : TableGen.Row) : Prop :=
  sanitize_field (TableGen.Field row)
    ∉ valid_columns user_data_summary (TableGen.Table_Name row).

(** Panel geometry of a row, and everything the later passes must leave
    alone. *)
Definition geometry (r : Row) : Z * Z * Z * Z :=
  (PosX r, PosY r, Width r, Height r).

Definition panel_part (r : Row)
    : string * string * string * string * string * string * cell
      * (Z * Z * Z * Z) :=
  (Module_ r, Dashboard r, Element_Id r, Object_Type r, Object_Name r,
   View_Type r, Field r, geometry r).


(** A frame row with only the key columns filled in. *)
Definition blank_row (module dashboard object_type object_name view_type
    : string) (field : cell) : Row :=
  mkRow module dashboard EmptyString object_type object_name view_type field
        0 0 0 0 0 0 0 0 EmptyString.

(** The columns of a row that every layout pass only reads. *)
Definition layout_inputs (r : Row)
    : string * string * string * string * string * string * cell :=
  (Module_ r, Dashboard r, Element_Id r, Object_Type r, Object_Name r,
   View_Type r, Field r).

Definition is_string (c : cell) : Prop :=
  match c with CStr _ => True | _ => False end.

#[global] Instance invalid_field_dec summary row :
  Decision (invalid_field summary row).
Proof. unfold invalid_field. apply _. Defined.


Definition id_rows : list Row :=
  [ blank_row "M1" "D1" "Table" "T" "List" (CStr "A");
    blank_row "M1" "D1" "Table" "T" "List" (CStr "B");
    blank_row "M1" "D2" "Table" "T" "List" (CStr "C");
    blank_row "M2" "D1" "Table" "T" "List" (CStr "D") ].

Definition six_panels : list Row :=
  (λ d, blank_row "Sales" d "Table" "T" "List" (CStr "Name"))
    <$> ["P1"; "P2"; "P3"; "P4"; "P5"; "P6"].

Definition summary_row : Row :=
  blank_row "Sales" "Totals" "Table" "Orders" "ReportSummary" (CStr "Total").

Definition priority_rows : list Row :=
  (λ f, blank_row "Sales" "Orders" "Table" "Orders" "List" (CStr f))
    <$> ["Description"; "OrderID"; "CreatedDate"].

Definition shipping_rows : list Row :=
  (λ f, blank_row "Sales" "Orders" "Table" "Orders" "List" (CStr f))
    <$> ["Order ID"; "Record ID"; "Ship Date"].

(** A field name that starts with a tab character. *)
Definition tab_row : Row :=
  blank_row "Sales" "Orders" "Table" "Orders" "List"
            (CStr (String "009"%char "Qty")).

Definition mixed_frame : DataFrame :=
  mkDataFrame
    ["Module"; "Dashboard"; "Object Type"; "Object Name"; "View Type"; "Field"]
    [ blank_row "Sales" "Orders" "Table" "Orders" "List" (CStr "OrderID");
      blank_row "Sales" "Orders" "Report" "Orders" "Report Summary" CNull;
      blank_row "Stock" "Orders" "Table" "Items" "List" (CStr "Notes") ].

(** ** Notions used for the further properties of the layout *)

(** Two rectangles (x, y, width, height) that do not overlap. *)
Definition disjoint_rect (a b : Z * Z * Z * Z) : Prop :=
  let '(xa, ya, wa, ha) := a in
  let '(xb, yb, wb, hb) := b in
  xa + wa ≤ xb ∨ xb + wb ≤ xa ∨ ya + ha ≤ yb ∨ yb + hb ≤ ya.

(** A cursor the panel pass can reach: the column is 0, 6, 9, 12 or 15,
    the row and the band height are not negative. *)
Definition cursor_ok (c : Z * Z * Z) : Prop :=
  0 ≤ c.1.1 < 18 ∧ c.1.1 ≠ 3 ∧ c.1.1 `mod` 3 = 0 ∧ 0 ≤ c.1.2 ∧ 0 ≤ c.2.

(** A panel size the pass can compute. *)
Definition size_ok (wh : Z * Z) : Prop :=
  (wh.1 = 6 ∨ wh.1 = 9) ∧ 14 ≤ wh.2 ∧ wh.2 `mod` 2 = 0.

(** A row with every column written by [apply_smart_layout] erased. *)
Definition erase_layout (r : Row) : Row :=
  set_View_Type_Attributes EmptyString
    (set_Height_1 0 (set_Width_1 0 (set_PosY_1 0 (set_PosX_1 0
       (set_panel 0 0 0 0 r))))).

(** ** Splitting and the fenced payload of a completion *)

(** [String a] onto the first piece of a split. *)
Definition cons_head (a : ascii) (pieces : list string) : list string :=
  match pieces with
  | [] => [String a EmptyString]
  | p :: ps => String a p :: ps
  end.

(** [s.split(sep)] for a separator that is not empty: the pieces between
    the occurrences of [sep] found from left to right without overlap.
    [skip] counts the characters of a found separator still to pass. *)
Fixpoint split_go (sep : string) (skip : nat) (s : string) : list string :=
  match s with
  | EmptyString => [EmptyString]
  | String a s' =>
      match skip with
      | S k => split_go sep k s'
      | O =>
          if PyStr.startswith sep s
          then EmptyString :: split_go sep (String.length sep - 1) s'
          else cons_head a (split_go sep 0 s')
      end
  end.

Definition split (sep s : string) : list string := split_go sep 0 s.

(** The fence handling shared by the [parse_ai_response] methods and
    [parse_response]:
    [if FENCE in r: r = r.split(FENCE)[1].split(TICKS)[0].strip()],
    with [None] for an index out of range. *)
Definition fenced_payload (ai_response : string) : option string :=
  if PyStr.contains "```json" ai_response
  then piece ← split "```json" ai_response !! 1%nat;
       body ← split "```" piece !! 0%nat;
       Some (PyStr.strip body)
  else Some ai_response.

(** ** [clean_dashboard_fields] *)

(** [s.replace(old, new)] for an [old] that is not empty. *)
Fixpoint replace_go (old new : string) (skip : nat) (s : string) : string :=
  match s with
  | EmptyString => EmptyString
  | String a s' =>
      match skip with
      | S k => replace_go old new k s'
      | O =>
          if PyStr.startswith old s
          then new +:+ replace_go old new (String.length old - 1) s'
          else String a (replace_go old new 0 s')
      end
  end.

Definition str_replace (old new s : string) : string := replace_go old new 0 s.

(** [astype(str)] on a value of the [Field] column; [null_text] is what
    it makes of the missing value ([None] or [nan]). *)
Definition cell_text (null_text : string) (c : cell) : string :=
  match c with
  | CStr s => s
  | CNull => null_text
  | CInt n => pretty n
  end.

(** The four column assignments at the head of [clean_dashboard_fields],
    on one row.  The module imports [sanitize_field] as the sanitizer of
    the table generator; it is the function defined above. *)
Definition clean_row (null_text : string) (r : Row) : Row :=
  mkRow (PyStr.strip (Module_ r))
        (PyStr.strip (str_replace " Dashboard" EmptyString (Dashboard r)))
        (Element_Id r) (Object_Type r)
        (PyStr.strip (Object_Name r)) (View_Type r)
        (CStr (PyStr.strip (sanitize_field (cell_text null_text (Field r)))))
        (PosX r) (PosY r) (Width r) (Height r)
        (PosX_1 r) (PosY_1 r) (Width_1 r) (Height_1 r)
        (View_Type_Attributes r).

(** One segment of an attribute string: the name is sanitized, the next
    three parts are kept; [None] when a part is missing. *)
Definition clean_attr (attr : string) : option string :=
  match split "::" attr with
  | p0 :: p1 :: p2 :: p3 :: _ =>
      Some (sanitize_field p0 +:+ "::" +:+ p1 +:+ "::" +:+ p2 +:+ "::" +:+ p3)
  | _ => None
  end.

(** The body of the loop over the rows: an empty attribute string is
    left alone. *)
Definition clean_attributes (attrs : string) : option string :=
  match attrs with
  | EmptyString => Some attrs
  | _ =>
      cleaned_attrs ← mapM clean_attr (split "|" attrs);
      Some (PyStr.join "|" cleaned_attrs)
  end.

Definition clean_dashboard_fields (null_text : string) (df : DataFrame)
    : option DataFrame :=
  let rows := clean_row null_text <$> data df in
  if PyStr.str_in "View Type Attributes" (columns df)
  then rows ← mapM (λ r, attrs ← clean_attributes (View_Type_Attributes r);
                         Some (set_View_Type_Attributes attrs r)) rows;
       Some (mkDataFrame (columns df) rows)
  else Some (mkDataFrame (columns df) rows).

(** A string without white space at either end. *)
Definition trimmed (s : string) : Prop :=
  PyStr.lstrip s = s ∧ PyStr.rstrip s = s.
(** The two statements of [main_pipeline] that work on the generated
    frame before it is exported: the cleaning, then the layout. *)
Definition main_pipeline (null_text : string) (dashboard_df : DataFrame)
    : option DataFrame :=
  dashboard_df ← clean_dashboard_fields null_text dashboard_df;
  Some (apply_smart_layout dashboard_df).

(** A frame as the generator may return it: names with white space, the
    dashboard suffix and punctuation. *)
Definition generated_frame : DataFrame :=
  mkDataFrame
    ["Module"; "Dashboard"; "Object Type"; "Object Name"; "View Type"; "Field"]
    [ blank_row " Sales" "Orders Dashboard" "Table" "Orders " "List"
                (CStr " Order_ID ");
      blank_row " Sales" "Orders Dashboard" "Table" "Orders " "List"
                (CStr "Ship (Date)");
      blank_row " Sales" "Orders Dashboard" "Table" "Orders " "List"
                (CInt 7);
      blank_row " Sales" "Orders Dashboard" "Table" "Orders " "List" CNull ].

(** The attribute string of a list of names, as the serializer writes
    it. *)
Definition attributes_of (names : list string) : string :=
  PyStr.join "|" ((λ n, n +:+ "::False::0::0") <$> names).

(** One segment of an attribute string, as the f-string of
    [clean_dashboard_fields] writes it from its four parts. *)
Definition attribute_segment (q : string * string * string * string)
    : string :=
  q.1.1.1 +:+ "::" +:+ q.1.1.2 +:+ "::" +:+ q.1.2 +:+ "::" +:+ q.2.

(** A part that holds neither of the separator characters. *)
Definition plain (s : string) : Prop :=
  PyStr.has_char "|" s = false ∧ PyStr.has_char ":" s = false.

Definition plain_parts (q : string * string * string * string) : Prop :=
  plain q.1.1.1 ∧ plain q.1.1.2 ∧ plain q.1.2 ∧ plain q.2.

Definition sanitize_name (q : string * string * string * string)
    : string * string * string * string :=
  (sanitize_field q.1.1.1, q.1.1.2, q.1.2, q.2).

(** Two rows that differ in the dashboard suffix only, and two rows with
    a bar in the module name. *)
Definition suffix_rows : list Row :=
  [ blank_row "Sales" "Orders Dashboard" "Table" "Orders" "List" (CStr "A");
    blank_row "Sales" "Orders" "Table" "Orders" "List" (CStr "B") ].

Definition bar_rows : list Row :=
  [ blank_row "A|B" "C" "Table" "T" "List" (CStr "A");
    blank_row "A" "B|C" "Table" "T" "List" (CStr "B") ].

(** ** [TableGeneratorAI.parse_ai_response]: the rows of the completion *)

Module TableParse.

(** A value of a parsed row.  [JOther] stands for the values that the
    loop can only test for truth and turn into text (floats, arrays,
    objects): it records the truth value of the value and the text
    [str] gives for it, which is never empty. *)
Inductive json :=
| JNull
| JBool (b : bool)
| JInt (n : Z)
| JStr (s : string)
| JOther (truthy : bool) (head : ascii) (rest : string).

#[global] Instance json_eq_dec : EqDecision json.
Proof. solve_decision. Defined.

(** [bool(v)] *)
Definition py_bool (v : json) : bool :=
  match v with
  | JNull => false
  | JBool b => b
  | JInt n => negb (n =? 0)
  | JStr s => negb (String.eqb s EmptyString)
  | JOther truthy _ _ => truthy
  end.

(** [str(v)] *)
Definition py_str (v : json) : string :=
  match v with
  | JNull => "None"
  | JBool true => "True"
  | JBool false => "False"
  | JInt n => pretty n
  | JStr s => s
  | JOther _ head rest => String head rest
  end.

(** [v or d] *)
Definition py_or (v d : json) : json := if py_bool v then v else d.

(** The argument of a string method: anything but a string has no such
    method and the call raises. *)
Definition as_str (v : json) : option string :=
  match v with
  | JStr s => Some s
  | _ => None
  end.

Definition BOOLEAN_COLUMNS : list string :=
  [ "Notes?"; "Events?"; "Timers?"; "Delete?"; "Clone?"; "Hide Search?";
    "Web Form?"; "Required?"; "Auto Increment?";
    "Recalculate on each update ?"; "Field Group Show Icon" ].

(** [row.get(key, default)] and [row.setdefault(key, default)] *)
Definition get (row : gmap string json) (key : string) (default_ : json)
    : json :=
  default default_ (row !! key).

Definition setdefault (key : string) (default_ : json)
    (row : gmap string json) : gmap string json :=
  match row !! key with
  | Some _ => row
  | None => <[key := default_]> row
  end.

(** The body of the loop over the parsed rows; [None] when a string
    method is called on a value that is not a string. *)
Definition parse_row (row : gmap string json) : option (gmap string json) :=
  let row := setdefault "Display Field" (JStr "Record ID") row in
  let row := setdefault "Unique Id" (JStr "Record ID") row in
  format ← as_str (get row "Format" (JStr EmptyString));
  let row :=
    if decide (PyStr.lower (PyStr.strip format) ≠ "custom")
    then <["Format" := JStr EmptyString]> row
    else row in
  let row :=
    if py_bool (get row "Auto Increment?" (JBool false))
    then <["Auto Increment Start" :=
             JStr (py_str (py_or (get row "Auto Increment Start" JNull)
                                 (JStr "1")))]> row
    else row in
  data_type ← as_str (get row "Data Type" (JStr EmptyString));
  let row :=
    if PyStr.str_in (PyStr.lower data_type) ["decimal"; "integer"]
    then <["Decimal Place" :=
             JStr (py_str (py_or (get row "Decimal Place" JNull)
                                 (JStr "0")))]> row
    else <["Decimal Place" := JStr EmptyString]> row in
  let row :=
    <["FieldGroupId" :=
        JStr (py_str (py_or (get row "FieldGroupId" JNull)
                            (JStr EmptyString)))]> row in
  Some (fold_left
          (λ row bool_col,
             <[bool_col := JBool (py_bool (get row bool_col (JBool false)))]>
               row)
          BOOLEAN_COLUMNS row).

(** The loop over [parsed_data]. *)
Definition parse_rows (parsed_data : list (gmap string json))
    : option (list (gmap string json)) :=
  mapM parse_row parsed_data.

(** The value the loop leaves under [key], read off the row it was
    given. *)
Definition parsed_value (row : gmap string json) (key : string)
    : option json :=
  if decide (key ∈ BOOLEAN_COLUMNS)
  then Some (JBool (py_bool (get row key (JBool false))))
  else if decide (key = "FieldGroupId")
  then Some (JStr (py_str (py_or (get row key JNull) (JStr EmptyString))))
  else if decide (key = "Decimal Place")
  then Some (JStr
         (if PyStr.str_in
               (PyStr.lower
                  (default EmptyString
                     (as_str (get row "Data Type" (JStr EmptyString)))))
               ["decimal"; "integer"]
          then py_str (py_or (get row key JNull) (JStr "0"))
          else EmptyString))
  else if decide (key = "Auto Increment Start")
  then (if py_bool (get row "Auto Increment?" (JBool false))
        then Some (JStr (py_str (py_or (get row key JNull) (JStr "1"))))
        else row !! key)
  else if decide (key = "Format")
  then Some (JStr
         (let format :=
            default EmptyString
              (as_str (get row "Format" (JStr EmptyString))) in
          if decide (PyStr.lower (PyStr.strip format) ≠ "custom")
          then EmptyString else format))
  else if decide (key ∈ ["Display Field"; "Unique Id"])
  then Some (get row key (JStr "Record ID"))
  else row !! key.

(** A row as a completion may hold it. *)
Definition order_row : gmap string json :=
  {[ "Table Name" := JStr "Orders"; "Field" := JStr "Order ID";
     "Format" := JStr " Custom "; "Auto Increment?" := JInt 1;
     "Data Type" := JStr "Integer"; "Decimal Place" := JNull;
     "Notes?" := JStr "yes"; "FieldGroupId" := JInt 0 ]}.

End TableParse.

(** ** [extract_module_table_map] *)

(** The two columns of the table sheet that the function reads. *)
Record TableRow := mkTableRow {
  table_module : string;
  table_name : string
}.

(** [dict] built over [tables_df.groupby("Module")]: the groups come in
    ascending order of the module name, each with the distinct table
    names of its rows in first-seen order. *)
Definition extract_module_table_map (tables_df : list TableRow)
    : gmap string (list string) :=
  fold_left
    (λ module_map module,
       let group := filter (λ r, table_module r = module) tables_df in
       let tables := PyStr.unique (table_name <$> group) in
       <[module := tables]> module_map)
    (merge_sort String.le (PyStr.unique (table_module <$> tables_df)))
    ∅.

(** ** The two helper methods of [PositionalAligner] *)

Definition NAME_PATTERN : list string := ["name"; "title"; "label"].
Definition AMOUNT_PATTERN : list string :=
  ["amount"; "price"; "cost"; "value"; "total"].
Definition STATUS_PATTERN : list string :=
  ["status"; "state"; "condition"; "phase"].
Definition CONTACT_PATTERN : list string :=
  ["email"; "phone"; "contact"; "address"].

(** [get_field_priority]: the name is used as it is given. *)
Definition get_field_priority (field_name : string) : Z :=
  if any_in ID_PATTERN field_name then 0
  else if any_in NAME_PATTERN field_name then 1
  else if any_in DATE_PATTERN field_name then 2
  else if any_in AMOUNT_PATTERN field_name then 3
  else if any_in STATUS_PATTERN field_name then 4
  else if any_in CONTACT_PATTERN field_name then 5
  else 10.

Definition calculate_field_height (field_name : string) : Z :=
  let lower_field := PyStr.lower field_name in
  if any_in ["description"; "comment"; "notes"; "address"] lower_field
  then 84
  else if any_in DATE_PATTERN lower_field then 64
  else if any_in ID_PATTERN lower_field then 50
  else 74.

(** The score of [advanced_field_priority] for the group that
    [get_field_priority] numbers [p]. *)
Definition group_score (p : Z) : Z :=
  if p =? 0 then -10
  else if p =? 1 then -5
  else if p =? 2 then 0
  else if p =? 3 then 10
  else if p =? 4 then 5
  else if p =? 5 then 15
  else 20.

(** ** Facts about the string primitives *)

Section StringFacts.

Lemma has_char_app c s t :
  PyStr.has_char c (s +:+ t) = PyStr.has_char c s || PyStr.has_char c t.
Proof.
  induction s as [|a s IH]; simpl; [done|].
  by rewrite IH, orb_assoc.
Qed.

Lemma has_char_remove c d s :
  PyStr.has_char c (PyStr.replace_char d EmptyString s)
  = PyStr.has_char c s && negb (Ascii.eqb c d).
Proof.
  induction s as [|a s IH]; simpl; [done|].
  destruct (Ascii.eqb_spec a d) as [->|Had]; simpl.
  - rewrite has_char_app; simpl.
    rewrite IH. destruct (Ascii.eqb_spec d c) as [->|Hdc]; simpl.
    + rewrite Ascii.eqb_refl. simpl. by rewrite andb_false_r.
    + done.
  - rewrite IH. destruct (Ascii.eqb_spec a c) as [->|Hac]; simpl; [|done].
    destruct (Ascii.eqb_spec c d); [congruence|done].
Qed.

Lemma remove_absent c s :
  PyStr.has_char c s = false → PyStr.replace_char c EmptyString s = s.
Proof.
  induction s as [|a s IH]; simpl; [done|].
  intros [Ha Hs]%orb_false_iff. rewrite Ha. by rewrite IH.
Qed.

(** Removing the characters of [cs] one after the other leaves exactly
    the characters outside [cs]. *)
Lemma has_char_fold_remove c cs s :
  PyStr.has_char c
    (fold_left (λ f ch, PyStr.replace_char ch EmptyString f) cs s)
  = PyStr.has_char c s && negb (existsb (Ascii.eqb c) cs).
Proof.
  revert s. induction cs as [|d cs IH]; intros s; simpl.
  - by rewrite andb_true_r.
  - rewrite IH, has_char_remove, negb_orb. by rewrite andb_assoc.
Qed.

Lemma fold_remove_absent cs s :
  (∀ c, c ∈ cs → PyStr.has_char c s = false) →
  fold_left (λ f ch, PyStr.replace_char ch EmptyString f) cs s = s.
Proof.
  revert s. induction cs as [|d cs IH]; intros s Hs; simpl; [done|].
  rewrite remove_absent by (apply Hs; left).
  apply IH. intros c Hc. apply Hs. by right.
Qed.

End StringFacts.

(** ** Facts about lists, frames and index-wise updates *)

Section ListFacts.
Context {A : Type} `{EqDecision A}.
Implicit Types (l : list A) (x y : A).

Lemma elem_of_unique x l : x ∈ PyStr.unique l ↔ x ∈ l.
Proof.
  induction l as [|y l IH]; simpl; [done|].
  rewrite !elem_of_cons, list_elem_of_filter, IH.
  destruct (decide (x = y)); tauto.
Qed.

Lemma NoDup_unique l : NoDup (PyStr.unique l).
Proof.
  induction l as [|y l IH]; simpl; [constructor|].
  constructor; [|by apply NoDup_filter].
  rewrite list_elem_of_filter. intros [Hy _]. by apply Hy.
Qed.

Lemma unique_snoc l x :
  PyStr.unique (l ++ [x])
  = if decide (x ∈ l) then PyStr.unique l else PyStr.unique l ++ [x].
Proof.
  induction l as [|y l IH].
  - case_decide as Hx; [by apply elem_of_nil in Hx|done].
  - change (PyStr.unique ((y :: l) ++ [x]))
      with (y :: filter (λ z, z ≠ y) (PyStr.unique (l ++ [x]))).
    change (PyStr.unique (y :: l))
      with (y :: filter (λ z, z ≠ y) (PyStr.unique l)).
    rewrite IH. destruct (decide (x ∈ l)) as [Hx|Hx].
    + rewrite decide_True by (by right). done.
    + rewrite filter_app. destruct (decide (x = y)) as [->|Hxy].
      * rewrite decide_True by left.
        rewrite filter_cons_False by (intros Hy; by apply Hy).
        by rewrite filter_nil, app_nil_r.
      * rewrite decide_False
          by (rewrite elem_of_cons; intros [?|?]; done).
        by rewrite filter_cons_True.
Qed.

Lemma unique_fmap_ext {B} (f g : B → A) (l : list B) :
  (∀ b, f b = g b) → PyStr.unique (f <$> l) = PyStr.unique (g <$> l).
Proof. intros Hfg. f_equal. apply list_fmap_ext. auto. Qed.

End ListFacts.

Section EnumerateFacts.
Context {A : Type}.
Implicit Types (l : list A).

Lemma enumerate_lookup l i : enumerate l !! i = (λ x, (i, x)) <$> l !! i.
Proof. unfold enumerate. apply list_lookup_imap. Qed.

Lemma elem_of_enumerate l i x : (i, x) ∈ enumerate l ↔ l !! i = Some x.
Proof.
  rewrite list_elem_of_lookup. split.
  - intros [j Hj]. rewrite enumerate_lookup in Hj.
    destruct (l !! j) eqn:E; simplify_eq/=. done.
  - intros Hi. exists i. by rewrite enumerate_lookup, Hi.
Qed.

Lemma enumerate_snd l : (enumerate l).*2 = l.
Proof.
  apply list_eq. intros i.
  rewrite list_lookup_fmap, enumerate_lookup. by destruct (l !! i).
Qed.

Lemma enumerate_fst l : (enumerate l).*1 = seq 0 (length l).
Proof.
  apply list_eq. intros i.
  rewrite list_lookup_fmap, enumerate_lookup.
  destruct (l !! i) eqn:E; simpl.
  - symmetry. apply lookup_seq. split; [done|]. by eapply lookup_lt_Some.
  - symmetry. apply lookup_ge_None. rewrite length_seq.
    by apply lookup_ge_None.
Qed.

Lemma NoDup_enumerate_fst l : NoDup (enumerate l).*1.
Proof. rewrite enumerate_fst. apply NoDup_seq. Qed.

(** Selecting rows by a predicate on the row keeps the rows in order. *)
Lemma select_snd (P : A → Prop) `{∀ x, Decision (P x)} l :
  (filter (λ ir : nat * A, P ir.2) (enumerate l)).*2 = filter P l.
Proof.
  unfold enumerate.
  induction l as [|x l IH] using rev_ind; [done|].
  rewrite imap_app, !filter_app, fmap_app, IH. f_equal. simpl.
  rewrite !filter_cons, !filter_nil. simpl. by destruct (decide (P x)).
Qed.

Lemma elem_of_select (P : nat * A → Prop) `{∀ x, Decision (P x)} l i x :
  (i, x) ∈ filter P (enumerate l) ↔ l !! i = Some x ∧ P (i, x).
Proof. rewrite list_elem_of_filter, elem_of_enumerate. tauto. Qed.

Lemma elem_of_select_fst (P : nat * A → Prop) `{∀ x, Decision (P x)} l i :
  i ∈ (filter P (enumerate l)).*1 ↔ ∃ x, l !! i = Some x ∧ P (i, x).
Proof.
  rewrite list_elem_of_fmap. split.
  - intros [[j x] [-> Hx]]. apply elem_of_select in Hx. eauto.
  - intros (x & Hx & HP). exists (i, x). split; [done|].
    by apply elem_of_select.
Qed.

Lemma NoDup_select_fst (P : nat * A → Prop) `{∀ x, Decision (P x)} l :
  NoDup (filter P (enumerate l)).*1.
Proof.
  apply NoDup_fmap_fst.
  - intros i x y [_ Hx]%list_elem_of_filter [_ Hy]%list_elem_of_filter.
    apply elem_of_enumerate in Hx, Hy. congruence.
  - apply NoDup_filter. apply (NoDup_fmap_1 fst), NoDup_enumerate_fst.
Qed.

(** [for idx in idxs: df.at[idx, ...] = ...] on distinct labels. *)
Lemma fold_alter_lookup (f : A → A) (idxs : list nat) l i :
  NoDup idxs →
  fold_left (λ l idx, alter f idx l) idxs l !! i
  = if decide (i ∈ idxs) then f <$> l !! i else l !! i.
Proof.
  intros Hnd. revert l.
  induction Hnd as [|j idxs Hj Hnd IH]; intros l; cbn [fold_left].
  - case_decide as Hx; [by apply elem_of_nil in Hx|done].
  - rewrite IH. destruct (decide (i = j)) as [->|Hij].
    + rewrite decide_False by done. rewrite decide_True by left.
      by rewrite list_lookup_alter_eq.
    + rewrite list_lookup_alter_ne by done.
      destruct (decide (i ∈ idxs)).
      * by rewrite decide_True by (by right).
      * by rewrite decide_False
          by (rewrite elem_of_cons; intros [?|?]; done).
Qed.

Lemma fold_alter_length (f : A → A) (idxs : list nat) l :
  length (fold_left (λ l idx, alter f idx l) idxs l) = length l.
Proof.
  revert l. induction idxs as [|j idxs IH]; intros l; simpl; [done|].
  by rewrite IH, length_alter.
Qed.

End EnumerateFacts.

(** ** A pass that visits the frame key by key

    Each of the three layout passes is a loop over the distinct values of
    a key; the body rewrites the rows carrying that key and reads only
    columns that no body writes.  [norm] erases the written columns. *)

Section KeyedPass.
Context {K : Type} `{EqDecision K}.
Variables (key : Row → K) (norm : Row → Row).
Variables (body : list Row → K → list Row).
Variable (target : list Row → nat → Row → Row).

Hypothesis key_norm : ∀ r r', norm r = norm r' → key r = key r'.
Hypothesis norm_target : ∀ df i r, norm (target df i r) = norm r.
Hypothesis target_norm :
  ∀ df df' i r r',
    norm <$> df = norm <$> df' → norm r = norm r' →
    target df i r = target df' i r'.
Hypothesis body_lookup :
  ∀ cur k i r,
    cur !! i = Some r →
    body cur k !! i = Some (if decide (key r = k) then target cur i r else r).
Hypothesis body_length : ∀ cur k, length (body cur k) = length cur.

Lemma body_norm cur k : norm <$> body cur k = norm <$> cur.
Proof.
  apply list_eq. intros i. rewrite !list_lookup_fmap.
  destruct (cur !! i) as [r|] eqn:E.
  - rewrite (body_lookup _ _ _ _ E). simpl. f_equal.
    case_decide; [apply norm_target|done].
  - apply lookup_ge_None in E.
    assert (body cur k !! i = None) as ->; [|done].
    apply lookup_ge_None. by rewrite body_length.
Qed.

Lemma keyed_pass_norm ks df : norm <$> fold_left body ks df = norm <$> df.
Proof.
  revert df. induction ks as [|k ks IH]; intros df; simpl; [done|].
  by rewrite IH, body_norm.
Qed.

Lemma keyed_pass_length ks df : length (fold_left body ks df) = length df.
Proof.
  revert df. induction ks as [|k ks IH]; intros df; simpl; [done|].
  by rewrite IH, body_length.
Qed.

Lemma keyed_pass_step ks df cur i r r' :
  norm <$> cur = norm <$> df → norm r' = norm r →
  cur !! i = Some r' →
  fold_left body ks cur !! i
  = Some (if decide (key r ∈ ks) then target df i r else r').
Proof.
  revert cur r'. induction ks as [|k ks IH]; intros cur r' Hcur Hr Hi.
  - cbn [fold_left]. rewrite Hi.
    case_decide as Hx; [by apply elem_of_nil in Hx|done].
  - cbn [fold_left].
    pose proof (body_lookup cur k i r' Hi) as Hb.
    assert (key r' = key r) as Hk by (by apply key_norm).
    rewrite Hk in Hb.
    assert (target cur i r' = target df i r) as Ht by (by apply target_norm).
    rewrite Ht in Hb.
    erewrite IH; [| by rewrite body_norm | | exact Hb].
    + destruct (decide (key r = k)) as [<-|Hne].
      * rewrite (decide_True (P := key r ∈ key r :: ks)) by left.
        by case_decide.
      * destruct (decide (key r ∈ ks)) as [Hin|Hin].
        -- by rewrite decide_True by (by right).
        -- by rewrite decide_False
             by (rewrite elem_of_cons; intros [?|?]; done).
    + case_decide; [|done]. by rewrite norm_target.
Qed.

(** Every row whose key is visited ends up at its target. *)
Lemma keyed_pass_lookup ks df i r :
  df !! i = Some r → key r ∈ ks →
  fold_left body ks df !! i = Some (target df i r).
Proof.
  intros Hi Hk. erewrite keyed_pass_step; [|done|done|exact Hi].
  by rewrite decide_True.
Qed.

End KeyedPass.

(** ** The panel pass *)

Lemma index_of_lookup {A} `{EqDecision A} (l : list A) k x :
  NoDup l → l !! k = Some x → index_of x l = k.
Proof.
  intros Hnd Hk. unfold index_of.
  destruct (list_find (λ y, y = x) l) as [[j y]|] eqn:E; simpl.
  - apply list_find_Some in E as (Hj & -> & _).
    by eapply NoDup_lookup.
  - apply list_find_None in E. rewrite Forall_forall in E.
    exfalso. eapply E; [|done]. by eapply list_elem_of_lookup_2.
Qed.

Lemma lookup_index_of {A} `{EqDecision A} (l : list A) x :
  x ∈ l → l !! index_of x l = Some x.
Proof.
  intros Hx. unfold index_of.
  destruct (list_find (λ y, y = x) l) as [[j y]|] eqn:E; simpl.
  - by apply list_find_Some in E as (Hj & -> & _).
  - apply list_find_None in E. rewrite Forall_forall in E.
    exfalso. by eapply E.
Qed.

Lemma set_panel_set_panel x y w h x' y' w' h' r :
  set_panel x y w h (set_panel x' y' w' h' r) = set_panel x y w h r.
Proof. done. Qed.

Lemma erase_panel_set_panel x y w h r :
  erase_panel (set_panel x y w h r) = erase_panel r.
Proof. done. Qed.

Lemma set_panel_erase x y w h r r' :
  erase_panel r = erase_panel r' → set_panel x y w h r = set_panel x y w h r'.
Proof.
  intros H. rewrite <-(set_panel_set_panel x y w h 0 0 0 0 r).
  rewrite <-(set_panel_set_panel x y w h 0 0 0 0 r').
  unfold erase_panel in H. by rewrite H.
Qed.

Lemma erase_panel_keys r r' :
  erase_panel r = erase_panel r' →
  Module_ r = Module_ r' ∧ Dashboard r = Dashboard r' ∧
  Object_Type r = Object_Type r' ∧ View_Type r = View_Type r'.
Proof. destruct r, r'. unfold erase_panel, set_panel. simpl. naive_solver. Qed.

Lemma ceil_half_div2 z : ceil_half z * 2 = 2 * Spec.ceil_div2 z.
Proof.
  unfold ceil_half, Spec.ceil_div2.
  pose proof (Z.div_mod (- z) 2). pose proof (Z.mod_pos_bound (- z) 2).
  pose proof (Z.div_mod (z + 1) 2). pose proof (Z.mod_pos_bound (z + 1) 2).
  lia.
Qed.


Lemma panel_width_spec (els : list (nat * Row)) :
  panel_width els = Spec.panel_width (els.*2).
Proof.
  unfold panel_width, Spec.panel_width.
  destruct (decide (Exists (λ r, Object_Type r = "Report") els.*2)) as [H|H].
  - rewrite bool_decide_eq_true_2; [lia|].
    apply Exists_exists in H as (r & Hr & <-).
    apply list_elem_of_fmap in Hr as ([i r'] & -> & Hr).
    apply list_elem_of_fmap. by exists (i, r').
  - rewrite bool_decide_eq_false_2; [lia|]. intros Hin. apply H.
    apply list_elem_of_fmap in Hin as ([i r'] & Heq & Hr).
    apply Exists_exists. exists r'. split; [|done].
    apply list_elem_of_fmap. by exists (i, r').
Qed.

Lemma panel_height_spec (els : list (nat * Row)) :
  panel_height els = Spec.panel_height "Report Summary" (els.*2).
Proof.
  unfold panel_height, Spec.panel_height. rewrite length_fmap.
  set (n := Z.of_nat (length els)).
  assert ((if bool_decide (n > 8) then 14 + ceil_half (n - 8) * 2 else 14)
          = 14 + (if decide (8 < n) then 2 * Spec.ceil_div2 (n - 8) else 0))
    as ->.
  { rewrite ceil_half_div2. case_bool_decide; case_decide; lia. }
  destruct (decide (Exists (λ r, View_Type r = "Report Summary") els.*2))
    as [H|H].
  - rewrite bool_decide_eq_true_2; [done|].
    apply Exists_exists in H as (r & Hr & <-).
    apply list_elem_of_fmap in Hr as ([i r'] & -> & Hr).
    apply list_elem_of_fmap. by exists (i, r').
  - rewrite bool_decide_eq_false_2; [lia|]. intros Hin. apply H.
    apply list_elem_of_fmap in Hin as ([i r'] & Heq & Hr).
    apply Exists_exists. exists r'. split; [|done].
    apply list_elem_of_fmap. by exists (i, r').
Qed.

Lemma advance_step c w h :
  cursor_triple (advance c w h) = Spec.step (cursor_triple c) (w, h).
Proof.
  unfold advance, Spec.step, cursor_triple. simpl.
  case_bool_decide; case_decide; try lia; simpl; f_equal; f_equal; lia.
Qed.

Section PlaceDashboards.
(** The selection of one module, fixed while its dashboards are placed. *)
Variable module_df : list (nat * Row).
Hypothesis module_df_labels :
  ∀ i r r', (i, r) ∈ module_df → (i, r') ∈ module_df → r = r'.
Hypothesis module_df_NoDup : NoDup module_df.*1.

Let elements (d : string) : list (nat * Row) :=
  filter (λ ir : nat * Row, Dashboard ir.2 = d) module_df.
Let size (d : string) : Z * Z :=
  (panel_width (elements d), panel_height (elements d)).

Lemma elements_NoDup d : NoDup (elements d).*1.
Proof.
  apply NoDup_fmap_fst.
  - intros i x y [_ Hx]%list_elem_of_filter [_ Hy]%list_elem_of_filter.
    by eapply module_df_labels.
  - apply NoDup_filter. by apply (NoDup_fmap_1 fst).
Qed.

Lemma elem_of_elements i d :
  i ∈ (elements d).*1 ↔ ∃ r, (i, r) ∈ module_df ∧ Dashboard r = d.
Proof.
  rewrite list_elem_of_fmap. split.
  - intros ([j r] & -> & [Hd Hin]%list_elem_of_filter). eauto.
  - intros (r & Hin & Hd). exists (i, r). split; [done|].
    by apply list_elem_of_filter.
Qed.

Lemma place_dashboard_cursor df c d :
  (place_dashboard module_df (df, c) d).2 = advance c (size d).1 (size d).2.
Proof. done. Qed.

Lemma place_dashboard_lookup df c d i :
  (place_dashboard module_df (df, c) d).1 !! i
  = if decide (i ∈ (elements d).*1)
    then set_panel (current_x c) (current_y c) (size d).1 (size d).2
           <$> df !! i
    else df !! i.
Proof.
  unfold place_dashboard. cbn [fst].
  apply fold_alter_lookup, elements_NoDup.
Qed.

Lemma place_dashboard_length df c d :
  length (place_dashboard module_df (df, c) d).1 = length df.
Proof. unfold place_dashboard. cbn [fst]. apply fold_alter_length. Qed.

Lemma place_fold_cursor ds df c :
  cursor_triple (fold_left (place_dashboard module_df) ds (df, c)).2
  = fold_left Spec.step (size <$> ds) (cursor_triple c).
Proof.
  revert df c. induction ds as [|d ds IH]; intros df c; [done|].
  cbn [fold_left fmap list_fmap].
  destruct (place_dashboard module_df (df, c) d) as [df' c'] eqn:E.
  rewrite IH. f_equal.
  pose proof (place_dashboard_cursor df c d) as Hc. rewrite E in Hc.
  simpl in Hc. rewrite Hc, advance_step. reflexivity.
Qed.

Lemma place_fold_length ds df c :
  length (fold_left (place_dashboard module_df) ds (df, c)).1 = length df.
Proof.
  revert df c. induction ds as [|d ds IH]; intros df c; [done|].
  cbn [fold_left].
  destruct (place_dashboard module_df (df, c) d) as [df' c'] eqn:E.
  rewrite IH. pose proof (place_dashboard_length df c d) as Hl.
  by rewrite E in Hl.
Qed.

(** Rows of other modules, and rows whose dashboard is not among [ds],
    are left alone. *)
Lemma place_fold_untouched ds df c i :
  (∀ r, (i, r) ∈ module_df → Dashboard r ∉ ds) →
  (fold_left (place_dashboard module_df) ds (df, c)).1 !! i = df !! i.
Proof.
  revert df c. induction ds as [|d ds IH]; intros df c Hi; [done|].
  cbn [fold_left].
  destruct (place_dashboard module_df (df, c) d) as [df' c'] eqn:E.
  rewrite IH.
  - pose proof (place_dashboard_lookup df c d i) as Hl.
    rewrite E in Hl. cbn [fst] in Hl. rewrite Hl.
    rewrite decide_False; [done|].
    intros (r & Hr & Hd)%elem_of_elements.
    apply (Hi r Hr). rewrite Hd. left.
  - intros r Hr Hd. apply (Hi r Hr). by right.
Qed.

(** The rows of the [k]-th dashboard get the cursor reached after [k]
    placements, and the size of their panel. *)
Lemma place_fold_lookup ds df c i r k :
  NoDup ds → (i, r) ∈ module_df → ds !! k = Some (Dashboard r) →
  (fold_left (place_dashboard module_df) ds (df, c)).1 !! i
  = (let c' := fold_left Spec.step (size <$> take k ds) (cursor_triple c) in
     set_panel c'.1.1 c'.1.2 (size (Dashboard r)).1 (size (Dashboard r)).2)
      <$> df !! i.
Proof.
  intros Hnd Hr. revert df c k.
  induction Hnd as [|d ds Hd Hnd IH]; intros df c k Hk; [done|].
  cbn [fold_left].
  destruct (place_dashboard module_df (df, c) d) as [df' c'] eqn:E.
  pose proof (place_dashboard_lookup df c d i) as Hl.
  pose proof (place_dashboard_cursor df c d) as Hc.
  rewrite E in Hl, Hc. cbn [fst snd] in Hl, Hc.
  destruct k as [|k]; simpl in Hk.
  - injection Hk as ->. rewrite place_fold_untouched.
    + rewrite Hl. rewrite decide_True; [done|].
      apply elem_of_elements. eauto.
    + intros r' Hr'. by rewrite <-(module_df_labels _ _ _ Hr Hr').
  - rewrite (IH _ _ k Hk). rewrite Hl.
    rewrite decide_False.
    + cbn [take fmap list_fmap fold_left].
      rewrite Hc, advance_step. reflexivity.
    + intros (r' & Hr' & Hd')%elem_of_elements.
      rewrite <-(module_df_labels _ _ _ Hr Hr') in Hd'.
      apply Hd. rewrite <-Hd'. by eapply list_elem_of_lookup_2.
Qed.

End PlaceDashboards.

Lemma filter_fmap_commute {A B} (f : A → B) (P : B → Prop) (Q : A → Prop)
    `{!∀ y, Decision (P y), !∀ x, Decision (Q x)} (l : list A) :
  (∀ x, P (f x) ↔ Q x) → filter P (f <$> l) = f <$> filter Q l.
Proof.
  intros HPQ. induction l as [|x l IH]; [done|].
  rewrite fmap_cons, !filter_cons, IH.
  destruct (decide (P (f x))) as [HP|HP], (decide (Q x)) as [HQ|HQ];
    [done| |  |done]; exfalso; by apply HPQ in HP || apply HPQ in HQ.
Qed.

Lemma filter_snd {A} (P : A → Prop) `{!∀ x, Decision (P x)}
    (l : list (nat * A)) :
  (filter (λ ir : nat * A, P ir.2) l).*2 = filter P (l.*2).
Proof. symmetry. by apply filter_fmap_commute. Qed.

Section PanelInputs.
(** The panel pass reads the module, dashboard, object type and view
    type of the rows, and nothing else. *)
Variable g : Row → Row.
Hypothesis g_keys :
  ∀ r, Module_ (g r) = Module_ r ∧ Dashboard (g r) = Dashboard r ∧
       Object_Type (g r) = Object_Type r ∧ View_Type (g r) = View_Type r.

Lemma panel_rows_fmap df m d :
  Spec.panel_rows (g <$> df) m d = g <$> Spec.panel_rows df m d.
Proof.
  unfold Spec.panel_rows. apply filter_fmap_commute.
  intros r. destruct (g_keys r) as (-> & -> & _). done.
Qed.

Lemma dashboards_of_fmap df m :
  Spec.dashboards_of (g <$> df) m = Spec.dashboards_of df m.
Proof.
  unfold Spec.dashboards_of. f_equal.
  rewrite (filter_fmap_commute g _ (λ r, Module_ r = m)).
  - rewrite <-list_fmap_compose. apply list_fmap_ext.
    intros i r _. simpl. by destruct (g_keys r) as (_ & -> & _).
  - intros r. by destruct (g_keys r) as (-> & _).
Qed.

Lemma panel_width_fmap l : Spec.panel_width (g <$> l) = Spec.panel_width l.
Proof.
  unfold Spec.panel_width. f_equal.
  assert (Exists (λ r, Object_Type r = "Report") (g <$> l)
          ↔ Exists (λ r, Object_Type r = "Report") l) as Hiff.
  { rewrite Exists_fmap. apply Exists_proper; [|done].
    intros r. simpl. by destruct (g_keys r) as (_ & _ & -> & _). }
  destruct (decide (Exists _ (g <$> l))), (decide (Exists _ l)); tauto.
Qed.

Lemma panel_height_fmap s l :
  Spec.panel_height s (g <$> l) = Spec.panel_height s l.
Proof.
  unfold Spec.panel_height. rewrite length_fmap. f_equal.
  assert (Exists (λ r, View_Type r = s) (g <$> l)
          ↔ Exists (λ r, View_Type r = s) l) as Hiff.
  { rewrite Exists_fmap. apply Exists_proper; [|done].
    intros r. simpl. by destruct (g_keys r) as (_ & _ & _ & ->). }
  destruct (decide (Exists _ (g <$> l))), (decide (Exists _ l)); tauto.
Qed.

Lemma panel_sizes_fmap s df m :
  Spec.panel_sizes s (g <$> df) m = Spec.panel_sizes s df m.
Proof.
  unfold Spec.panel_sizes. rewrite dashboards_of_fmap.
  apply list_fmap_ext. intros i d _.
  by rewrite panel_rows_fmap, panel_width_fmap, panel_height_fmap.
Qed.

Lemma cursor_at_fmap s df m k :
  Spec.cursor_at s (g <$> df) m k = Spec.cursor_at s df m k.
Proof. unfold Spec.cursor_at. by rewrite panel_sizes_fmap. Qed.

End PanelInputs.

Lemma erase_panel_preserves r :
  Module_ (erase_panel r) = Module_ r ∧
  Dashboard (erase_panel r) = Dashboard r ∧
  Object_Type (erase_panel r) = Object_Type r ∧
  View_Type (erase_panel r) = View_Type r.
Proof. done. Qed.

Lemma panel_target_erase df df' i r r' :
  erase_panel <$> df = erase_panel <$> df' →
  erase_panel r = erase_panel r' →
  panel_target df i r = panel_target df' i r'.
Proof.
  intros Hdf Hr. unfold panel_target.
  destruct (erase_panel_keys _ _ Hr) as (Hm & Hd & _).
  rewrite <-Hm, <-Hd.
  rewrite <-(dashboards_of_fmap erase_panel erase_panel_preserves df).
  rewrite <-(dashboards_of_fmap erase_panel erase_panel_preserves df').
  rewrite <-!(cursor_at_fmap erase_panel erase_panel_preserves _ df).
  rewrite <-!(cursor_at_fmap erase_panel erase_panel_preserves _ df').
  rewrite <-(panel_width_fmap erase_panel erase_panel_preserves
               (Spec.panel_rows df _ _)).
  rewrite <-(panel_width_fmap erase_panel erase_panel_preserves
               (Spec.panel_rows df' _ _)).
  rewrite <-(panel_height_fmap erase_panel erase_panel_preserves _
               (Spec.panel_rows df _ _)).
  rewrite <-(panel_height_fmap erase_panel erase_panel_preserves _
               (Spec.panel_rows df' _ _)).
  rewrite <-!(panel_rows_fmap erase_panel erase_panel_preserves).
  rewrite Hdf. by apply set_panel_erase.
Qed.

(** One round of the module loop. *)
Lemma position_module_lookup cur m i r :
  cur !! i = Some r →
  position_module cur m !! i
  = Some (if decide (Module_ r = m) then panel_target cur i r else r).
Proof.
  intros Hi. unfold position_module.
  set (mdf := filter (λ ir : nat * Row, Module_ ir.2 = m) (enumerate cur)).
  assert (Hlab : ∀ j x y, (j, x) ∈ mdf → (j, y) ∈ mdf → x = y).
  { intros j x y [Hx _]%elem_of_select [Hy _]%elem_of_select. congruence. }
  assert (Hnd : NoDup mdf.*1) by apply NoDup_select_fst.
  assert (Hds : PyStr.unique ((Dashboard ∘ snd) <$> mdf)
                = Spec.dashboards_of cur m).
  { unfold Spec.dashboards_of. rewrite list_fmap_compose. f_equal. f_equal.
    exact (select_snd (λ r, Module_ r = m) cur). }
  assert (Hrows : ∀ d,
    (filter (λ ir : nat * Row, Dashboard ir.2 = d) mdf).*2
    = Spec.panel_rows cur m d).
  { intros d.
    etrans; [exact (filter_snd (λ r, Dashboard r = d) mdf)|].
    replace (mdf.*2) with (filter (λ r, Module_ r = m) cur)
      by (symmetry; exact (select_snd (λ r, Module_ r = m) cur)).
    rewrite list_filter_filter. unfold Spec.panel_rows.
    apply list_filter_iff. intros x. tauto. }
  rewrite Hds. destruct (decide (Module_ r = m)) as [Hm|Hm].
  - assert (Hin : (i, r) ∈ mdf) by (by apply elem_of_select).
    assert (Hd : Dashboard r ∈ Spec.dashboards_of cur m).
    { unfold Spec.dashboards_of. apply elem_of_unique.
      apply list_elem_of_fmap. exists r. split; [done|].
      apply list_elem_of_filter. split; [done|].
      by eapply list_elem_of_lookup_2. }
    rewrite (place_fold_lookup mdf Hlab Hnd _ _ _ i r
               (index_of (Dashboard r) (Spec.dashboards_of cur m)));
      [|apply NoDup_unique|done|by apply lookup_index_of].
    rewrite Hi. cbn [fmap option_fmap option_map]. f_equal.
    unfold panel_target. rewrite Hm.
    rewrite panel_width_spec, panel_height_spec, Hrows.
    rewrite fmap_take. unfold Spec.cursor_at.
    replace ((λ d, (panel_width
                      (filter (λ ir : nat * Row, Dashboard ir.2 = d) mdf),
                    panel_height
                      (filter (λ ir : nat * Row, Dashboard ir.2 = d) mdf)))
               <$> Spec.dashboards_of cur m)
      with (Spec.panel_sizes "Report Summary" cur m); [done|].
    unfold Spec.panel_sizes. apply list_fmap_ext. intros j d _.
    by rewrite panel_width_spec, panel_height_spec, Hrows.
  - rewrite place_fold_untouched; [done|done|done|].
    intros r' [Hr' Hm']%elem_of_select. simpl in Hm'. congruence.
Qed.

Lemma position_module_length cur m :
  length (position_module cur m) = length cur.
Proof. unfold position_module. apply place_fold_length. Qed.

(** The whole panel pass: every row ends at its panel target. *)
Lemma layoutPanels_lookup df i r :
  df !! i = Some r → layoutPanels df !! i = Some (panel_target df i r).
Proof.
  intros Hi. unfold layoutPanels, position_dashboard_panels_by_module.
  apply (keyed_pass_lookup Module_ erase_panel position_module panel_target).
  - intros x y Hxy. by destruct (erase_panel_keys _ _ Hxy).
  - done.
  - apply panel_target_erase.
  - apply position_module_lookup.
  - apply position_module_length.
  - done.
  - apply elem_of_unique, list_elem_of_fmap. exists r.
    split; [done|]. by eapply list_elem_of_lookup_2.
Qed.

Lemma layoutPanels_length df : length (layoutPanels df) = length df.
Proof.
  unfold layoutPanels, position_dashboard_panels_by_module.
  apply keyed_pass_length, position_module_length.
Qed.

Lemma dashboard_in_dashboards_of df i r :
  df !! i = Some r → Dashboard r ∈ Spec.dashboards_of df (Module_ r).
Proof.
  intros Hi. unfold Spec.dashboards_of. apply elem_of_unique.
  apply list_elem_of_fmap. exists r. split; [done|].
  apply list_elem_of_filter. split; [done|]. by eapply list_elem_of_lookup_2.
Qed.

(** ** The built-in stable sort *)

Section Sorted.
Context {A : Type} (key : A → Z).
Implicit Types (l : list A) (x y : A).

Lemma insert_by_Permutation x l : insert_by key x l ≡ₚ x :: l.
Proof.
  induction l as [|y l IH]; simpl; [done|].
  destruct (key x <=? key y); [done|].
  rewrite IH. apply Permutation_swap.
Qed.

Lemma sorted_Permutation l : sorted key l ≡ₚ l.
Proof.
  induction l as [|x l IH]; simpl; [done|].
  by rewrite insert_by_Permutation, IH.
Qed.





Lemma insert_by_ext (key' : A → Z) x l :
  (∀ y, key y = key' y) → insert_by key x l = insert_by key' x l.
Proof.
  intros H. induction l as [|y l IH]; simpl; [done|].
  by rewrite IH, !H.
Qed.

Lemma sorted_ext (key' : A → Z) l :
  (∀ y, key y = key' y) → sorted key l = sorted key' l.
Proof.
  intros H. induction l as [|x l IH]; simpl; [done|].
  rewrite IH. by apply insert_by_ext.
Qed.

End Sorted.

(** ** The field pass *)

Lemma place_field_alter cc df p idx :
  place_field cc df (p, idx) = alter (field_update cc p) idx df.
Proof.
  unfold place_field, field_at.
  rewrite list_lookup_alter_eq.
  apply list_eq. intros j.
  destruct (df !! idx) as [r|] eqn:E; simpl.
  - destruct (Field r) as [name| |n] eqn:EF.
    + destruct (field_size name) as [w h] eqn:Es.
      rewrite !list_lookup_alter.
      destruct (decide (idx = j)) as [<-|]; [|done].
      rewrite E. simpl. unfold field_update.
      rewrite decide_True by done. by rewrite EF, Es.
    + rewrite !list_lookup_alter.
      destruct (decide (idx = j)) as [<-|]; [|done].
      rewrite E. simpl. unfold field_update. by rewrite EF.
    + rewrite !list_lookup_alter.
      destruct (decide (idx = j)) as [<-|]; [|done].
      rewrite E. simpl. unfold field_update. by rewrite EF.
  - rewrite !list_lookup_alter.
    destruct (decide (idx = j)) as [<-|]; [|done].
    by rewrite E.
Qed.

(** [for position, idx in enumerate(idxs)] on distinct labels. *)
Lemma fold_enumerate_alter_lookup {A} (f : nat → A → A) (idxs : list nat)
    (l : list A) i :
  NoDup idxs →
  fold_left (λ l pi, alter (f pi.1) pi.2 l) (enumerate idxs) l !! i
  = if decide (i ∈ idxs) then f (index_of i idxs) <$> l !! i else l !! i.
Proof.
  induction idxs as [|x idxs IH] using rev_ind; intros Hnd.
  - cbn [enumerate imap fold_left].
    case_decide as Hx; [by apply elem_of_nil in Hx|done].
  - unfold enumerate in *. rewrite imap_app, fold_left_app.
    cbn [imap fold_left fst snd].
    apply NoDup_app in Hnd as (Hnd & Hx & _).
    rewrite Nat.add_0_r.
    destruct (decide (i = x)) as [->|Hix].
    + rewrite list_lookup_alter_eq, IH by done.
      rewrite decide_False by (intros Hin; by apply (Hx _ Hin); left).
      rewrite decide_True by (apply elem_of_app; right; left).
      f_equal. f_equal. symmetry. apply index_of_lookup.
      * apply NoDup_app. split; [done|]. split; [done|]. apply NoDup_singleton.
      * by rewrite lookup_app_r, Nat.sub_diag.
    + rewrite list_lookup_alter_ne, IH by done.
      destruct (decide (i ∈ idxs)) as [Hin|Hin].
      * rewrite decide_True by (apply elem_of_app; by left).
        f_equal. f_equal. symmetry. apply index_of_lookup.
        -- apply NoDup_app. split; [done|]. split; [done|].
           apply NoDup_singleton.
        -- rewrite lookup_app_l.
           ++ by apply lookup_index_of.
           ++ eapply lookup_lt_Some. by apply lookup_index_of.
      * rewrite decide_False; [done|].
        rewrite elem_of_app, list_elem_of_singleton. tauto.
Qed.

Lemma fold_enumerate_alter_length {A} (f : nat → A → A) (L : list (nat * nat))
    (l : list A) :
  length (fold_left (λ l pi, alter (f pi.1) pi.2 l) L l) = length l.
Proof.
  revert l. induction L as [|x L IH]; intros l; simpl; [done|].
  by rewrite IH, length_alter.
Qed.

Lemma layout_dashboard_alter cur d :
  layout_dashboard cur d
  = fold_left
      (λ l pi, alter (field_update (column_count (length (dashboard_df cur d)))
                                   pi.1) pi.2 l)
      (enumerate (sorted_indices cur d)) cur.
Proof.
  unfold layout_dashboard.
  generalize (enumerate (sorted_indices cur d)) as L.
  generalize (column_count (length (dashboard_df cur d))) as cc.
  intros cc L. generalize cur as l.
  induction L as [|[p idx] L IH]; intros l.
  - done.
  - cbn [fold_left fst snd]. by rewrite place_field_alter, IH.
Qed.

Lemma elem_of_sorted_indices cur d i :
  i ∈ sorted_indices cur d ↔ ∃ r, cur !! i = Some r ∧ Dashboard r = d.
Proof.
  unfold sorted_indices. rewrite sorted_Permutation.
  unfold dashboard_df. apply elem_of_select_fst.
Qed.

Lemma NoDup_sorted_indices cur d : NoDup (sorted_indices cur d).
Proof.
  unfold sorted_indices. rewrite sorted_Permutation.
  unfold dashboard_df. apply NoDup_select_fst.
Qed.

(** One round of the dashboard loop. *)
Lemma layout_dashboard_lookup cur d i r :
  cur !! i = Some r →
  layout_dashboard cur d !! i
  = Some (if decide (Dashboard r = d) then field_target cur i r else r).
Proof.
  intros Hi. rewrite layout_dashboard_alter.
  rewrite fold_enumerate_alter_lookup by apply NoDup_sorted_indices.
  rewrite Hi. destruct (decide (Dashboard r = d)) as [Hd|Hd].
  - rewrite decide_True by (apply elem_of_sorted_indices; eauto).
    unfold field_target. by rewrite Hd.
  - rewrite decide_False; [done|].
    intros (r' & Hr' & Hd')%elem_of_sorted_indices. congruence.
Qed.

Lemma layout_dashboard_length cur d :
  length (layout_dashboard cur d) = length cur.
Proof. rewrite layout_dashboard_alter. apply fold_enumerate_alter_length. Qed.

Lemma erase_field_keys r r' :
  erase_field r = erase_field r' →
  Dashboard r = Dashboard r' ∧ Field r = Field r'.
Proof.
  destruct r, r'. unfold erase_field. simpl.
  intros H. repeat case_match; by simplify_eq.
Qed.

Lemma erase_field_preserves r :
  Dashboard (erase_field r) = Dashboard r ∧ Field (erase_field r) = Field r.
Proof. unfold erase_field. by destruct (Field r) eqn:E. Qed.

Lemma erase_field_update cc p r : erase_field (field_update cc p r) = erase_field r.
Proof.
  unfold erase_field, field_update. destruct r as [? ? ? ? ? ? []]; done.
Qed.

Lemma field_update_erase cc p r r' :
  erase_field r = erase_field r' → field_update cc p r = field_update cc p r'.
Proof.
  destruct r, r'. unfold erase_field, field_update. simpl.
  intros H. repeat case_match; by simplify_eq.
Qed.

Lemma enumerate_fmap {A B} (g : A → B) (l : list A) :
  enumerate (g <$> l) = prod_map id g <$> enumerate l.
Proof. unfold enumerate. by rewrite imap_fmap, fmap_imap. Qed.

Section FieldInputs.
(** The field pass reads the dashboard and the field of the rows, and
    nothing else. *)
Variable g : Row → Row.
Hypothesis g_keys : ∀ r, Dashboard (g r) = Dashboard r ∧ Field (g r) = Field r.

Lemma dashboard_df_fmap df d :
  dashboard_df (g <$> df) d = prod_map id g <$> dashboard_df df d.
Proof.
  unfold dashboard_df. rewrite enumerate_fmap.
  apply filter_fmap_commute. intros [i r]. simpl.
  by destruct (g_keys r) as [-> _].
Qed.

Lemma dashboard_df_fmap_fst df d :
  (dashboard_df (g <$> df) d).*1 = (dashboard_df df d).*1.
Proof.
  rewrite dashboard_df_fmap, <-list_fmap_compose.
  apply list_fmap_ext. by intros i [j r] _.
Qed.

Lemma field_at_fmap df idx : field_at (g <$> df) idx = field_at df idx.
Proof.
  unfold field_at. rewrite list_lookup_fmap.
  destruct (df !! idx) as [r|]; simpl; [|done]. by destruct (g_keys r).
Qed.

Lemma sorted_indices_fmap df d :
  sorted_indices (g <$> df) d = sorted_indices df d.
Proof.
  unfold sorted_indices. rewrite dashboard_df_fmap_fst.
  apply sorted_ext. intros idx. by rewrite field_at_fmap.
Qed.

Lemma dashboard_df_fmap_length df d :
  length (dashboard_df (g <$> df) d) = length (dashboard_df df d).
Proof. by rewrite dashboard_df_fmap, length_fmap. Qed.

End FieldInputs.

Lemma field_target_erase df df' i r r' :
  erase_field <$> df = erase_field <$> df' →
  erase_field r = erase_field r' →
  field_target df i r = field_target df' i r'.
Proof.
  intros Hdf Hr. unfold field_target.
  destruct (erase_field_keys _ _ Hr) as [<- _].
  rewrite <-(dashboard_df_fmap_length erase_field erase_field_preserves df).
  rewrite <-(dashboard_df_fmap_length erase_field erase_field_preserves df').
  rewrite <-(sorted_indices_fmap erase_field erase_field_preserves df).
  rewrite <-(sorted_indices_fmap erase_field erase_field_preserves df').
  rewrite Hdf. by apply field_update_erase.
Qed.

(** The whole field pass: every row ends at its field target. *)
Lemma position_dashboard_fields_lookup df i r :
  df !! i = Some r →
  position_dashboard_fields df !! i = Some (field_target df i r).
Proof.
  intros Hi. unfold position_dashboard_fields.
  apply (keyed_pass_lookup Dashboard erase_field layout_dashboard
           field_target).
  - intros x y Hxy. by destruct (erase_field_keys _ _ Hxy).
  - intros. apply erase_field_update.
  - apply field_target_erase.
  - apply layout_dashboard_lookup.
  - apply layout_dashboard_length.
  - done.
  - apply elem_of_unique, list_elem_of_fmap. exists r.
    split; [done|]. by eapply list_elem_of_lookup_2.
Qed.

Lemma position_dashboard_fields_length df :
  length (position_dashboard_fields df) = length df.
Proof.
  unfold position_dashboard_fields.
  apply keyed_pass_length, layout_dashboard_length.
Qed.

Lemma index_in_sorted_indices df i r :
  df !! i = Some r →
  sorted_indices df (Dashboard r) !! index_of i (sorted_indices df (Dashboard r))
  = Some i.
Proof.
  intros Hi. apply lookup_index_of, elem_of_sorted_indices. eauto.
Qed.

(** ** The view-attribute serializer *)

Lemma attr_string_serialize (group : list (nat * Row)) :
  attr_string group = Spec.serialize clean_field (group.*2).
Proof.
  unfold attr_string, Spec.serialize.
  assert (omap (cell_str ∘ Field ∘ snd) group
          = omap (cell_str ∘ Field) group.*2) as ->.
  { induction group as [|[i r] group IH]; [done|].
    cbn [omap list_omap fmap list_fmap]. rewrite IH. done. }
  f_equal. rewrite <-!list_fmap_compose. f_equal.
Qed.

Lemma erase_attributes_keys r r' :
  erase_attributes r = erase_attributes r' →
  group_key r = group_key r' ∧ Field r = Field r'.
Proof.
  destruct r, r'. unfold erase_attributes, group_key. simpl.
  intros H. by simplify_eq.
Qed.

Lemma set_attributes_erase s r r' :
  erase_attributes r = erase_attributes r' →
  set_View_Type_Attributes s r = set_View_Type_Attributes s r'.
Proof.
  destruct r, r'. unfold erase_attributes. simpl. intros H. by simplify_eq.
Qed.

Section ViewInputs.
(** The serializer reads the group key and the field of the rows. *)
Variable g : Row → Row.
Hypothesis g_keys : ∀ r, group_key (g r) = group_key r ∧ Field (g r) = Field r.

Lemma view_rows_fmap df k :
  Spec.view_rows (g <$> df) k = g <$> Spec.view_rows df k.
Proof.
  unfold Spec.view_rows. apply filter_fmap_commute.
  intros r. by destruct (g_keys r) as [-> _].
Qed.

Lemma serialize_fmap clean l :
  Spec.serialize clean (g <$> l) = Spec.serialize clean l.
Proof.
  unfold Spec.serialize. do 4 f_equal.
  induction l as [|r l IH]; [done|].
  cbn [omap list_omap fmap list_fmap]. rewrite IH.
  simpl. by destruct (g_keys r) as [_ ->].
Qed.

Lemma group_keys_fmap df : group_keys (g <$> df) = group_keys df.
Proof.
  unfold group_keys. do 2 f_equal. rewrite <-list_fmap_compose.
  apply list_fmap_ext. intros i r _. simpl. by destruct (g_keys r).
Qed.

End ViewInputs.

Lemma erase_attributes_preserves r :
  group_key (erase_attributes r) = group_key r ∧
  Field (erase_attributes r) = Field r.
Proof. done. Qed.

Lemma view_target_erase df df' i r r' :
  erase_attributes <$> df = erase_attributes <$> df' →
  erase_attributes r = erase_attributes r' →
  view_target df i r = view_target df' i r'.
Proof.
  intros Hdf Hr. unfold view_target.
  destruct (erase_attributes_keys _ _ Hr) as [<- _].
  rewrite <-(serialize_fmap erase_attributes erase_attributes_preserves _
               (Spec.view_rows df _)).
  rewrite <-(serialize_fmap erase_attributes erase_attributes_preserves _
               (Spec.view_rows df' _)).
  rewrite <-!(view_rows_fmap erase_attributes erase_attributes_preserves).
  rewrite Hdf. by apply set_attributes_erase.
Qed.

(** One round of the loop over the groups. *)
Lemma write_group_lookup cur k i r :
  cur !! i = Some r →
  write_group cur k !! i
  = Some (if decide (group_key r = k) then view_target cur i r else r).
Proof.
  intros Hi. unfold write_group.
  rewrite fold_alter_lookup by apply NoDup_select_fst.
  rewrite Hi. destruct (decide (group_key r = k)) as [Hk|Hk].
  - rewrite decide_True by (apply elem_of_select_fst; eauto).
    simpl. f_equal. unfold view_target. rewrite attr_string_serialize, Hk.
    do 2 f_equal. exact (select_snd (λ r, group_key r = k) cur).
  - rewrite decide_False; [done|].
    intros (r' & Hr' & Hk')%elem_of_select_fst. simpl in Hk'. congruence.
Qed.

Lemma write_group_length cur k : length (write_group cur k) = length cur.
Proof. unfold write_group. apply fold_alter_length. Qed.

Lemma write_groups_lookup df i r :
  df !! i = Some r →
  fold_left write_group (group_keys df) df !! i = Some (view_target df i r).
Proof.
  intros Hi.
  apply (keyed_pass_lookup group_key erase_attributes write_group view_target).
  - intros x y Hxy. by destruct (erase_attributes_keys _ _ Hxy).
  - done.
  - apply view_target_erase.
  - apply write_group_lookup.
  - apply write_group_length.
  - done.
  - unfold group_keys. rewrite merge_sort_Permutation.
    apply elem_of_unique, list_elem_of_fmap. exists r.
    split; [done|]. by eapply list_elem_of_lookup_2.
Qed.

Lemma init_column_data c fill df :
  data (init_column c fill df) = data df ∨
  data (init_column c fill df) = fill <$> data df.
Proof. unfold init_column. destruct (PyStr.str_in c (columns df)); auto. Qed.

(** The serializer on a frame, whether or not the attribute column was
    there before. *)
Lemma serialize_rows_lookup cols rows i r :
  rows !! i = Some r →
  serialize_rows cols rows !! i = Some (view_target rows i r).
Proof.
  intros Hi. unfold serialize_rows, generate_view_type_attributes.
  cbn [data].
  destruct (init_column_data "View Type Attributes"
              (set_View_Type_Attributes EmptyString)
              (mkDataFrame cols rows)) as [-> | ->]; cbn [data].
  - by apply write_groups_lookup.
  - erewrite write_groups_lookup
      by (rewrite list_lookup_fmap, Hi; reflexivity).
    f_equal. apply view_target_erase; [|done].
    rewrite <-list_fmap_compose. by apply list_fmap_ext.
Qed.

(** ** Id assignment *)

Lemma unique_app_prefix {A} `{EqDecision A} (l1 l2 : list A) :
  ∃ t, PyStr.unique (l1 ++ l2) = PyStr.unique l1 ++ t.
Proof.
  induction l2 as [|x l2 [t IH]] using rev_ind.
  - exists []. by rewrite !app_nil_r.
  - rewrite app_assoc, unique_snoc, IH.
    case_decide; [by exists t|]. exists (t ++ [x]). by rewrite app_assoc.
Qed.

Lemma index_of_unique_app {A} `{EqDecision A} (l1 l2 : list A) x :
  x ∈ l1 →
  index_of x (PyStr.unique (l1 ++ l2)) = index_of x (PyStr.unique l1).
Proof.
  intros Hx. destruct (unique_app_prefix l1 l2) as [t Ht].
  apply index_of_lookup; [apply NoDup_unique|].
  assert (PyStr.unique l1 !! index_of x (PyStr.unique l1) = Some x) as Hl
    by (by apply lookup_index_of, elem_of_unique).
  rewrite Ht, lookup_app_l; [done|]. by eapply lookup_lt_Some.
Qed.

Lemma assign_fold_stamp rows pre st :
  (fold_left assign_step
     (imap (λ i x, (length pre + i, x)%nat) rows) (pre ++ rows, st)).1
  = pre ++ stamp st rows.
Proof.
  revert pre st. induction rows as [|row rest IH]; intros pre st; [done|].
  cbn [imap fold_left stamp]. unfold assign_step at 2.
  rewrite alter_app_r.
  cbn [alter list_alter].
  specialize (IH (pre ++ [set_Element_Id
    (pretty (dashboard_map (note_key (dashboard_key row) st)
             !!! dashboard_key row)) row])
    (note_key (dashboard_key row) st)).
  rewrite <-!app_assoc in IH. cbn [app] in IH. rewrite <-IH.
  do 2 f_equal. apply imap_ext. intros i x _. simpl.
  rewrite length_app. simpl. f_equal. lia.
Qed.

Lemma assign_ids_stamp df : assign_ids df = stamp (mkIdState 1 ∅) df.
Proof.
  unfold assign_ids, enumerate.
  pose proof (assign_fold_stamp df [] (mkIdState 1 ∅)) as H.
  simpl in H. exact H.
Qed.

Lemma ids_invariant_init : ids_invariant [] (mkIdState 1 ∅).
Proof.
  split; [done|]. intros key. cbn [dashboard_map]. rewrite lookup_empty.
  case_decide as Hx; [by apply elem_of_nil in Hx|done].
Qed.

Lemma ids_invariant_note seen st key :
  ids_invariant seen st → ids_invariant (seen ++ [key]) (note_key key st).
Proof.
  intros [Hc Hm]. unfold note_key. rewrite (Hm key).
  destruct (decide (key ∈ seen)) as [Hin|Hin].
  - split.
    + rewrite unique_snoc, decide_True by done. exact Hc.
    + intros key'.
      rewrite (Hm key'), unique_snoc, (decide_True (P := key ∈ seen)) by done.
      destruct (decide (key' ∈ seen)) as [Hin'|Hin'].
      * by rewrite decide_True by (apply elem_of_app; by left).
      * rewrite decide_False; [done|].
        rewrite elem_of_app, list_elem_of_singleton.
        intros [?| ->]; done.
  - assert (Hnd : NoDup (PyStr.unique seen ++ [key])).
    { rewrite <-(decide_False (P := key ∈ seen) (PyStr.unique seen)
                              (PyStr.unique seen ++ [key]) Hin).
      rewrite <-unique_snoc. apply NoDup_unique. }
    split; cbn [element_counter dashboard_map].
    + rewrite unique_snoc, decide_False by done.
      rewrite length_app. simpl. lia.
    + intros key'. rewrite unique_snoc, (decide_False (P := key ∈ seen)) by done.
      destruct (decide (key' = key)) as [->|Hne].
      * rewrite lookup_insert_eq.
        rewrite decide_True by (apply elem_of_app; right; left).
        rewrite Hc. do 2 f_equal. symmetry.
        apply index_of_lookup; [done|].
        by rewrite lookup_app_r, Nat.sub_diag.
      * rewrite lookup_insert_ne by done. rewrite (Hm key').
        destruct (decide (key' ∈ seen)) as [Hin'|Hin'].
        -- rewrite decide_True by (apply elem_of_app; by left).
           do 2 f_equal. symmetry. apply index_of_lookup; [done|].
           assert (PyStr.unique seen !! index_of key' (PyStr.unique seen)
                   = Some key') as Hl
             by (by apply lookup_index_of, elem_of_unique).
           rewrite lookup_app_l; [done|]. by eapply lookup_lt_Some.
        -- rewrite decide_False; [done|].
           rewrite elem_of_app, list_elem_of_singleton.
           intros [?|?]; done.
Qed.

Lemma stamp_lookup seen st rows i r :
  ids_invariant seen st → rows !! i = Some r →
  stamp st rows !! i
  = Some (set_Element_Id
            (pretty (S (index_of (dashboard_key r)
                          (PyStr.unique (seen ++ (dashboard_key <$> rows))))))
            r).
Proof.
  revert seen st i. induction rows as [|row rest IH]; intros seen st i Hinv Hi;
    [done|].
  pose proof (ids_invariant_note _ _ (dashboard_key row) Hinv) as Hinv'.
  cbn [stamp fmap list_fmap].
  replace (seen ++ dashboard_key row :: (dashboard_key <$> rest))
    with ((seen ++ [dashboard_key row]) ++ (dashboard_key <$> rest))
    by (by rewrite <-app_assoc).
  destruct i as [|i]; simpl in Hi.
  - injection Hi as ->. simpl. do 3 f_equal.
    destruct Hinv' as [_ Hm]. specialize (Hm (dashboard_key r)).
    rewrite decide_True in Hm by (apply elem_of_app; right; left).
    rewrite (lookup_total_correct _ _ _ Hm). f_equal. symmetry.
    apply index_of_unique_app. apply elem_of_app; right; left.
  - simpl. by apply IH.
Qed.

(** Every row is stamped with one more than the position of its key among
    the distinct keys in first-seen order. *)
Lemma assign_ids_lookup df i r :
  df !! i = Some r →
  assign_ids df !! i
  = Some (set_Element_Id
            (pretty (S (index_of (dashboard_key r)
                          (PyStr.unique (dashboard_key <$> df)))))
            r).
Proof.
  intros Hi. rewrite assign_ids_stamp.
  by rewrite (stamp_lookup [] _ _ _ _ ids_invariant_init Hi).
Qed.

(** ** The schema validator *)

Lemma str_in_elem_of x l : PyStr.str_in x l = bool_decide (x ∈ l).
Proof.
  unfold PyStr.str_in. induction l as [|y l IH]; simpl; [done|].
  rewrite IH. destruct (String.eqb_spec x y) as [->|Hxy]; simpl.
  - symmetry. apply bool_decide_eq_true_2. left.
  - apply bool_decide_ext. rewrite elem_of_cons. tauto.
Qed.

Lemma sanitize_summary_lookup summary t :
  default [] (TableGen.sanitize_summary summary !! t) = valid_columns summary t.
Proof.
  unfold TableGen.sanitize_summary, valid_columns. rewrite lookup_fmap.
  by destruct (summary !! t).
Qed.

Lemma validate_rows_length ss df :
  length (TableGen.validate_rows ss df).1 = length df.
Proof.
  induction df as [|row rest IH]; [done|]. cbn [TableGen.validate_rows].
  destruct (TableGen.validate_row ss row) as [row' out].
  destruct (TableGen.validate_rows ss rest) as [rest' outs].
  simpl in *. by rewrite IH.
Qed.

Lemma validate_rows_lookup ss df i row :
  df !! i = Some row →
  (TableGen.validate_rows ss df).1 !! i = Some (TableGen.validate_row ss row).1.
Proof.
  revert i. induction df as [|row0 rest IH]; intros i Hi; [done|].
  cbn [TableGen.validate_rows].
  destruct (TableGen.validate_row ss row0) as [row' out] eqn:E.
  destruct (TableGen.validate_rows ss rest) as [rest' outs].
  destruct i as [|i]; simpl in *.
  - injection Hi as <-. by rewrite E.
  - by apply IH.
Qed.


(** ** Scores, boxes and column counts agree with their specification *)

Lemma replace_char_cons c b a s :
  PyStr.replace_char c (String b EmptyString) (String a s)
  = String (if Ascii.eqb a c then b else a)
           (PyStr.replace_char c (String b EmptyString) s).
Proof. cbn [PyStr.replace_char]. by destruct (Ascii.eqb a c). Qed.

Lemma normalize_char_spec c :
  (if Ascii.eqb (if Ascii.eqb (PyStr.lower_char c) "-" then " "%char
                 else PyStr.lower_char c) "_"
   then " "%char
   else if Ascii.eqb (PyStr.lower_char c) "-" then " "%char
        else PyStr.lower_char c)
  = Spec.normalize_char c.
Proof. by destruct c as [[] [] [] [] [] [] [] []]. Qed.

Lemma normalize_spec name : normalize name = Spec.normalize name.
Proof.
  unfold normalize. induction name as [|c rest IH]; [done|].
  cbn [PyStr.lower Spec.normalize].
  change " " with (String " "%char EmptyString).
  rewrite !replace_char_cons, normalize_char_spec. by f_equal.
Qed.



Lemma field_size_box name : field_size name = Spec.box name.
Proof.
  unfold field_size, Spec.box, DATE_PATTERN, ID_PATTERN, times_1_5.
  rewrite normalize_spec.
  assert (bool_decide (Z.of_nat (String.length name) > 15)
          = bool_decide (15 < String.length name)%nat) as ->
    by (apply bool_decide_ext; lia).
  repeat case_match; try done;
    repeat match goal with
           | H : (_, _) = (_, _) |- _ => injection H as <- <-
           end; try done;
    rewrite ?bool_decide_eq_true, ?bool_decide_eq_false in *; done.
Qed.

Lemma column_count_spec n :
  ∃ s, Spec.is_ceil_sqrt (Z.of_nat n) s ∧ column_count n = Z.min (Z.max 1 s) 4.
Proof.
  exists (Z.sqrt_up (Z.of_nat n)). split; [|done].
  unfold Spec.is_ceil_sqrt.
  destruct (decide (n = 0%nat)) as [->|Hn].
  - simpl. split; [done|]. split; [done|]. intros t Ht _. done.
  - pose proof (Z.sqrt_up_spec (Z.of_nat n) ltac:(lia)) as [Hlo Hhi].
    pose proof (Z.sqrt_up_nonneg (Z.of_nat n)).
    split; [done|]. split; [exact Hhi|].
    intros t Ht Hsq.
    destruct (Z.le_gt_cases (Z.sqrt_up (Z.of_nat n)) t) as [|Hlt]; [done|].
    exfalso. unfold Z.pred in Hlo.
    assert (t ≤ Z.sqrt_up (Z.of_nat n) - 1) as Hle by lia.
    assert (t * t ≤ (Z.sqrt_up (Z.of_nat n) + -1) * (Z.sqrt_up (Z.of_nat n) + -1))
      by nia.
    cbn in Hlo. lia.
Qed.

Lemma dashboard_df_length df d :
  length (dashboard_df df d) = length (filter (λ r, Dashboard r = d) df).
Proof.
  unfold dashboard_df.
  rewrite <-(length_fmap snd). f_equal.
  exact (select_snd (λ r, Dashboard r = d) df).
Qed.

Lemma panel_part_field_update cc p r :
  panel_part (field_update cc p r) = panel_part r.
Proof. unfold field_update. by destruct r as [? ? ? ? ? ? []]. Qed.

(** The column count over the whole range of group sizes.  From ten rows
    on any estimate of the square root that is at least 3 is clamped to 4
    columns, so only the exact roots of the counts up to nine matter. *)
Lemma column_count_values n :
  column_count n
  = if decide (n ≤ 1)%nat then 1
    else if decide (n ≤ 4)%nat then 2
    else if decide (n ≤ 9)%nat then 3 else 4.
Proof.
  destruct (decide (n ≤ 9)%nat) as [Hn|Hn].
  - do 10 (destruct n as [|n]; [by vm_compute|]). lia.
  - rewrite !decide_False by lia. unfold column_count.
    pose proof (Z.sqrt_up_spec (Z.of_nat n) ltac:(lia)) as [_ Hhi].
    pose proof (Z.sqrt_up_nonneg (Z.of_nat n)).
    assert (4 ≤ Z.sqrt_up (Z.of_nat n)) by nia. lia.
Qed.

(** ** Column initialisation and the whole of [apply_smart_layout] *)

Lemma init_column_lookup c fill df i :
  data (init_column c fill df) !! i
  = (if PyStr.str_in c (columns df) then id else fill) <$> data df !! i.
Proof.
  unfold init_column. destruct (PyStr.str_in c (columns df)); simpl.
  - by rewrite option_fmap_id.
  - by rewrite list_lookup_fmap.
Qed.

Lemma init_column_has x c fill df :
  PyStr.str_in x (columns (init_column c fill df))
  = PyStr.str_in x (columns df) || String.eqb x c.
Proof.
  unfold init_column. destruct (PyStr.str_in c (columns df)) eqn:E; simpl.
  - destruct (String.eqb_spec x c) as [->|]; [|by rewrite orb_false_r].
    by rewrite E.
  - unfold PyStr.str_in. rewrite existsb_app. simpl. by rewrite orb_false_r.
Qed.

Lemma initialize_lookup df i r :
  data df !! i = Some r →
  ∃ r0, data (initialize_dataframe_columns df) !! i = Some r0 ∧
        layout_inputs r0 = layout_inputs r ∧
        (PyStr.str_in "Width.1" (columns df) = false → Width_1 r0 = 50) ∧
        (PyStr.str_in "Height.1" (columns df) = false → Height_1 r0 = 50).
Proof.
  intros Hi. unfold initialize_dataframe_columns.
  rewrite !init_column_lookup, !init_column_has, Hi. simpl.
  rewrite !orb_false_r.
  eexists. split; [reflexivity|].
  split; [|split].
  - repeat case_match; done.
  - intros ->. repeat case_match; done.
  - intros ->. repeat case_match; done.
Qed.

Lemma apply_smart_layout_data df :
  data (apply_smart_layout df)
  = serialize_rows (columns (initialize_dataframe_columns df))
      (position_dashboard_fields
         (layoutPanels (data (initialize_dataframe_columns df)))).
Proof. done. Qed.

Lemma apply_smart_layout_lookup df i r0 :
  data (initialize_dataframe_columns df) !! i = Some r0 →
  let rows0 := data (initialize_dataframe_columns df) in
  let rows1 := layoutPanels rows0 in
  let rows2 := position_dashboard_fields rows1 in
  data (apply_smart_layout df) !! i
  = Some (view_target rows2 i
            (field_target rows1 i (panel_target rows0 i r0))).
Proof.
  intros Hi rows0 rows1 rows2. rewrite apply_smart_layout_data.
  apply serialize_rows_lookup, position_dashboard_fields_lookup.
  by apply layoutPanels_lookup.
Qed.

Lemma panel_part_field_target df i r :
  panel_part (field_target df i r) = panel_part r.
Proof. apply panel_part_field_update. Qed.

Lemma panel_part_view_target df i r :
  panel_part (view_target df i r) = panel_part r.
Proof. done. Qed.


Lemma field_update_string cc p r name :
  Field r = CStr name →
  (Width_1 (field_update cc p r), Height_1 (field_update cc p r))
  = field_size name.
Proof.
  intros H. unfold field_update. rewrite H. simpl.
  by destruct (field_size name).
Qed.

Lemma field_update_position cc p r :
  PosX_1 (field_update cc p r) = 3 + (Z.of_nat p `mod` cc) * 60 ∧
  PosY_1 (field_update cc p r) = 5 + (Z.of_nat p `div` cc) * 55.
Proof. unfold field_update. by destruct r as [? ? ? ? ? ? []]. Qed.



Lemma view_target_geometry df i r :
  geometry (view_target df i r) = geometry r.
Proof. unfold view_target. destruct r. repeat split. Qed.

Lemma field_target_geometry df i r :
  geometry (field_target df i r) = geometry r.
Proof.
  pose proof (panel_part_field_target df i r) as H.
  exact (f_equal snd H).
Qed.

Lemma panel_target_geometry df i r :
  geometry (panel_target df i r)
  = ((Spec.cursor_at "Report Summary" df (Module_ r)
        (index_of (Dashboard r) (Spec.dashboards_of df (Module_ r)))).1.1,
     (Spec.cursor_at "Report Summary" df (Module_ r)
        (index_of (Dashboard r) (Spec.dashboards_of df (Module_ r)))).1.2,
     Spec.panel_width (Spec.panel_rows df (Module_ r) (Dashboard r)),
     Spec.panel_height "Report Summary"
       (Spec.panel_rows df (Module_ r) (Dashboard r))).
Proof. unfold panel_target. destruct r. cbv zeta. repeat split. Qed.

(** ** Properties of the sanitizer and the validator *)

(** C8: [sanitize_field] is a total function on strings, it is idempotent,
    and its result contains none of the thirteen characters of
    [invalid_chars] (dot, plus, minus, star, slash, the round, square and
    curly brackets, the double quote and the underscore). *)
Theorem sanitize_field_idempotent_clean :
  (∀ s, sanitize_field (sanitize_field s) = sanitize_field s) ∧
  (∀ s c, c ∈ invalid_chars → PyStr.has_char c (sanitize_field s) = false) ∧
  (∀ s, ∃ t, sanitize_field s = t) ∧
  length invalid_chars = 13%nat.
Proof.
  assert (Hclean : ∀ s c, c ∈ invalid_chars →
                          PyStr.has_char c (sanitize_field s) = false).
  { intros s c Hc. unfold sanitize_field. rewrite has_char_fold_remove.
    assert (existsb (Ascii.eqb c) invalid_chars = true) as ->.
    { apply existsb_exists. exists c. split; [by apply list_elem_of_In|].
      apply Ascii.eqb_refl. }
    apply andb_false_r. }
  split; [|split; [done|split; [by eauto|done]]].
  intros s. unfold sanitize_field at 1. apply fold_remove_absent.
  intros c Hc. by apply Hclean.
Qed.

(** Characters outside the set are all kept. *)
Lemma sanitize_field_keeps s c :
  c ∉ invalid_chars →
  PyStr.has_char c (sanitize_field s) = PyStr.has_char c s.
Proof.
  intros Hc. unfold sanitize_field. rewrite has_char_fold_remove.
  assert (existsb (Ascii.eqb c) invalid_chars = false) as ->.
  { apply not_true_is_false. intros (d & Hd & Heq)%existsb_exists.
    apply Ascii.eqb_eq in Heq as ->. by apply Hc, list_elem_of_In. }
  apply andb_true_r.
Qed.

Example sanitize_field_order_id :
  sanitize_field "Order_ID (net)" = "OrderID net".
Proof. reflexivity. Qed.

Lemma validate_row_spec summary row :
  let valid := valid_columns summary (TableGen.Table_Name row) in
  let field := sanitize_field (TableGen.Field row) in
  let display := sanitize_field (TableGen.Display_Field row) in
  TableGen.validate_row (TableGen.sanitize_summary summary) row
  = (TableGen.mkRow (TableGen.Table_Name row)
       (if decide (field ∈ valid) then field else "Record ID")
       (if decide (display ∈ valid ∨ display = "Record ID")
        then display else "Record ID"),
     if decide (invalid_field summary row)
     then [TableGen.mkWarning (TableGen.Field row) (TableGen.Table_Name row)]
     else []).
Proof.
  intros valid field display. unfold TableGen.validate_row.
  rewrite sanitize_summary_lookup, !str_in_elem_of. fold valid field display.
  unfold invalid_field. fold valid field.
  destruct (decide (field ∈ valid)) as [Hf|Hf].
  - rewrite bool_decide_eq_true_2 by done. cbn [negb].
    rewrite (decide_False (P := field ∉ valid)) by tauto.
    f_equal. f_equal.
    destruct (decide (display ∈ valid ∨ display = "Record ID")) as [[Hd|Hd]|Hd].
    + by rewrite bool_decide_eq_true_2.
    + rewrite Hd. rewrite String.eqb_refl. simpl. by rewrite andb_false_r.
    + rewrite bool_decide_eq_false_2 by tauto.
      destruct (String.eqb_spec display "Record ID"); [tauto|done].
  - rewrite bool_decide_eq_false_2 by done. cbn [negb].
    rewrite (decide_True (P := field ∉ valid)) by done.
    f_equal. f_equal.
    destruct (decide (display ∈ valid ∨ display = "Record ID")) as [[Hd|Hd]|Hd].
    + by rewrite bool_decide_eq_true_2.
    + rewrite Hd. rewrite String.eqb_refl. simpl. by rewrite andb_false_r.
    + rewrite bool_decide_eq_false_2 by tauto.
      destruct (String.eqb_spec display "Record ID"); [tauto|done].
Qed.


(** ** Properties of the id assignment *)

(** C6: the ids come from a counter that starts at 1 and advances when a
    composite key [module|dashboard] is seen for the first time, in row
    order: every row is stamped with the decimal form of one more than the
    position of its key among the distinct keys in first-seen order, so
    two rows share an id exactly when they share the key; the rows
    (M1,D1), (M1,D1), (M1,D2), (M2,D1) get the ids 1, 1, 2, 3. *)
Theorem assign_ids_first_seen :
  (∀ df i r,
     df !! i = Some r →
     ∃ n, PyStr.unique (dashboard_key <$> df) !! n = Some (dashboard_key r) ∧
          assign_ids df !! i = Some (set_Element_Id (pretty (S n)) r)) ∧
  (∀ df i j ri rj,
     df !! i = Some ri → df !! j = Some rj →
     (Element_Id <$> assign_ids df !! i = Element_Id <$> assign_ids df !! j
      ↔ dashboard_key ri = dashboard_key rj)) ∧
  (∀ r, dashboard_key r = Module_ r +:+ "|" +:+ Dashboard r) ∧
  Element_Id <$> assign_ids id_rows = ["1"; "1"; "2"; "3"].
Proof.
  assert (Hin : ∀ df i r, df !! i = Some r →
                dashboard_key r ∈ PyStr.unique (dashboard_key <$> df)).
  { intros df i r Hi. apply elem_of_unique, list_elem_of_fmap.
    exists r. split; [done|]. by eapply list_elem_of_lookup_2. }
  split; [|split; [|split; [done|by vm_compute]]].
  - intros df i r Hi. eexists. split; [apply lookup_index_of; eauto|].
    by apply assign_ids_lookup.
  - intros df i j ri rj Hi Hj.
    rewrite (assign_ids_lookup _ _ _ Hi), (assign_ids_lookup _ _ _ Hj).
    cbn. split.
    + intros [= Heq]. apply (inj pretty) in Heq. injection Heq as Heq.
      pose proof (lookup_index_of _ _ (Hin _ _ _ Hi)) as H1.
      pose proof (lookup_index_of _ _ (Hin _ _ _ Hj)) as H2.
      rewrite Heq in H1. congruence.
    + by intros ->.
Qed.

(** ** Properties of the panel pass *)




Example layoutPanels_summary_row :
  Height <$> layoutPanels [summary_row] = [14] ∧
  Spec.panel_height "ReportSummary" [summary_row] = 18.
Proof. by vm_compute. Qed.

(** Six panels of width 6 wrap after three; the second band starts at
    the height of the first plus 5. *)
Example layoutPanels_wraps_after_three :
  geometry <$> layoutPanels six_panels
  = [ (0, 0, 6, 14); (6, 0, 6, 14); (12, 0, 6, 14);
      (0, 19, 6, 14); (6, 19, 6, 14); (12, 19, 6, 14) ].
Proof. by vm_compute. Qed.

(** ** Properties of the field pass *)


(** C3: the field pass groups the rows by dashboard name alone; with
    fieldCount the number of rows of that name in the whole frame, the
    sub-grid has [clamp (ceil (sqrt fieldCount)) 1 4] columns and the row
    at sorted position [p] gets x = 3 + (p mod columns) * 60 and
    y = 5 + (p div columns) * 55. *)
Theorem field_grid_positions (df : list Row) (i : nat) (r : Row) :
  df !! i = Some r →
  let group := sorted_indices df (Dashboard r) in
  let fieldCount := length (filter (λ r', Dashboard r' = Dashboard r) df) in
  (∀ j, j ∈ group ↔ ∃ rj, df !! j = Some rj ∧ Dashboard rj = Dashboard r) ∧
  NoDup group ∧ length group = fieldCount ∧
  ∃ (p : nat) (s : Z) (r' : Row),
    group !! p = Some i ∧
    Spec.is_ceil_sqrt (Z.of_nat fieldCount) s ∧
    position_dashboard_fields df !! i = Some r' ∧
    PosX_1 r' = 3 + (Z.of_nat p `mod` Z.min (Z.max 1 s) 4) * 60 ∧
    PosY_1 r' = 5 + (Z.of_nat p `div` Z.min (Z.max 1 s) 4) * 55.
Proof.
  intros Hi group fieldCount.
  split; [intros j; apply elem_of_sorted_indices|].
  split; [apply NoDup_sorted_indices|].
  split.
  { unfold group, sorted_indices, fieldCount.
    rewrite sorted_Permutation, length_fmap. apply dashboard_df_length. }
  destruct (column_count_spec fieldCount) as (s & Hs & Hcc).
  exists (index_of i group), s, (field_target df i r).
  split; [by apply index_in_sorted_indices|].
  split; [done|].
  split; [by apply position_dashboard_fields_lookup|].
  unfold field_target. rewrite dashboard_df_length. fold fieldCount.
  rewrite Hcc. apply field_update_position.
Qed.

Lemma field_grid_positions_witness :
  mixed_frame.(data) !! 2%nat
  = Some (blank_row "Stock" "Orders" "Table" "Items" "List" (CStr "Notes")) ∧
  ∃ (p : nat) (s : Z) (r' : Row),
    sorted_indices mixed_frame.(data) "Orders" !! p = Some 2%nat ∧
    Spec.is_ceil_sqrt 3 s ∧
    position_dashboard_fields mixed_frame.(data) !! 2%nat = Some r' ∧
    PosX_1 r' = 3 + (Z.of_nat p `mod` Z.min (Z.max 1 s) 4) * 60 ∧
    PosY_1 r' = 5 + (Z.of_nat p `div` Z.min (Z.max 1 s) 4) * 55.
Proof.
  split; [reflexivity|].
  apply (field_grid_positions mixed_frame.(data) 2%nat
           (blank_row "Stock" "Orders" "Table" "Items" "List" (CStr "Notes"))).
  reflexivity.
Defined.

(** Rows of two modules that share a dashboard name share one grid. *)
Example field_grid_merges_modules :
  (λ r, (Module_ r, PosX_1 r, PosY_1 r))
    <$> position_dashboard_fields mixed_frame.(data)
  = [ ("Sales", 3, 5); ("Sales", 3, 60); ("Stock", 63, 5) ].
Proof. by vm_compute. Qed.

(** C4: a row whose field is a string gets the box of its name: 50 by 74
    by default; 100 by 100 for a description/comment/notes name, else
    height 64 for a date name, else height 50 for an id name; and, after
    that, width [min (width * 1.5) 100] when the raw name is longer than
    15 characters.  Notes gets 100 by 100, ModifiedDate gets height 64,
    and a name of 21 characters without a pattern gets width 75. *)
Theorem field_box_sizes :
  (∀ df i r name,
     df !! i = Some r → Field r = CStr name →
     ∃ r', position_dashboard_fields df !! i = Some r' ∧
           (Width_1 r', Height_1 r') = Spec.box name) ∧
  (∀ name, field_size name = Spec.box name) ∧
  Spec.box "Notes" = (100, 100) ∧
  (Spec.box "ModifiedDate").2 = 64 ∧
  String.length "WarehouseLocationBay7" = 21%nat ∧
  Spec.box "WarehouseLocationBay7" = (75, 74).
Proof.
  split; [|split; [apply field_size_box|by vm_compute]].
  intros df i r name Hi Hf. exists (field_target df i r).
  split; [by apply position_dashboard_fields_lookup|].
  unfold field_target. rewrite <-field_size_box.
  by apply field_update_string.
Qed.


(** ** Properties of the serializer *)

(** C7, amended: for every (dashboard, object name, view type) group the
    distinct non-null field names are taken in encounter order, those
    whose trimmed lower-case form is [record id] are dropped, each
    remaining name has its spaces removed and is then trimmed of leading
    and trailing white space, the results are joined as
    [name::False::0::0] segments with a bar between them, and every row
    of the group receives that string; Order ID, Record ID, Ship Date
    give [OrderID::False::0::0|ShipDate::False::0::0]. *)
Theorem serialize_rows_view_attributes :
  (∀ cols, Spec.view_attributes clean_field (serialize_rows cols)) ∧
  (∀ f, clean_field f = PyStr.strip (Spec.remove_spaces f)) ∧
  View_Type_Attributes <$> serialize_rows [] shipping_rows
  = [ "OrderID::False::0::0|ShipDate::False::0::0";
      "OrderID::False::0::0|ShipDate::False::0::0";
      "OrderID::False::0::0|ShipDate::False::0::0" ].
Proof.
  split; [|split; [done|by vm_compute]].
  intros cols df i r Hi. by apply serialize_rows_lookup.
Qed.

Lemma serialize_rows_view_attributes_witness :
  shipping_rows !! 2%nat
  = Some (blank_row "Sales" "Orders" "Table" "Orders" "List"
                    (CStr "Ship Date")) ∧
  serialize_rows [] shipping_rows !! 2%nat
  = Some (set_View_Type_Attributes
            (Spec.serialize clean_field
               (Spec.view_rows shipping_rows ("Orders", "Orders", "List")))
            (blank_row "Sales" "Orders" "Table" "Orders" "List"
                       (CStr "Ship Date"))).
Proof.
  split; [reflexivity|].
  apply (proj1 serialize_rows_view_attributes [] shipping_rows 2%nat
           (blank_row "Sales" "Orders" "Table" "Orders" "List"
                      (CStr "Ship Date"))).
  reflexivity.
Defined.

(** C7 as stated fails: removing the spaces alone leaves the tab in front
    of a name, the serializer strips it. *)
Lemma serialize_rows_strips_tab :
  ¬ Spec.view_attributes Spec.remove_spaces (serialize_rows []).
Proof.
  intros H. specialize (H [tab_row] 0%nat tab_row eq_refl).
  vm_compute in H. discriminate.
Qed.

Example serialize_rows_tab_row :
  View_Type_Attributes <$> serialize_rows [] [tab_row]
  = ["Qty::False::0::0"] ∧
  Spec.serialize Spec.remove_spaces [tab_row]
  = String "009"%char "Qty::False::0::0".
Proof. by vm_compute. Qed.

(** ** Panel geometry through the whole layout *)

(** C9: after the panel pass all rows of one (module, dashboard) pair
    carry the same panel geometry, the one computed for their panel, and
    the field pass and the serializer keep it: they change nothing but
    the field geometry and the attribute string. *)
Theorem panel_geometry_shared_and_kept (df : DataFrame) (i j : nat)
    (ri rj : Row) :
  let rows0 := data (initialize_dataframe_columns df) in
  let rows1 := layoutPanels rows0 in
  let rows2 := position_dashboard_fields rows1 in
  let rows3 := data (apply_smart_layout df) in
  rows0 !! i = Some ri → rows0 !! j = Some rj →
  Module_ ri = Module_ rj → Dashboard ri = Dashboard rj →
  ∃ k : nat,
    Spec.dashboards_of rows0 (Module_ ri) !! k = Some (Dashboard ri) ∧
    let c := Spec.cursor_at "Report Summary" rows0 (Module_ ri) k in
    let panel := Spec.panel_rows rows0 (Module_ ri) (Dashboard ri) in
    let g := (c.1.1, c.1.2, Spec.panel_width panel,
              Spec.panel_height "Report Summary" panel) in
    (∀ rows, rows ∈ [rows1; rows2; rows3] →
       geometry <$> rows !! i = Some g ∧ geometry <$> rows !! j = Some g) ∧
    (∀ n r1, rows1 !! n = Some r1 →
       panel_part <$> rows2 !! n = Some (panel_part r1) ∧
       panel_part <$> rows3 !! n = Some (panel_part r1)).
Proof.
  intros rows0 rows1 rows2 rows3 Hi Hj Hm Hd.
  exists (index_of (Dashboard ri) (Spec.dashboards_of rows0 (Module_ ri))).
  split; [eapply lookup_index_of, dashboard_in_dashboards_of, Hi|].
  cbv zeta.
  assert (H1 : ∀ n r, rows0 !! n = Some r →
               rows1 !! n = Some (panel_target rows0 n r)).
  { intros n r Hn. by apply layoutPanels_lookup. }
  assert (H2 : ∀ n r1, rows1 !! n = Some r1 →
               rows2 !! n = Some (field_target rows1 n r1)).
  { intros n r1 Hn. by apply position_dashboard_fields_lookup. }
  assert (H3 : ∀ n r2, rows2 !! n = Some r2 →
               rows3 !! n = Some (view_target rows2 n r2)).
  { intros n r2 Hn. unfold rows3. rewrite apply_smart_layout_data.
    by apply serialize_rows_lookup. }
  pose proof (panel_target_geometry rows0 i ri) as Hgi.
  pose proof (panel_target_geometry rows0 j rj) as Hgj.
  rewrite <-Hm, <-Hd in Hgj.
  split.
  - intros rows Hrows.
    pose proof (H1 _ _ Hi) as Hi1. pose proof (H1 _ _ Hj) as Hj1.
    pose proof (H2 _ _ Hi1) as Hi2. pose proof (H2 _ _ Hj1) as Hj2.
    pose proof (H3 _ _ Hi2) as Hi3. pose proof (H3 _ _ Hj2) as Hj3.
    apply elem_of_cons in Hrows as [->|Hrows];
      [|apply elem_of_cons in Hrows as [->|Hrows];
        [|apply list_elem_of_singleton in Hrows as ->]].
    + rewrite Hi1, Hj1. cbn [fmap option_fmap option_map].
      by rewrite Hgi, Hgj.
    + rewrite Hi2, Hj2. cbn [fmap option_fmap option_map].
      by rewrite !field_target_geometry, Hgi, Hgj.
    + rewrite Hi3, Hj3. cbn [fmap option_fmap option_map].
      by rewrite !view_target_geometry, !field_target_geometry, Hgi, Hgj.
  - intros n r1 Hn. pose proof (H2 _ _ Hn) as Hn2.
    rewrite (H3 _ _ Hn2), Hn2. cbn [fmap option_fmap option_map].
    by rewrite panel_part_view_target, !panel_part_field_target.
Qed.

Lemma panel_geometry_shared_and_kept_witness :
  data (initialize_dataframe_columns mixed_frame) !! 0%nat
  = Some (set_Height_1 50 (set_Width_1 50 (set_PosY_1 5 (set_PosX_1 3
      (set_Height 14 (set_Width 6
        (blank_row "Sales" "Orders" "Table" "Orders" "List"
                   (CStr "OrderID")))))))) ∧
  ∃ k : nat,
    Spec.dashboards_of (data (initialize_dataframe_columns mixed_frame))
                       "Sales" !! k = Some "Orders" ∧
    let c := Spec.cursor_at "Report Summary"
               (data (initialize_dataframe_columns mixed_frame)) "Sales" k in
    let panel := Spec.panel_rows
               (data (initialize_dataframe_columns mixed_frame))
               "Sales" "Orders" in
    let g := (c.1.1, c.1.2, Spec.panel_width panel,
              Spec.panel_height "Report Summary" panel) in
    (∀ rows,
       rows ∈ [ layoutPanels (data (initialize_dataframe_columns mixed_frame));
                position_dashboard_fields
                  (layoutPanels
                     (data (initialize_dataframe_columns mixed_frame)));
                data (apply_smart_layout mixed_frame) ] →
       geometry <$> rows !! 0%nat = Some g ∧
       geometry <$> rows !! 1%nat = Some g) ∧
    (∀ n r1,
       layoutPanels (data (initialize_dataframe_columns mixed_frame)) !! n
       = Some r1 →
       panel_part
         <$> position_dashboard_fields
               (layoutPanels
                  (data (initialize_dataframe_columns mixed_frame))) !! n
       = Some (panel_part r1) ∧
       panel_part <$> data (apply_smart_layout mixed_frame) !! n
       = Some (panel_part r1)).
Proof.
  split; [reflexivity|].
  apply (panel_geometry_shared_and_kept mixed_frame 0%nat 1%nat
           (set_Height_1 50 (set_Width_1 50 (set_PosY_1 5 (set_PosX_1 3
             (set_Height 14 (set_Width 6
               (blank_row "Sales" "Orders" "Table" "Orders" "List"
                          (CStr "OrderID"))))))))
           (set_Height_1 50 (set_Width_1 50 (set_PosY_1 5 (set_PosX_1 3
             (set_Height 14 (set_Width 6
               (blank_row "Sales" "Orders" "Report" "Orders"
                          "Report Summary" CNull))))))));
    reflexivity.
Defined.

Example panel_geometry_mixed_frame :
  geometry <$> data (apply_smart_layout mixed_frame)
  = [ (0, 0, 9, 18); (0, 0, 9, 18); (0, 0, 6, 14) ].
Proof. by vm_compute. Qed.

(** ** Bounds and separation of the panels *)

Lemma panel_size_ok s g : size_ok (Spec.panel_width g, Spec.panel_height s g).
Proof.
  unfold size_ok, Spec.panel_width, Spec.panel_height, Spec.ceil_div2. simpl.
  split; [case_decide; lia|].
  repeat case_decide; Z.div_mod_to_equations; lia.
Qed.

Lemma step_ok c wh : cursor_ok c → size_ok wh → cursor_ok (Spec.step c wh).
Proof.
  destruct c as [[x y] mh], wh as [w h].
  unfold cursor_ok, size_ok, Spec.step. simpl.
  intros (Hx & Hx3 & Hm & Hy & Hmh) (Hw & Hh & _).
  case_decide; simpl; Z.div_mod_to_equations; lia.
Qed.

Lemma fold_step_ok sizes c :
  cursor_ok c → Forall size_ok sizes → cursor_ok (fold_left Spec.step sizes c).
Proof.
  intros Hc Hs. revert c Hc.
  induction Hs as [|wh sizes Hwh Hs IH]; intros c Hc; [done|].
  simpl. apply IH. by apply step_ok.
Qed.

Lemma panel_sizes_ok s df m : Forall size_ok (Spec.panel_sizes s df m).
Proof.
  unfold Spec.panel_sizes. apply Forall_fmap, Forall_forall.
  intros d _. apply panel_size_ok.
Qed.

Lemma cursor_at_ok s df m k : cursor_ok (Spec.cursor_at s df m k).
Proof.
  unfold Spec.cursor_at. apply fold_step_ok.
  - unfold cursor_ok. simpl. repeat split; (reflexivity || lia).
  - apply Forall_take, panel_sizes_ok.
Qed.

(** A panel placed at [c] stays clear of every cursor reached later:
    either the band is the same and the cursor is to its right, or the
    cursor is in a band at least 5 below its lower edge. *)
Lemma fold_step_clear sizes c wh :
  cursor_ok c → size_ok wh → Forall size_ok sizes →
  let c' := fold_left Spec.step sizes (Spec.step c wh) in
  (c'.1.2 = c.1.2 ∧ c.1.1 + wh.1 ≤ c'.1.1 ∧ wh.2 ≤ c'.2) ∨
  c.1.2 + wh.2 + 5 ≤ c'.1.2.
Proof.
  intros Hc Hwh Hs. cbv zeta.
  assert (Hstart :
    let c1 := Spec.step c wh in
    cursor_ok c1 ∧
    ((c1.1.2 = c.1.2 ∧ c.1.1 + wh.1 ≤ c1.1.1 ∧ wh.2 ≤ c1.2) ∨
     c.1.2 + wh.2 + 5 ≤ c1.1.2)).
  { split; [by apply step_ok|].
    destruct c as [[x y] mh], wh as [w h].
    unfold cursor_ok, size_ok, Spec.step in *. simpl in *.
    case_decide; simpl; Z.div_mod_to_equations; lia. }
  cbv zeta in Hstart. revert Hstart.
  generalize (Spec.step c wh) as c1. clear Hc.
  induction Hs as [|wh' sizes Hwh' Hs IH]; intros c1 [Hc1 Hrel]; [done|].
  simpl. apply IH. split; [by apply step_ok|].
  destruct c as [[x y] mh], wh as [w h], c1 as [[x1 y1] mh1], wh' as [w' h'].
  unfold cursor_ok, size_ok, Spec.step in *. simpl in *.
  case_decide; simpl; Z.div_mod_to_equations; lia.
Qed.

Lemma cursor_at_later s df m k1 k2 wh :
  (k1 < k2)%nat → Spec.panel_sizes s df m !! k1 = Some wh →
  ∃ rest, Forall size_ok rest ∧
    Spec.cursor_at s df m k2
    = fold_left Spec.step rest (Spec.step (Spec.cursor_at s df m k1) wh).
Proof.
  intros Hk Hwh. unfold Spec.cursor_at.
  set (sizes := Spec.panel_sizes s df m) in *.
  exists (take (k2 - S k1) (drop (S k1) sizes)). split.
  - apply Forall_take, Forall_drop, panel_sizes_ok.
  - replace k2 with (S k1 + (k2 - S k1))%nat at 1 by lia.
    rewrite <-take_take_drop, fold_left_app.
    by rewrite (take_S_r _ _ _ Hwh), fold_left_app.
Qed.

Lemma panel_sizes_lookup s df m k d :
  Spec.dashboards_of df m !! k = Some d →
  Spec.panel_sizes s df m !! k
  = Some (Spec.panel_width (Spec.panel_rows df m d),
          Spec.panel_height s (Spec.panel_rows df m d)).
Proof.
  intros Hk. unfold Spec.panel_sizes. by rewrite list_lookup_fmap, Hk.
Qed.

Lemma disjoint_rect_sym a b : disjoint_rect a b → disjoint_rect b a.
Proof.
  destruct a as [[[xa ya] wa] ha], b as [[[xb yb] wb] hb]. simpl. lia.
Qed.

(** Panels of one module placed at different positions of the dashboard
    order do not overlap. *)
Lemma panels_clear s df m k1 k2 d1 d2 :
  (k1 < k2)%nat →
  Spec.dashboards_of df m !! k1 = Some d1 →
  Spec.dashboards_of df m !! k2 = Some d2 →
  disjoint_rect
    ((Spec.cursor_at s df m k1).1.1, (Spec.cursor_at s df m k1).1.2,
     Spec.panel_width (Spec.panel_rows df m d1),
     Spec.panel_height s (Spec.panel_rows df m d1))
    ((Spec.cursor_at s df m k2).1.1, (Spec.cursor_at s df m k2).1.2,
     Spec.panel_width (Spec.panel_rows df m d2),
     Spec.panel_height s (Spec.panel_rows df m d2)).
Proof.
  intros Hk H1 H2.
  pose proof (panel_sizes_lookup s _ _ _ _ H1) as Hs1.
  destruct (cursor_at_later s df m k1 k2 _ Hk Hs1) as (rest & Hrest & ->).
  pose proof (fold_step_clear rest _ _ (cursor_at_ok s df m k1)
                (panel_size_ok s (Spec.panel_rows df m d1)) Hrest) as Hclear.
  cbv zeta in Hclear. simpl in Hclear. unfold disjoint_rect.
  destruct (panel_size_ok s (Spec.panel_rows df m d2)) as (Hw2 & Hh2 & _).
  simpl in *. lia.
Qed.

(** X1: every row leaves the panel pass with a panel that starts in
    column 0, 6, 9, 12 or 15 and at a row that is not negative, is 6 or 9
    wide and at least 14 high with an even height, and ends at column 24
    at the latest. *)
Theorem layoutPanels_bounds (df : list Row) (i : nat) (r : Row) :
  df !! i = Some r →
  ∃ r', layoutPanels df !! i = Some r' ∧
        PosX r' ∈ [0; 6; 9; 12; 15] ∧ 0 ≤ PosY r' ∧
        (Width r' = 6 ∨ Width r' = 9) ∧
        14 ≤ Height r' ∧ Height r' `mod` 2 = 0 ∧
        PosX r' + Width r' ≤ 24.
Proof.
  intros Hi. exists (panel_target df i r).
  split; [by apply layoutPanels_lookup|].
  pose proof (panel_target_geometry df i r) as Hg.
  pose proof (f_equal (λ g : Z * Z * Z * Z, g.1.1.1) Hg) as HX.
  pose proof (f_equal (λ g : Z * Z * Z * Z, g.1.1.2) Hg) as HY.
  pose proof (f_equal (λ g : Z * Z * Z * Z, g.1.2) Hg) as HW.
  pose proof (f_equal (λ g : Z * Z * Z * Z, g.2) Hg) as HH.
  cbn [geometry fst snd] in HX, HY, HW, HH. rewrite HX, HY, HW, HH. clear Hg.
  set (k := index_of (Dashboard r) (Spec.dashboards_of df (Module_ r))).
  destruct (cursor_at_ok "Report Summary" df (Module_ r) k)
    as (Hx & Hx3 & Hm & Hy & _).
  destruct (panel_size_ok "Report Summary"
              (Spec.panel_rows df (Module_ r) (Dashboard r)))
    as (Hw & Hh & He). simpl in Hw, Hh, He.
  set (x := (Spec.cursor_at "Report Summary" df (Module_ r) k).1.1) in *.
  assert (x = 0 ∨ x = 6 ∨ x = 9 ∨ x = 12 ∨ x = 15) as Hcases
    by (Z.div_mod_to_equations; lia).
  split; [|repeat split; try done; lia].
  rewrite !elem_of_cons. tauto.
Qed.

Lemma layoutPanels_bounds_witness :
  six_panels !! 4%nat
  = Some (blank_row "Sales" "P5" "Table" "T" "List" (CStr "Name")) ∧
  ∃ r', layoutPanels six_panels !! 4%nat = Some r' ∧
        PosX r' ∈ [0; 6; 9; 12; 15] ∧ 0 ≤ PosY r' ∧
        (Width r' = 6 ∨ Width r' = 9) ∧
        14 ≤ Height r' ∧ Height r' `mod` 2 = 0 ∧
        PosX r' + Width r' ≤ 24.
Proof.
  split; [reflexivity|].
  apply (layoutPanels_bounds six_panels 4%nat
           (blank_row "Sales" "P5" "Table" "T" "List" (CStr "Name"))).
  reflexivity.
Defined.

(** X2: after the panel pass the panels of two different dashboards of
    one module do not overlap. *)
Theorem layoutPanels_disjoint (df : list Row) (i j : nat) (ri rj : Row) :
  df !! i = Some ri → df !! j = Some rj →
  Module_ ri = Module_ rj → Dashboard ri ≠ Dashboard rj →
  ∃ ri' rj', layoutPanels df !! i = Some ri' ∧
             layoutPanels df !! j = Some rj' ∧
             disjoint_rect (geometry ri') (geometry rj').
Proof.
  intros Hi Hj Hm Hd.
  exists (panel_target df i ri), (panel_target df j rj).
  split; [by apply layoutPanels_lookup|].
  split; [by apply layoutPanels_lookup|].
  rewrite !panel_target_geometry, <-Hm.
  pose proof (lookup_index_of _ _ (dashboard_in_dashboards_of _ _ _ Hi)) as Hki.
  pose proof (lookup_index_of _ _ (dashboard_in_dashboards_of _ _ _ Hj)) as Hkj.
  rewrite <-Hm in Hkj.
  set (ki := index_of (Dashboard ri) (Spec.dashboards_of df (Module_ ri))) in *.
  set (kj := index_of (Dashboard rj) (Spec.dashboards_of df (Module_ ri))) in *.
  destruct (Nat.lt_trichotomy ki kj) as [Hlt|[Heq|Hlt]].
  - by eapply panels_clear.
  - rewrite Heq in Hki. congruence.
  - apply disjoint_rect_sym. by eapply panels_clear.
Qed.

Lemma layoutPanels_disjoint_witness :
  six_panels !! 2%nat
  = Some (blank_row "Sales" "P3" "Table" "T" "List" (CStr "Name")) ∧
  ∃ ri' rj', layoutPanels six_panels !! 2%nat = Some ri' ∧
             layoutPanels six_panels !! 3%nat = Some rj' ∧
             disjoint_rect (geometry ri') (geometry rj').
Proof.
  split; [reflexivity|].
  apply (layoutPanels_disjoint six_panels 2%nat 3%nat
           (blank_row "Sales" "P3" "Table" "T" "List" (CStr "Name"))
           (blank_row "Sales" "P4" "Table" "T" "List" (CStr "Name")));
    [reflexivity|reflexivity|reflexivity|discriminate].
Defined.

(** ** Bounds and separation of the field cells *)

Lemma column_count_range n : 1 ≤ column_count n ≤ 4.
Proof. unfold column_count. lia. Qed.

Lemma box_values name :
  (Spec.box name).1 ∈ [50; 75; 100] ∧ (Spec.box name).2 ∈ [50; 64; 74; 100].
Proof.
  unfold Spec.box.
  repeat case_match; simplify_eq; simpl; rewrite !elem_of_cons;
    split; try tauto; vm_compute; tauto.
Qed.

Lemma grid_cell_inj (c p q : Z) :
  0 < c →
  3 + (p `mod` c) * 60 = 3 + (q `mod` c) * 60 →
  5 + (p `div` c) * 55 = 5 + (q `div` c) * 55 →
  p = q.
Proof.
  intros Hc Hx Hy.
  rewrite (Z.div_mod p c), (Z.div_mod q c) by lia.
  assert (p `mod` c = q `mod` c) as -> by lia.
  assert (p `div` c = q `div` c) as -> by lia. done.
Qed.

(** X3: two different rows of the same dashboard never get the same
    field position. *)
Theorem field_cells_distinct (df : list Row) (i j : nat) (ri rj : Row) :
  df !! i = Some ri → df !! j = Some rj →
  i ≠ j → Dashboard ri = Dashboard rj →
  ∃ ri' rj', position_dashboard_fields df !! i = Some ri' ∧
             position_dashboard_fields df !! j = Some rj' ∧
             (PosX_1 ri', PosY_1 ri') ≠ (PosX_1 rj', PosY_1 rj').
Proof.
  intros Hi Hj Hij Hd.
  exists (field_target df i ri), (field_target df j rj).
  split; [by apply position_dashboard_fields_lookup|].
  split; [by apply position_dashboard_fields_lookup|].
  unfold field_target. rewrite <-Hd.
  set (cc := column_count (length (dashboard_df df (Dashboard ri)))).
  pose proof (index_in_sorted_indices _ _ _ Hi) as Hpi.
  pose proof (index_in_sorted_indices _ _ _ Hj) as Hpj.
  rewrite <-Hd in Hpj.
  set (p := index_of i (sorted_indices df (Dashboard ri))) in *.
  set (q := index_of j (sorted_indices df (Dashboard ri))) in *.
  destruct (field_update_position cc p ri) as [-> ->].
  destruct (field_update_position cc q rj) as [-> ->].
  intros [= Hx Hy]. apply Hij.
  assert (Z.of_nat p = Z.of_nat q) as Hpq.
  { apply (grid_cell_inj cc); [|done..].
    pose proof (column_count_range (length (dashboard_df df (Dashboard ri)))).
    unfold cc. lia. }
  apply Nat2Z.inj in Hpq. rewrite Hpq in Hpi. congruence.
Qed.

Lemma field_cells_distinct_witness :
  priority_rows !! 0%nat
  = Some (blank_row "Sales" "Orders" "Table" "Orders" "List"
                    (CStr "Description")) ∧
  ∃ ri' rj', position_dashboard_fields priority_rows !! 0%nat = Some ri' ∧
             position_dashboard_fields priority_rows !! 2%nat = Some rj' ∧
             (PosX_1 ri', PosY_1 ri') ≠ (PosX_1 rj', PosY_1 rj').
Proof.
  split; [reflexivity|].
  apply (field_cells_distinct priority_rows 0%nat 2%nat
           (blank_row "Sales" "Orders" "Table" "Orders" "List"
                      (CStr "Description"))
           (blank_row "Sales" "Orders" "Table" "Orders" "List"
                      (CStr "CreatedDate")));
    [reflexivity|reflexivity|discriminate|reflexivity].
Defined.

(** X4: the field pass places every row in one of the four columns 3,
    63, 123, 183 and on a line 5 + 55 * k with k below the size of its
    dashboard group; a row whose field is a string gets a box 50, 75 or
    100 wide and 50, 64, 74 or 100 high. *)
Theorem field_geometry_bounds (df : list Row) (i : nat) (r : Row) :
  df !! i = Some r →
  ∃ (r' : Row) (k : Z),
    position_dashboard_fields df !! i = Some r' ∧
    PosX_1 r' ∈ [3; 63; 123; 183] ∧
    PosY_1 r' = 5 + 55 * k ∧
    0 ≤ k < Z.of_nat (length (filter (λ x, Dashboard x = Dashboard r) df)) ∧
    (is_string (Field r) →
     Width_1 r' ∈ [50; 75; 100] ∧ Height_1 r' ∈ [50; 64; 74; 100]).
Proof.
  intros Hi.
  set (n := length (filter (λ x, Dashboard x = Dashboard r) df)).
  set (p := index_of i (sorted_indices df (Dashboard r))).
  exists (field_target df i r), (Z.of_nat p `div` column_count n).
  split; [by apply position_dashboard_fields_lookup|].
  unfold field_target. rewrite dashboard_df_length. fold n p.
  destruct (field_update_position (column_count n) p r) as [-> ->].
  pose proof (column_count_range n) as Hcc.
  assert (p < n)%nat as Hp.
  { pose proof (index_in_sorted_indices _ _ _ Hi) as Hl.
    apply lookup_lt_Some in Hl. fold p in Hl.
    unfold sorted_indices in Hl.
    rewrite sorted_Permutation, length_fmap, dashboard_df_length in Hl.
    exact Hl. }
  split; [|split; [lia|split]].
  - pose proof (Z.mod_pos_bound (Z.of_nat p) (column_count n) ltac:(lia)).
    set (m := Z.of_nat p `mod` column_count n) in *.
    assert (m = 0 ∨ m = 1 ∨ m = 2 ∨ m = 3) as Hm by lia.
    rewrite !elem_of_cons. lia.
  - split; [apply Z.div_pos; lia|].
    apply Z.div_lt_upper_bound; [lia|]. nia.
  - intros Hs. destruct (Field r) as [name| |] eqn:Hf; [|done..].
    pose proof (field_update_string (column_count n) p r name Hf) as Hbox.
    rewrite field_size_box in Hbox.
    destruct (box_values name) as [Hw Hh].
    rewrite <-Hbox in Hw, Hh. done.
Qed.

Lemma field_geometry_bounds_witness :
  priority_rows !! 1%nat
  = Some (blank_row "Sales" "Orders" "Table" "Orders" "List"
                    (CStr "OrderID")) ∧
  ∃ (r' : Row) (k : Z),
    position_dashboard_fields priority_rows !! 1%nat = Some r' ∧
    PosX_1 r' ∈ [3; 63; 123; 183] ∧
    PosY_1 r' = 5 + 55 * k ∧
    0 ≤ k < 3 ∧
    (is_string (CStr "OrderID") →
     Width_1 r' ∈ [50; 75; 100] ∧ Height_1 r' ∈ [50; 64; 74; 100]).
Proof.
  split; [reflexivity|].
  apply (field_geometry_bounds priority_rows 1%nat
           (blank_row "Sales" "Orders" "Table" "Orders" "List"
                      (CStr "OrderID"))).
  reflexivity.
Defined.

(** ** Further facts about ids, sanitizing and validation *)

Lemma stamp_length st rows : length (stamp st rows) = length rows.
Proof.
  revert st. induction rows as [|row rest IH]; intros st; simpl; [done|].
  by rewrite IH.
Qed.

Lemma assign_ids_length df : length (assign_ids df) = length df.
Proof. rewrite assign_ids_stamp. apply stamp_length. Qed.

Lemma assign_ids_keys df : dashboard_key <$> assign_ids df = dashboard_key <$> df.
Proof.
  apply list_eq. intros i. rewrite !list_lookup_fmap.
  destruct (df !! i) as [r|] eqn:E.
  - by rewrite (assign_ids_lookup _ _ _ E).
  - apply lookup_ge_None in E.
    rewrite (proj2 (lookup_ge_None (assign_ids df) i)); [done|].
    by rewrite assign_ids_length.
Qed.

Lemma string_app_assoc (s t u : string) : (s +:+ t) +:+ u = s +:+ (t +:+ u).
Proof.
  induction s as [|a s IH]; [done|].
  change (String a s +:+ t) with (String a (s +:+ t)).
  change (String a (s +:+ t) +:+ u) with (String a ((s +:+ t) +:+ u)).
  by rewrite IH.
Qed.

Lemma replace_char_app c new s t :
  PyStr.replace_char c new (s +:+ t)
  = PyStr.replace_char c new s +:+ PyStr.replace_char c new t.
Proof.
  induction s as [|a s IH]; [done|].
  change (String a s +:+ t) with (String a (s +:+ t)).
  cbn [PyStr.replace_char]. rewrite IH.
  destruct (Ascii.eqb a c); [|done].
  by rewrite string_app_assoc.
Qed.

Lemma remove_char_length c s :
  (String.length (PyStr.replace_char c EmptyString s) ≤ String.length s)%nat.
Proof.
  induction s as [|a s IH]; simpl; [done|].
  destruct (Ascii.eqb a c).
  - change (EmptyString +:+ ?x) with x. lia.
  - simpl. lia.
Qed.

Lemma fold_remove_app cs s t :
  fold_left (λ f ch, PyStr.replace_char ch EmptyString f) cs (s +:+ t)
  = fold_left (λ f ch, PyStr.replace_char ch EmptyString f) cs s
    +:+ fold_left (λ f ch, PyStr.replace_char ch EmptyString f) cs t.
Proof.
  revert s t. induction cs as [|c cs IH]; intros s t; [done|].
  simpl. by rewrite replace_char_app, IH.
Qed.

Lemma fold_remove_length cs s :
  (String.length
     (fold_left (λ f ch, PyStr.replace_char ch EmptyString f) cs s)
   ≤ String.length s)%nat.
Proof.
  revert s. induction cs as [|c cs IH]; intros s; simpl; [done|].
  etrans; [apply IH|]. apply remove_char_length.
Qed.

Lemma sanitize_clean s c :
  c ∈ invalid_chars → PyStr.has_char c (sanitize_field s) = false.
Proof.
  intros Hc. unfold sanitize_field. rewrite has_char_fold_remove.
  assert (existsb (Ascii.eqb c) invalid_chars = true) as ->.
  { apply existsb_exists. exists c. split; [by apply list_elem_of_In|].
    apply Ascii.eqb_refl. }
  apply andb_false_r.
Qed.

Lemma sanitize_fixed s :
  sanitize_field s = s ↔ ∀ c, c ∈ invalid_chars → PyStr.has_char c s = false.
Proof.
  split.
  - intros <- c Hc. by apply sanitize_clean.
  - intros H. by apply fold_remove_absent.
Qed.

Lemma sanitize_sanitize s : sanitize_field (sanitize_field s) = sanitize_field s.
Proof. apply sanitize_fixed. intros c Hc. by apply sanitize_clean. Qed.

Lemma set_Element_Id_erase s r1 r2 :
  set_Element_Id EmptyString r1 = set_Element_Id EmptyString r2 →
  set_Element_Id s r1 = set_Element_Id s r2.
Proof.
  destruct r1, r2. unfold set_Element_Id. simpl.
  intros H. injection H. intros. by subst.
Qed.

(** X5: the ids handed out by [assign_ids] are exactly the decimal
    numbers 1 to n, n being the number of distinct module|dashboard keys
    of the frame: every row carries one of them and each of them is
    carried by some row. *)
Theorem assign_ids_dense (df : list Row) :
  let n := length (PyStr.unique (dashboard_key <$> df)) in
  length (assign_ids df) = length df ∧
  (∀ i r', assign_ids df !! i = Some r' →
     ∃ k, (1 ≤ k ≤ n)%nat ∧ Element_Id r' = pretty k) ∧
  (∀ k, (1 ≤ k ≤ n)%nat →
     ∃ i r', assign_ids df !! i = Some r' ∧ Element_Id r' = pretty k).
Proof.
  intros n. split; [apply assign_ids_length|]. split.
  - intros i r' Hi.
    destruct (df !! i) as [r|] eqn:E.
    + rewrite (assign_ids_lookup _ _ _ E) in Hi. injection Hi as <-.
      eexists. split; [|reflexivity].
      assert (dashboard_key r ∈ PyStr.unique (dashboard_key <$> df)) as Hin.
      { apply elem_of_unique, list_elem_of_fmap. exists r.
        split; [done|]. by eapply list_elem_of_lookup_2. }
      apply lookup_index_of, lookup_lt_Some in Hin. unfold n. lia.
    + apply lookup_ge_None in E. apply lookup_lt_Some in Hi.
      rewrite assign_ids_length in Hi. lia.
  - intros k Hk.
    destruct (lookup_lt_is_Some_2 (PyStr.unique (dashboard_key <$> df))
                (k - 1)%nat ltac:(unfold n in Hk; lia)) as [key Hkey].
    assert (key ∈ dashboard_key <$> df) as Hin
      by (eapply elem_of_unique, list_elem_of_lookup_2, Hkey).
    apply list_elem_of_fmap in Hin as (r & -> & Hr).
    apply list_elem_of_lookup in Hr as [i Hi].
    exists i. eexists. split; [by apply assign_ids_lookup|].
    cbn. f_equal.
    rewrite (index_of_lookup _ _ _ (NoDup_unique _) Hkey). lia.
Qed.

(** X6: [assign_ids] does not read the ids that are already in the frame
    and changes no other column: two frames that differ in the Element Id
    column only get the same result, and assigning ids twice gives the
    same frame as assigning them once. *)
Theorem assign_ids_idempotent :
  (∀ df1 df2 : list Row,
     set_Element_Id EmptyString <$> df1 = set_Element_Id EmptyString <$> df2 →
     assign_ids df1 = assign_ids df2) ∧
  (∀ df, assign_ids (assign_ids df) = assign_ids df).
Proof.
  assert (Hgen : ∀ df1 df2 : list Row,
    set_Element_Id EmptyString <$> df1 = set_Element_Id EmptyString <$> df2 →
    assign_ids df1 = assign_ids df2).
  { intros df1 df2 Heq.
    assert (length df1 = length df2) as Hlen
      by (rewrite <-(length_fmap (set_Element_Id EmptyString) df1), Heq;
          apply length_fmap).
    assert (Hrows : ∀ i r1 r2, df1 !! i = Some r1 → df2 !! i = Some r2 →
              set_Element_Id EmptyString r1 = set_Element_Id EmptyString r2).
    { intros i r1 r2 H1 H2.
      pose proof (f_equal (λ l, l !! i) Heq) as Hi. simpl in Hi.
      rewrite !list_lookup_fmap, H1, H2 in Hi. simpl in Hi. congruence. }
    assert (dashboard_key <$> df1 = dashboard_key <$> df2) as Hkeys.
    { pose proof (f_equal (fmap dashboard_key) Heq) as Hk.
      by rewrite <-!list_fmap_compose in Hk. }
    apply list_eq. intros i.
    destruct (df1 !! i) as [r1|] eqn:E1, (df2 !! i) as [r2|] eqn:E2.
    - rewrite (assign_ids_lookup _ _ _ E1), (assign_ids_lookup _ _ _ E2).
      rewrite Hkeys. pose proof (Hrows _ _ _ E1 E2) as Hr.
      pose proof (f_equal dashboard_key Hr) as Hk.
      change (dashboard_key r1 = dashboard_key r2) in Hk. rewrite Hk.
      f_equal. by apply set_Element_Id_erase.
    - apply lookup_lt_Some in E1. apply lookup_ge_None in E2. lia.
    - apply lookup_lt_Some in E2. apply lookup_ge_None in E1. lia.
    - apply lookup_ge_None in E1, E2.
      rewrite !(proj2 (lookup_ge_None _ _)); [done|..];
        by rewrite assign_ids_length. }
  split; [exact Hgen|].
  intros df. apply Hgen. apply list_eq. intros i.
  rewrite !list_lookup_fmap.
  destruct (df !! i) as [r|] eqn:E.
  - by rewrite (assign_ids_lookup _ _ _ E).
  - apply lookup_ge_None in E.
    rewrite (proj2 (lookup_ge_None (assign_ids df) i)); [done|].
    by rewrite assign_ids_length.
Qed.

(** X7: [sanitize_field] works character by character: it distributes
    over concatenation, never lengthens a name, and leaves a name alone
    exactly when the name holds none of the thirteen characters. *)
Theorem sanitize_field_append :
  (∀ s t, sanitize_field (s +:+ t) = sanitize_field s +:+ sanitize_field t) ∧
  (∀ s, (String.length (sanitize_field s) ≤ String.length s)%nat) ∧
  (∀ s, sanitize_field s = s
        ↔ ∀ c, c ∈ invalid_chars → PyStr.has_char c s = false).
Proof.
  split; [intros s t; apply fold_remove_app|].
  split; [intros s; apply fold_remove_length|apply sanitize_fixed].
Qed.

Lemma validate_row_fixed summary row :
  (TableGen.validate_row (TableGen.sanitize_summary summary)
     (TableGen.validate_row (TableGen.sanitize_summary summary) row).1).1
  = (TableGen.validate_row (TableGen.sanitize_summary summary) row).1.
Proof.
  rewrite (validate_row_spec summary row). cbn [fst].
  rewrite validate_row_spec.
  cbn [fst TableGen.Table_Name TableGen.Field TableGen.Display_Field].
  set (valid := valid_columns summary (TableGen.Table_Name row)).
  set (f := sanitize_field (TableGen.Field row)).
  set (d := sanitize_field (TableGen.Display_Field row)).
  assert (sanitize_field "Record ID" = "Record ID") as Hrid by reflexivity.
  f_equal.
  - destruct (decide (f ∈ valid)) as [Hf|Hf].
    + unfold f. rewrite sanitize_sanitize. fold f. by rewrite decide_True.
    + rewrite Hrid. by case_decide.
  - destruct (decide (d ∈ valid ∨ d = "Record ID")) as [Hd|Hd].
    + unfold d. rewrite sanitize_sanitize. fold d. by rewrite decide_True.
    + rewrite Hrid. by case_decide.
Qed.

(** X8: validating a validated frame changes nothing: the repaired rows
    are a fixed point of [validate_fields]. *)
Theorem validate_fields_idempotent summary (df : list TableGen.Row) :
  (TableGen.validate_fields summary (TableGen.validate_fields summary df).1).1
  = (TableGen.validate_fields summary df).1.
Proof.
  unfold TableGen.validate_fields.
  set (ss := TableGen.sanitize_summary summary).
  apply list_eq. intros i.
  destruct (df !! i) as [row|] eqn:E.
  - pose proof (validate_rows_lookup ss _ _ _ E) as H1.
    rewrite (validate_rows_lookup ss _ _ _ H1), H1.
    f_equal. apply validate_row_fixed.
  - apply lookup_ge_None in E.
    rewrite !(proj2 (lookup_ge_None _ _)); [done|..];
      by rewrite !validate_rows_length.
Qed.

(** ** The layout as a whole *)

Lemma erase_layout_keys r :
  Module_ (erase_layout r) = Module_ r ∧
  Dashboard (erase_layout r) = Dashboard r ∧
  Object_Type (erase_layout r) = Object_Type r ∧
  View_Type (erase_layout r) = View_Type r.
Proof. done. Qed.

Lemma erase_layout_field r :
  Dashboard (erase_layout r) = Dashboard r ∧ Field (erase_layout r) = Field r.
Proof. done. Qed.

Lemma erase_layout_group r :
  group_key (erase_layout r) = group_key r ∧ Field (erase_layout r) = Field r.
Proof. done. Qed.

Lemma erase_layout_inputs r r' :
  erase_layout r = erase_layout r' → layout_inputs r = layout_inputs r'.
Proof.
  destruct r, r'. unfold erase_layout, layout_inputs. simpl.
  intros H. injection H. intros. by subst.
Qed.

Lemma erase_layout_panel_target df i r :
  erase_layout (panel_target df i r) = erase_layout r.
Proof. unfold panel_target. by destruct r. Qed.

Lemma erase_layout_field_target df i r :
  erase_layout (field_target df i r) = erase_layout r.
Proof.
  unfold field_target, field_update. by destruct r as [? ? ? ? ? ? []].
Qed.

Lemma erase_layout_view_target df i r :
  erase_layout (view_target df i r) = erase_layout r.
Proof. unfold view_target. by destruct r. Qed.

Lemma layout_targets_dashboard R2 R1 i r :
  Dashboard (view_target R2 i (field_target R1 i r)) = Dashboard r ∧
  group_key (view_target R2 i (field_target R1 i r)) = group_key r.
Proof.
  pose proof (erase_layout_view_target R2 i (field_target R1 i r)) as H.
  rewrite erase_layout_field_target in H.
  destruct (erase_layout_field (view_target R2 i (field_target R1 i r)))
    as [<- _].
  destruct (erase_layout_group (view_target R2 i (field_target R1 i r)))
    as [<- _].
  rewrite H. split; [apply erase_layout_field|apply erase_layout_group].
Qed.

(** A pass that sends every row to a target with the same erased form
    keeps the erased frame; if the targets are the rows themselves it
    keeps the frame. *)
Lemma pass_erased (g : Row → Row) (t : nat → Row → Row) (R R' : list Row) :
  length R' = length R →
  (∀ i r, R !! i = Some r → R' !! i = Some (t i r)) →
  (∀ i r, g (t i r) = g r) →
  g <$> R' = g <$> R.
Proof.
  intros Hlen Hl Hg. apply list_eq. intros i. rewrite !list_lookup_fmap.
  destruct (R !! i) as [r|] eqn:E.
  - rewrite (Hl _ _ E). simpl. by rewrite Hg.
  - apply lookup_ge_None in E.
    rewrite (proj2 (lookup_ge_None R' i)); [done|]. lia.
Qed.

Lemma pass_fixed (t : nat → Row → Row) (R R' : list Row) :
  length R' = length R →
  (∀ i r, R !! i = Some r → R' !! i = Some (t i r)) →
  (∀ i r, R !! i = Some r → t i r = r) →
  R' = R.
Proof.
  intros Hlen Hl Ht. apply list_eq. intros i.
  destruct (R !! i) as [r|] eqn:E.
  - rewrite (Hl _ _ E). f_equal. by apply Ht.
  - apply lookup_ge_None in E. apply lookup_ge_None. lia.
Qed.

Lemma serialize_rows_length cols rows :
  length (serialize_rows cols rows) = length rows.
Proof.
  unfold serialize_rows, generate_view_type_attributes. cbn [data].
  rewrite (keyed_pass_length write_group write_group_length).
  destruct (init_column_data "View Type Attributes"
              (set_View_Type_Attributes EmptyString)
              (mkDataFrame cols rows)) as [-> | ->]; cbn [data]; [done|].
  apply length_fmap.
Qed.

Lemma panel_target_inputs R R' i r r' :
  erase_layout <$> R = erase_layout <$> R' →
  Module_ r = Module_ r' → Dashboard r = Dashboard r' →
  geometry (panel_target R i r) = geometry (panel_target R' i r').
Proof.
  intros HR Hm Hd. rewrite !panel_target_geometry, <-Hm, <-Hd.
  rewrite <-(dashboards_of_fmap erase_layout erase_layout_keys R).
  rewrite <-(dashboards_of_fmap erase_layout erase_layout_keys R').
  rewrite <-!(cursor_at_fmap erase_layout erase_layout_keys _ R).
  rewrite <-!(cursor_at_fmap erase_layout erase_layout_keys _ R').
  rewrite <-(panel_width_fmap erase_layout erase_layout_keys
               (Spec.panel_rows R _ _)).
  rewrite <-(panel_width_fmap erase_layout erase_layout_keys
               (Spec.panel_rows R' _ _)).
  rewrite <-(panel_height_fmap erase_layout erase_layout_keys _
               (Spec.panel_rows R _ _)).
  rewrite <-(panel_height_fmap erase_layout erase_layout_keys _
               (Spec.panel_rows R' _ _)).
  rewrite <-!(panel_rows_fmap erase_layout erase_layout_keys).
  by rewrite HR.
Qed.

Lemma field_target_inputs R R' d :
  erase_layout <$> R = erase_layout <$> R' →
  sorted_indices R d = sorted_indices R' d ∧
  length (dashboard_df R d) = length (dashboard_df R' d).
Proof.
  intros HR.
  rewrite <-(sorted_indices_fmap erase_layout erase_layout_field R).
  rewrite <-(sorted_indices_fmap erase_layout erase_layout_field R').
  rewrite <-(dashboard_df_fmap_length erase_layout erase_layout_field R).
  rewrite <-(dashboard_df_fmap_length erase_layout erase_layout_field R').
  by rewrite HR.
Qed.

Lemma view_target_inputs R R' k :
  erase_layout <$> R = erase_layout <$> R' →
  Spec.serialize clean_field (Spec.view_rows R k)
  = Spec.serialize clean_field (Spec.view_rows R' k).
Proof.
  intros HR.
  rewrite <-(serialize_fmap erase_layout erase_layout_group _
               (Spec.view_rows R _)).
  rewrite <-(serialize_fmap erase_layout erase_layout_group _
               (Spec.view_rows R' _)).
  rewrite <-!(view_rows_fmap erase_layout erase_layout_group).
  by rewrite HR.
Qed.

Lemma set_panel_geometry r :
  set_panel (PosX r) (PosY r) (Width r) (Height r) r = r.
Proof. by destruct r. Qed.

Lemma field_update_settled cc p s r :
  field_update cc p (set_View_Type_Attributes s (field_update cc p r))
  = set_View_Type_Attributes s (field_update cc p r).
Proof. unfold field_update. by destruct r as [? ? ? ? ? ? []]. Qed.

Lemma init_column_noop c fill df :
  PyStr.str_in c (columns df) = true → init_column c fill df = df.
Proof. intros H. unfold init_column. by rewrite H. Qed.

Lemma initialize_length df :
  length (data (initialize_dataframe_columns df)) = length (data df).
Proof.
  unfold initialize_dataframe_columns.
  repeat match goal with
  | |- context [data (init_column ?c ?f ?d)] =>
      destruct (init_column_data c f d) as [-> | ->]; rewrite ?length_fmap
  end; done.
Qed.

Lemma apply_smart_layout_length df :
  length (data (apply_smart_layout df)) = length (data df).
Proof.
  rewrite apply_smart_layout_data, serialize_rows_length,
    position_dashboard_fields_length, layoutPanels_length.
  apply initialize_length.
Qed.


Lemma apply_smart_layout_columns_have df c :
  c ∈ ["PosX"; "PosY"; "Width"; "Height"; "PosX.1"; "PosY.1"; "Width.1";
       "Height.1"; "View Type Attributes"] →
  PyStr.str_in c (columns (apply_smart_layout df)) = true.
Proof.
  intros Hc. unfold apply_smart_layout, generate_view_type_attributes.
  cbn [columns]. unfold initialize_dataframe_columns.
  rewrite !init_column_has. cbn [columns]. rewrite !init_column_has.
  rewrite !elem_of_cons in Hc.
  destruct Hc as [->|[->|[->|[->|[->|[->|[->|[->|[->|Hc]]]]]]]]];
    [..|by apply elem_of_nil in Hc];
    by destruct (PyStr.str_in _ (columns df)).
Qed.

Ltac settle_column c :=
  rewrite (init_column_noop c)
    by (apply apply_smart_layout_columns_have; rewrite !elem_of_cons; tauto).

Lemma initialize_settled df :
  initialize_dataframe_columns (apply_smart_layout df) = apply_smart_layout df.
Proof.
  unfold initialize_dataframe_columns.
  settle_column "PosX". settle_column "PosY". settle_column "Width".
  settle_column "Height". settle_column "PosX.1". settle_column "PosY.1".
  settle_column "Width.1". settle_column "Height.1". done.
Qed.

Lemma apply_smart_layout_unfold df :
  apply_smart_layout df
  = generate_view_type_attributes
      (mkDataFrame (columns (initialize_dataframe_columns df))
         (position_dashboard_fields
            (layoutPanels (data (initialize_dataframe_columns df))))).
Proof. done. Qed.

(** A frame [rows3] that holds, row by row, the targets of the three
    passes run on [rows0] is left as it is by each of the passes. *)
Section Settled.

Variables (rows0 rows3 : list Row).

Hypothesis Hlen : length rows3 = length rows0.

Hypothesis Hrows : ∀ i r0, rows0 !! i = Some r0 →
  rows3 !! i
  = Some (view_target (position_dashboard_fields (layoutPanels rows0)) i
            (field_target (layoutPanels rows0) i (panel_target rows0 i r0))).

Lemma settled_row i r3 :
  rows3 !! i = Some r3 →
  ∃ r0, rows0 !! i = Some r0 ∧
        r3 = view_target (position_dashboard_fields (layoutPanels rows0)) i
               (field_target (layoutPanels rows0) i
                  (panel_target rows0 i r0)).
Proof.
  intros Hi. destruct (rows0 !! i) as [r0|] eqn:E.
  - exists r0. split; [done|]. rewrite (Hrows _ _ E) in Hi. congruence.
  - apply lookup_ge_None in E. apply lookup_lt_Some in Hi. lia.
Qed.

Lemma settled_erased :
  erase_layout <$> layoutPanels rows0 = erase_layout <$> rows0 ∧
  erase_layout <$> position_dashboard_fields (layoutPanels rows0)
  = erase_layout <$> rows0 ∧
  erase_layout <$> rows3 = erase_layout <$> rows0.
Proof.
  assert (E1 : erase_layout <$> layoutPanels rows0 = erase_layout <$> rows0).
  { apply (pass_erased _ (panel_target rows0));
      [apply layoutPanels_length|apply layoutPanels_lookup|
       apply erase_layout_panel_target]. }
  assert (E2 : erase_layout <$> position_dashboard_fields (layoutPanels rows0)
               = erase_layout <$> layoutPanels rows0).
  { apply (pass_erased _ (field_target (layoutPanels rows0)));
      [apply position_dashboard_fields_length|
       apply position_dashboard_fields_lookup|
       apply erase_layout_field_target]. }
  split; [done|]. split; [by rewrite E2|].
  apply list_eq. intros i. rewrite !list_lookup_fmap.
  destruct (rows0 !! i) as [r0|] eqn:E.
  - rewrite (Hrows _ _ E). simpl. f_equal.
    by rewrite erase_layout_view_target, erase_layout_field_target,
      erase_layout_panel_target.
  - apply lookup_ge_None in E.
    rewrite (proj2 (lookup_ge_None rows3 i)); [done|]. lia.
Qed.

Lemma layoutPanels_settled : layoutPanels rows3 = rows3.
Proof.
  destruct settled_erased as (E1 & E2 & E3).
  apply (pass_fixed (panel_target rows3));
    [apply layoutPanels_length|apply layoutPanels_lookup|].
  intros i r3 Hi. destruct (settled_row _ _ Hi) as (r0 & Hr0 & Hr3).
  assert (layout_inputs r3 = layout_inputs r0) as Hin.
  { apply erase_layout_inputs. rewrite Hr3.
    by rewrite erase_layout_view_target, erase_layout_field_target,
      erase_layout_panel_target. }
  assert (Module_ r3 = Module_ r0) as Hm
    by exact (f_equal (λ t, t.1.1.1.1.1.1) Hin).
  assert (Dashboard r3 = Dashboard r0) as Hd
    by exact (f_equal (λ t, t.1.1.1.1.1.2) Hin).
  pose proof (panel_target_inputs rows3 rows0 i r3 r0 E3 Hm Hd) as Hg.
  assert (geometry r3 = geometry (panel_target rows0 i r0)) as Hg3.
  { rewrite Hr3. by rewrite view_target_geometry, field_target_geometry. }
  rewrite <-Hg3 in Hg. rewrite panel_target_geometry in Hg.
  unfold panel_target.
  pose proof (f_equal (λ g : Z * Z * Z * Z, g.1.1.1) Hg) as Hx.
  pose proof (f_equal (λ g : Z * Z * Z * Z, g.1.1.2) Hg) as Hy.
  pose proof (f_equal (λ g : Z * Z * Z * Z, g.1.2) Hg) as Hw.
  pose proof (f_equal (λ g : Z * Z * Z * Z, g.2) Hg) as Hh.
  cbn [fst snd geometry] in Hx, Hy, Hw, Hh.
  rewrite Hx, Hy, Hw, Hh. apply set_panel_geometry.
Qed.

Lemma position_dashboard_fields_settled :
  position_dashboard_fields rows3 = rows3.
Proof.
  destruct settled_erased as (E1 & E2 & E3).
  apply (pass_fixed (field_target rows3));
    [apply position_dashboard_fields_length|
     apply position_dashboard_fields_lookup|].
  intros i r3 Hi. destruct (settled_row _ _ Hi) as (r0 & Hr0 & Hr3).
  assert (Dashboard r3 = Dashboard (panel_target rows0 i r0)) as Hd.
  { rewrite Hr3. apply layout_targets_dashboard. }
  unfold field_target at 1. rewrite Hd.
  destruct (field_target_inputs rows3 (layoutPanels rows0)
              (Dashboard (panel_target rows0 i r0))) as [-> ->];
    [by rewrite E3, E1|].
  rewrite Hr3. unfold view_target, field_target.
  apply field_update_settled.
Qed.

Lemma serialize_rows_settled cols : serialize_rows cols rows3 = rows3.
Proof.
  destruct settled_erased as (E1 & E2 & E3).
  apply (pass_fixed (view_target rows3));
    [apply serialize_rows_length|apply serialize_rows_lookup|].
  intros i r3 Hi. destruct (settled_row _ _ Hi) as (r0 & Hr0 & Hr3).
  assert (group_key r3
          = group_key (field_target (layoutPanels rows0) i
                         (panel_target rows0 i r0))) as Hk.
  { rewrite Hr3.
    pose proof (erase_layout_view_target
                  (position_dashboard_fields (layoutPanels rows0)) i
                  (field_target (layoutPanels rows0) i
                     (panel_target rows0 i r0))) as H.
    destruct (erase_layout_group
                (view_target (position_dashboard_fields (layoutPanels rows0))
                   i (field_target (layoutPanels rows0) i
                        (panel_target rows0 i r0)))) as [<- _].
    rewrite H. apply erase_layout_group. }
  unfold view_target at 1.
  rewrite Hk, (view_target_inputs rows3
                 (position_dashboard_fields (layoutPanels rows0)))
    by (by rewrite E3, E2).
  rewrite Hr3. unfold view_target.
  by destruct (field_target _ _ _).
Qed.

End Settled.

Lemma generate_settled (df : DataFrame) :
  PyStr.str_in "View Type Attributes" (columns df) = true →
  serialize_rows (columns df) (data df) = data df →
  generate_view_type_attributes (mkDataFrame (columns df) (data df)) = df.
Proof.
  destruct df as [cols rows]. cbn [columns data]. intros Hc Hs.
  unfold serialize_rows, generate_view_type_attributes in *.
  rewrite init_column_noop in * by done.
  cbn [columns data] in *. by rewrite Hs.
Qed.

Lemma layout_fixed (df : DataFrame) :
  initialize_dataframe_columns df = df →
  layoutPanels (data df) = data df →
  position_dashboard_fields (data df) = data df →
  PyStr.str_in "View Type Attributes" (columns df) = true →
  serialize_rows (columns df) (data df) = data df →
  apply_smart_layout df = df.
Proof.
  intros H0 H1 H2 Hc H3. rewrite apply_smart_layout_unfold, H0, H1, H2.
  by apply generate_settled.
Qed.

(** X10: running [apply_smart_layout] on its own result changes nothing:
    the laid-out frame is a fixed point of the three passes. *)
Theorem apply_smart_layout_idempotent (df : DataFrame) :
  apply_smart_layout (apply_smart_layout df) = apply_smart_layout df.
Proof.
  pose proof (apply_smart_layout_length df) as Hlen.
  rewrite <-(initialize_length df) in Hlen.
  pose proof (apply_smart_layout_lookup df) as Hrows. cbv zeta in Hrows.
  apply layout_fixed.
  - apply initialize_settled.
  - exact (layoutPanels_settled _ _ Hlen Hrows).
  - exact (position_dashboard_fields_settled _ _ Hlen Hrows).
  - apply apply_smart_layout_columns_have. rewrite !elem_of_cons. tauto.
  - exact (serialize_rows_settled _ _ Hlen Hrows _).
Qed.

(** ** Facts about splitting *)

Lemma split_go_nonempty sep k s : split_go sep k s ≠ [].
Proof.
  revert k. induction s as [|a s IH]; intros k; simpl; [done|].
  destruct k; [|apply IH].
  destruct (PyStr.startswith sep (String a s)); [done|].
  unfold cons_head. by destruct (split_go sep 0 s).
Qed.

Lemma cons_head_length a l : l ≠ [] → length (cons_head a l) = length l.
Proof. by destruct l. Qed.

Lemma split_go_skip sep k t s :
  String.length t = k → split_go sep k (t +:+ s) = split_go sep 0 s.
Proof.
  revert k. induction t as [|a t IH]; intros k Hk; simpl in Hk; subst k.
  - done.
  - change (String a t +:+ s) with (String a (t +:+ s)). simpl. by apply IH.
Qed.

Lemma startswith_app sep s : PyStr.startswith sep (sep +:+ s) = true.
Proof.
  induction sep as [|a sep IH]; [done|].
  change (String a sep +:+ s) with (String a (sep +:+ s)). simpl.
  by rewrite Ascii.eqb_refl, IH.
Qed.

(** A piece that lacks the first character of the separator ends at the
    next separator. *)
Lemma split_go_piece c sep p rest :
  PyStr.has_char c p = false →
  split_go (String c sep) 0 (p +:+ String c sep +:+ rest)
  = p :: split_go (String c sep) 0 rest.
Proof.
  intros Hp. induction p as [|a p IH].
  - change (EmptyString +:+ ?x) with x.
    change (String c sep +:+ rest) with (String c (sep +:+ rest)).
    cbn [split_go].
    assert (PyStr.startswith (String c sep) (String c (sep +:+ rest)) = true)
      as -> by (simpl; by rewrite Ascii.eqb_refl, startswith_app).
    f_equal. simpl. rewrite Nat.sub_0_r. by apply split_go_skip.
  - simpl in Hp. apply orb_false_iff in Hp as [Hac Hp].
    change (String a p +:+ ?x) with (String a (p +:+ x)).
    cbn [split_go].
    assert (PyStr.startswith (String c sep)
              (String a (p +:+ String c sep +:+ rest)) = false) as ->.
    { simpl. rewrite Ascii.eqb_sym in Hac. by rewrite Hac. }
    by rewrite IH.
Qed.

Lemma split_go_whole c sep p :
  PyStr.has_char c p = false → split_go (String c sep) 0 p = [p].
Proof.
  intros Hp. induction p as [|a p IH]; [done|].
  simpl in Hp. apply orb_false_iff in Hp as [Hac Hp].
  cbn [split_go].
  assert (PyStr.startswith (String c sep) (String a p) = false) as ->.
  { simpl. rewrite Ascii.eqb_sym in Hac. by rewrite Hac. }
  by rewrite IH.
Qed.

(** The first piece of a text that begins with a stretch free of the
    first character of the separator begins with that stretch. *)
Lemma split_go_head c sep p rest :
  PyStr.has_char c p = false →
  ∃ h ps, split_go (String c sep) 0 rest = h :: ps ∧
          split_go (String c sep) 0 (p +:+ rest) = (p +:+ h) :: ps.
Proof.
  intros Hp. induction p as [|a p IH].
  - destruct (split_go (String c sep) 0 rest) as [|h ps] eqn:E.
    + by apply split_go_nonempty in E.
    + exists h, ps. done.
  - simpl in Hp. apply orb_false_iff in Hp as [Hac Hp].
    destruct (IH Hp) as (h & ps & Hrest & Hsplit).
    exists h, ps. split; [done|].
    change (String a p +:+ rest) with (String a (p +:+ rest)).
    cbn [split_go].
    assert (PyStr.startswith (String c sep) (String a (p +:+ rest)) = false)
      as ->.
    { simpl. rewrite Ascii.eqb_sym in Hac. by rewrite Hac. }
    by rewrite Hsplit.
Qed.

(** A text that holds the separator splits into at least two pieces. *)
Lemma split_contains c sep s :
  PyStr.contains (String c sep) s = true →
  (2 ≤ length (split (String c sep) s))%nat.
Proof.
  unfold split. induction s as [|a s IH]; [done|].
  cbn [PyStr.contains split_go].
  destruct (PyStr.startswith (String c sep) (String a s)) eqn:E.
  - intros _. rewrite length_cons.
    match goal with
    | |- (2 ≤ S (length ?l))%nat =>
        assert (l ≠ []) as Hne by apply split_go_nonempty;
        destruct l; [done|simpl; lia]
    end.
  - simpl. intros H. rewrite cons_head_length by apply split_go_nonempty.
    by apply IH.
Qed.

Lemma split_not_contains c sep s :
  PyStr.contains (String c sep) s = false → split (String c sep) s = [s].
Proof.
  unfold split. induction s as [|a s IH]; [done|].
  cbn [PyStr.contains split_go].
  intros [-> H]%orb_false_iff. by rewrite IH.
Qed.

Lemma string_app_nil_r (s : string) : s +:+ EmptyString = s.
Proof.
  induction s as [|a s IH]; [done|].
  change (String a s +:+ EmptyString) with (String a (s +:+ EmptyString)).
  by rewrite IH.
Qed.

Lemma contains_app sep p s : PyStr.contains sep (p +:+ sep +:+ s) = true.
Proof.
  induction p as [|a p IH].
  - change (EmptyString +:+ ?x) with x.
    destruct (sep +:+ s) eqn:E; simpl; rewrite <-E, startswith_app; done.
  - change (String a p +:+ ?x) with (String a (p +:+ x)).
    cbn [PyStr.contains]. rewrite IH. apply orb_true_r.
Qed.

(** What follows a closing fence, up to the next opening fence, begins
    with the closing fence unless the opening fence sits right there. *)
Lemma split_after_ticks post :
  PyStr.startswith "`" post = false →
  ∃ h ps, split_go "```json" 0 ("```" +:+ post) = h :: ps ∧
          (h = EmptyString ∨ ∃ h', h = "```" +:+ h').
Proof.
  intros Hpost.
  destruct (PyStr.startswith "```json" ("```" +:+ post)) eqn:E.
  - exists EmptyString. eexists. split; [|by left].
    change ("```" +:+ post)
      with (String "`" (String "`" (String "`" post))) in *.
    cbn [split_go]. by rewrite E.
  - destruct (split_go "```json" 0 post) as [|h3 ps3] eqn:E3;
      [by apply split_go_nonempty in E3|].
    exists ("```" +:+ h3), ps3. split; [|by right; exists h3].
    change ("```" +:+ post)
      with (String "`" (String "`" (String "`" post))) in *.
    cbn [split_go]. rewrite E.
    assert (PyStr.startswith "```json" (String "`" (String "`" post)) = false)
      as ->.
    { destruct post as [|b post]; [done|]. simpl in *.
      rewrite andb_true_r in Hpost. by rewrite Hpost. }
    assert (PyStr.startswith "```json" (String "`" post) = false) as ->.
    { destruct post as [|b post]; [done|]. simpl in *.
      rewrite andb_true_r in Hpost. by rewrite Hpost. }
    by rewrite E3.
Qed.

(** X11: the fence handling of the response parsers cannot fail on an
    index: a response with the opening fence always has a piece after it;
    a response without the fence is passed on unchanged. *)
Theorem fenced_payload_total :
  (∀ r, is_Some (fenced_payload r)) ∧
  (∀ r, PyStr.contains "```json" r = false → fenced_payload r = Some r).
Proof.
  split.
  - intros r. unfold fenced_payload.
    destruct (PyStr.contains "```json" r) eqn:E; [|done].
    apply split_contains in E.
    destruct (lookup_lt_is_Some_2 (split "```json" r) 1%nat ltac:(lia))
      as [piece ->]. cbn.
    pose proof (split_go_nonempty "```" 0 piece) as Hne. unfold split.
    destruct (split_go "```" 0 piece); [done|]. by cbn.
  - intros r Hr. unfold fenced_payload. by rewrite Hr.
Qed.

(** X12: when the text before the opening fence and the payload hold no
    backtick and the text after the closing fence does not begin with
    one, the result is the payload between the two fences with the white
    space around it removed, whatever follows. *)
Theorem fenced_payload_body (pre body post : string) :
  PyStr.has_char "`" pre = false →
  PyStr.has_char "`" body = false →
  PyStr.startswith "`" post = false →
  fenced_payload (pre +:+ "```json" +:+ body +:+ "```" +:+ post)
  = Some (PyStr.strip body).
Proof.
  intros Hpre Hbody Hpost. unfold fenced_payload.
  rewrite contains_app. unfold split.
  rewrite (split_go_piece "`" "``json" pre _ Hpre).
  cbn [lookup list_lookup].
  destruct (split_after_ticks post Hpost) as (h & ps & Hsplit & Hh).
  destruct (split_go_head "`" "``json" body ("```" +:+ post) Hbody)
    as (h0 & ps0 & Hrest & ->).
  rewrite Hsplit in Hrest. injection Hrest as <- <-.
  cbn [mbind option_bind lookup list_lookup].
  destruct Hh as [->|[h' ->]].
  - rewrite string_app_nil_r, (split_go_whole "`" "``" body Hbody). done.
  - rewrite (split_go_piece "`" "``" body h' Hbody). done.
Qed.

Lemma fenced_payload_body_witness :
  PyStr.has_char "`" "Here you go: " = false ∧
  fenced_payload ("Here you go: " +:+ "```json" +:+ " [1, 2] " +:+ "```"
                  +:+ " and ```json [3] ```")
  = Some (PyStr.strip " [1, 2] ").
Proof.
  split; [reflexivity|].
  apply (fenced_payload_body "Here you go: " " [1, 2] "
           " and ```json [3] ```"); reflexivity.
Defined.

(** ** Facts about stripping *)

Lemma lstrip_length s : (String.length (PyStr.lstrip s) ≤ String.length s)%nat.
Proof.
  induction s as [|a s IH]; simpl; [done|].
  destruct (PyStr.is_space a); simpl; lia.
Qed.

Lemma lstrip_head a s :
  PyStr.lstrip (String a s) = String a s → PyStr.is_space a = false.
Proof.
  simpl. destruct (PyStr.is_space a); [|done].
  intros H. pose proof (lstrip_length s) as Hl. rewrite H in Hl. simpl in Hl.
  lia.
Qed.

Lemma lstrip_lstrip s : PyStr.lstrip (PyStr.lstrip s) = PyStr.lstrip s.
Proof.
  induction s as [|a s IH]; simpl; [done|].
  destruct (PyStr.is_space a) eqn:E; [done|]. simpl. by rewrite E.
Qed.

Lemma rstrip_cons a s :
  PyStr.rstrip (String a s)
  = match PyStr.rstrip s with
    | EmptyString =>
        if PyStr.is_space a then EmptyString else String a EmptyString
    | r => String a r
    end.
Proof. done. Qed.

Lemma rstrip_rstrip s : PyStr.rstrip (PyStr.rstrip s) = PyStr.rstrip s.
Proof.
  induction s as [|a s IH]; [done|]. rewrite rstrip_cons.
  destruct (PyStr.rstrip s) as [|b r] eqn:E.
  - destruct (PyStr.is_space a) eqn:Ea; [done|]. simpl. by rewrite Ea.
  - by rewrite rstrip_cons, IH.
Qed.

Lemma lstrip_rstrip s :
  PyStr.lstrip s = s → PyStr.lstrip (PyStr.rstrip s) = PyStr.rstrip s.
Proof.
  destruct s as [|a s]; [done|]. intros Ha%lstrip_head.
  rewrite rstrip_cons.
  destruct (PyStr.rstrip s); rewrite ?Ha; cbn [PyStr.lstrip]; by rewrite Ha.
Qed.

Lemma strip_trimmed s : trimmed (PyStr.strip s).
Proof.
  unfold trimmed, PyStr.strip. split.
  - apply lstrip_rstrip, lstrip_lstrip.
  - apply rstrip_rstrip.
Qed.

Lemma trimmed_strip s : trimmed s → PyStr.strip s = s.
Proof. intros [Hl Hr]. unfold PyStr.strip. by rewrite Hl. Qed.

Lemma has_char_lstrip c s :
  PyStr.has_char c (PyStr.lstrip s) = true → PyStr.has_char c s = true.
Proof.
  induction s as [|a s IH]; simpl; [done|].
  destruct (PyStr.is_space a); [|done].
  intros H. rewrite (IH H). apply orb_true_r.
Qed.

Lemma has_char_rstrip c s :
  PyStr.has_char c (PyStr.rstrip s) = true → PyStr.has_char c s = true.
Proof.
  induction s as [|a s IH]; [done|]. rewrite rstrip_cons.
  destruct (PyStr.rstrip s) as [|b r] eqn:E.
  - destruct (PyStr.is_space a); simpl; [done|].
    rewrite orb_false_r. intros ->. done.
  - change (PyStr.has_char c (String a (String b r)))
      with (Ascii.eqb a c || PyStr.has_char c (String b r)).
    change (PyStr.has_char c (String a s))
      with (Ascii.eqb a c || PyStr.has_char c s).
    intros [->|H]%orb_true_iff; [done|]. rewrite (IH H). apply orb_true_r.
Qed.

Lemma has_char_strip c s :
  PyStr.has_char c (PyStr.strip s) = true → PyStr.has_char c s = true.
Proof. intros H. by apply has_char_lstrip, has_char_rstrip. Qed.

Lemma sanitize_strip_sanitize s :
  sanitize_field (PyStr.strip (sanitize_field s))
  = PyStr.strip (sanitize_field s).
Proof.
  apply sanitize_fixed. intros c Hc.
  destruct (PyStr.has_char c (PyStr.strip (sanitize_field s))) eqn:E; [|done].
  apply has_char_strip in E. by rewrite sanitize_clean in E.
Qed.

Lemma remove_spaces_cons a s :
  Spec.remove_spaces (String a s)
  = if Ascii.eqb a " " then Spec.remove_spaces s
    else String a (Spec.remove_spaces s).
Proof. unfold Spec.remove_spaces. simpl. by destruct (Ascii.eqb a " "). Qed.

Lemma is_space_not_blank a : PyStr.is_space a = false → Ascii.eqb a " " = false.
Proof.
  intros H. destruct (Ascii.eqb_spec a " ") as [->|]; [|done]. done.
Qed.

Lemma remove_spaces_lstrip s :
  PyStr.lstrip s = s →
  PyStr.lstrip (Spec.remove_spaces s) = Spec.remove_spaces s.
Proof.
  destruct s as [|a s]; [done|]. intros Ha%lstrip_head.
  rewrite remove_spaces_cons, (is_space_not_blank _ Ha). simpl. by rewrite Ha.
Qed.

Lemma remove_spaces_rstrip s :
  PyStr.rstrip s = s →
  PyStr.rstrip (Spec.remove_spaces s) = Spec.remove_spaces s ∧
  (s ≠ EmptyString → Spec.remove_spaces s ≠ EmptyString).
Proof.
  induction s as [|a s IH]; [done|]. rewrite rstrip_cons.
  destruct (PyStr.rstrip s) as [|b r] eqn:E.
  - destruct (PyStr.is_space a) eqn:Ea; [done|].
    intros [= <-]. rewrite remove_spaces_cons, (is_space_not_blank _ Ea).
    simpl. by rewrite Ea.
  - intros [= Hs]. destruct (IH Hs) as [IH1 IH2].
    assert (Spec.remove_spaces s ≠ EmptyString) as Hne
      by (apply IH2; by rewrite <-Hs).
    rewrite remove_spaces_cons. destruct (Ascii.eqb a " "); [done|].
    split; [|done]. rewrite rstrip_cons, IH1.
    by destruct (Spec.remove_spaces s).
Qed.

(** On a name without white space at its ends the cleaning of the
    serializer is the removal of the spaces. *)
Lemma clean_field_trimmed s : trimmed s → clean_field s = Spec.remove_spaces s.
Proof.
  intros [Hl Hr]. unfold clean_field, PyStr.strip.
  fold (Spec.remove_spaces s).
  rewrite (remove_spaces_lstrip _ Hl).
  by apply remove_spaces_rstrip.
Qed.
(** ** The cleaning of the generated frame *)

Lemma set_View_Type_Attributes_same r :
  set_View_Type_Attributes (View_Type_Attributes r) r = r.
Proof. by destruct r. Qed.

Lemma clean_dashboard_fields_rows null_text df df' :
  clean_dashboard_fields null_text df = Some df' →
  columns df' = columns df ∧
  Forall2 (λ r r', ∃ attrs,
             r' = set_View_Type_Attributes attrs (clean_row null_text r))
          (data df) (data df').
Proof.
  unfold clean_dashboard_fields.
  destruct (PyStr.str_in "View Type Attributes" (columns df)).
  - destruct (mapM _ _) as [rows|] eqn:E; [|done]. intros [= <-].
    split; [done|]. cbn [data]. apply mapM_Some in E.
    apply Forall2_fmap_l in E. eapply Forall2_impl; [exact E|].
    intros r r' Hr. simpl in Hr.
    destruct (clean_attributes _) as [attrs|]; [|done].
    injection Hr as <-. by exists attrs.
  - intros [= <-]. split; [done|]. cbn [data]. apply Forall2_fmap_r.
    apply Forall_Forall2_diag, Forall_forall. intros r _.
    exists (View_Type_Attributes r).
    change (View_Type_Attributes r)
      with (View_Type_Attributes (clean_row null_text r)).
    by rewrite set_View_Type_Attributes_same.
Qed.

Lemma clean_row_field null_text r attrs :
  ∃ s, Field (set_View_Type_Attributes attrs (clean_row null_text r)) = CStr s ∧
       s = PyStr.strip (sanitize_field (cell_text null_text (Field r))) ∧
       sanitize_field s = s ∧ trimmed s.
Proof.
  eexists. split; [reflexivity|]. split; [done|].
  split; [apply sanitize_strip_sanitize|apply strip_trimmed].
Qed.

(** X13: when [clean_dashboard_fields] returns, the frame has the same
    columns and as many rows; in every row the field is a string, the
    stripped sanitized text of the field it was given, which the
    sanitizer and [strip] leave as it is; module, dashboard and object
    name carry no white space at their ends; element id, object type,
    view type and all geometry are untouched. *)
Theorem clean_dashboard_fields_clean (null_text : string) (df df' : DataFrame) :
  clean_dashboard_fields null_text df = Some df' →
  columns df' = columns df ∧
  length (data df') = length (data df) ∧
  ∀ i r', data df' !! i = Some r' →
    ∃ r s, data df !! i = Some r ∧
      Field r' = CStr s ∧
      s = PyStr.strip (sanitize_field (cell_text null_text (Field r))) ∧
      sanitize_field s = s ∧ PyStr.strip s = s ∧
      trimmed (Module_ r') ∧ trimmed (Dashboard r') ∧
      trimmed (Object_Name r') ∧
      (Element_Id r', Object_Type r', View_Type r')
      = (Element_Id r, Object_Type r, View_Type r) ∧
      geometry r' = geometry r.
Proof.
  intros H. destruct (clean_dashboard_fields_rows _ _ _ H) as [Hc HF].
  split; [done|]. split; [symmetry; by eapply Forall2_length|].
  intros i r' Hi.
  destruct (Forall2_lookup_r _ _ _ _ _ HF Hi) as (r & Hr & attrs & ->).
  destruct (clean_row_field null_text r attrs) as (s & Hs & Hs' & Hfix & Htr).
  exists r, s. split; [done|]. split; [done|]. split; [done|].
  split; [done|]. split; [by apply trimmed_strip|].
  repeat split; try apply strip_trimmed.
Qed.

Lemma clean_dashboard_fields_clean_witness :
  clean_dashboard_fields "None" generated_frame
  = Some (mkDataFrame (columns generated_frame)
                      (clean_row "None" <$> data generated_frame)) ∧
  length (clean_row "None" <$> data generated_frame)
  = length (data generated_frame).
Proof.
  split; [reflexivity|].
  exact (proj1 (proj2 (clean_dashboard_fields_clean
                         "None" generated_frame _ eq_refl))).
Defined.

(** ** The cleaning followed by the layout *)

Lemma erase_layout_of_inputs r r' :
  layout_inputs r = layout_inputs r' → erase_layout r = erase_layout r'.
Proof.
  destruct r, r'. unfold erase_layout, layout_inputs. simpl.
  intros H. injection H. intros. by subst.
Qed.

Lemma fmap_eq_lookup {A B} (g : A → B) (R R' : list A) i r :
  g <$> R = g <$> R' → R !! i = Some r →
  ∃ r', R' !! i = Some r' ∧ g r' = g r.
Proof.
  intros HR Hi.
  assert ((g <$> R') !! i = Some (g r)) as H
    by (by rewrite <-HR, list_lookup_fmap, Hi).
  rewrite list_lookup_fmap in H.
  destruct (R' !! i) as [r'|]; [|done]. exists r'. split; [done|].
  by injection H.
Qed.

Lemma initialize_erased df :
  erase_layout <$> data (initialize_dataframe_columns df)
  = erase_layout <$> data df.
Proof.
  apply list_eq. intros i. rewrite !list_lookup_fmap.
  destruct (data df !! i) as [r|] eqn:E.
  - destruct (initialize_lookup df i r E) as (r0 & -> & Hin & _). simpl.
    f_equal. by apply erase_layout_of_inputs.
  - apply lookup_ge_None in E.
    rewrite (proj2 (lookup_ge_None _ i)); [done|].
    rewrite initialize_length. lia.
Qed.

Lemma layout_erased df :
  let rows2 :=
    position_dashboard_fields
      (layoutPanels (data (initialize_dataframe_columns df))) in
  erase_layout <$> rows2 = erase_layout <$> data df ∧
  erase_layout <$> data (apply_smart_layout df) = erase_layout <$> data df.
Proof.
  set (rows0 := data (initialize_dataframe_columns df)).
  set (rows1 := layoutPanels rows0). intros rows2.
  assert (E1 : erase_layout <$> rows1 = erase_layout <$> rows0).
  { apply (pass_erased _ (panel_target rows0));
      [apply layoutPanels_length|apply layoutPanels_lookup|
       apply erase_layout_panel_target]. }
  assert (E2 : erase_layout <$> rows2 = erase_layout <$> rows1).
  { apply (pass_erased _ (field_target rows1));
      [apply position_dashboard_fields_length|
       apply position_dashboard_fields_lookup|
       apply erase_layout_field_target]. }
  assert (E3 : erase_layout <$> data (apply_smart_layout df)
               = erase_layout <$> rows2).
  { rewrite apply_smart_layout_data.
    apply (pass_erased _ (view_target rows2));
      [apply serialize_rows_length|apply serialize_rows_lookup|
       apply erase_layout_view_target]. }
  rewrite E3, E2, E1. split; apply initialize_erased.
Qed.

Lemma serialize_ext (clean clean' : string → string) (g : list Row) :
  (∀ r s, r ∈ g → cell_str (Field r) = Some s → clean s = clean' s) →
  Spec.serialize clean g = Spec.serialize clean' g.
Proof.
  intros H. unfold Spec.serialize. f_equal.
  apply Forall_fmap_ext_1, Forall_forall. intros s Hs.
  apply list_elem_of_filter in Hs as [_ Hs].
  apply elem_of_unique, list_elem_of_omap in Hs as (r & Hr & Hs).
  by rewrite (H r s Hr Hs).
Qed.

Lemma view_target_attributes R i r :
  View_Type_Attributes (view_target R i r)
  = Spec.serialize clean_field (Spec.view_rows R (group_key r)) ∧
  group_key (view_target R i r) = group_key r.
Proof. by destruct r. Qed.

(** X14: in the frame that [main_pipeline] lays out, every row's
    attribute string is the serialization of the fields of its group
    with nothing but the spaces removed from each name: the cleaning
    has already trimmed and sanitized the fields, so the [strip] of the
    serializer finds nothing to remove. *)
Theorem main_pipeline_attributes (null_text : string) (df out : DataFrame) :
  main_pipeline null_text df = Some out →
  length (data out) = length (data df) ∧
  ∀ i r, data out !! i = Some r →
    (∃ s, Field r = CStr s ∧ sanitize_field s = s ∧ trimmed s) ∧
    View_Type_Attributes r
    = Spec.serialize Spec.remove_spaces
        (Spec.view_rows (data out) (group_key r)).
Proof.
  unfold main_pipeline.
  destruct (clean_dashboard_fields null_text df) as [cleaned|] eqn:E;
    [|done].
  intros [= <-].
  destruct (clean_dashboard_fields_rows _ _ _ E) as [_ HF].
  destruct (layout_erased cleaned) as [E2 E3]. cbv zeta in E2.
  assert (Hfield : ∀ i r, data (apply_smart_layout cleaned) !! i = Some r →
            ∃ s, Field r = CStr s ∧ sanitize_field s = s ∧ trimmed s).
  { intros i r Hi.
    destruct (fmap_eq_lookup _ _ _ _ _ E3 Hi) as (rc & Hrc & Her).
    assert (Field r = Field rc) as ->.
    { destruct (erase_layout_field r) as [_ <-].
      destruct (erase_layout_field rc) as [_ <-]. by rewrite Her. }
    destruct (Forall2_lookup_r _ _ _ _ _ HF Hrc) as (r0 & _ & attrs & ->).
    destruct (clean_row_field null_text r0 attrs) as (s & Hs & _ & Hfix & Htr).
    by exists s. }
  split.
  { rewrite apply_smart_layout_length. symmetry. by eapply Forall2_length. }
  intros i r Hi. split; [by eapply Hfield|].
  assert (∃ r0, data (initialize_dataframe_columns cleaned) !! i = Some r0)
    as [r0 Hr0].
  { apply lookup_lt_is_Some. rewrite initialize_length.
    apply lookup_lt_Some in Hi. by rewrite apply_smart_layout_length in Hi. }
  pose proof (apply_smart_layout_lookup cleaned i r0 Hr0) as Hl.
  cbv zeta in Hl. rewrite Hi in Hl. apply (inj Some) in Hl. subst r.
  destruct (view_target_attributes
    (position_dashboard_fields
       (layoutPanels (data (initialize_dataframe_columns cleaned)))) i
    (field_target
       (layoutPanels (data (initialize_dataframe_columns cleaned))) i
       (panel_target (data (initialize_dataframe_columns cleaned)) i r0)))
    as [-> ->].
  rewrite (view_target_inputs _ (data (apply_smart_layout cleaned)))
    by (by rewrite E2, E3).
  apply serialize_ext. intros r s Hr Hs.
  apply list_elem_of_filter in Hr as [_ Hr].
  apply list_elem_of_lookup in Hr as [j Hj].
  destruct (Hfield j r Hj) as (s' & Hs' & _ & Htr).
  rewrite Hs' in Hs. injection Hs as <-. by apply clean_field_trimmed.
Qed.

Lemma main_pipeline_attributes_witness :
  main_pipeline "None" generated_frame
  = Some (apply_smart_layout
            (mkDataFrame (columns generated_frame)
                         (clean_row "None" <$> data generated_frame))) ∧
  length (data (apply_smart_layout
                  (mkDataFrame (columns generated_frame)
                     (clean_row "None" <$> data generated_frame))))
  = length (data generated_frame).
Proof.
  split; [reflexivity|].
  exact (proj1 (main_pipeline_attributes "None" generated_frame _ eq_refl)).
Defined.

(** ** The re-sanitizing of attribute strings *)

Lemma join_cons sep x y l :
  PyStr.join sep (x :: y :: l) = x +:+ sep +:+ PyStr.join sep (y :: l).
Proof. done. Qed.

Lemma split_join c xs :
  xs ≠ [] → Forall (λ x, PyStr.has_char c x = false) xs →
  split (String c EmptyString) (PyStr.join (String c EmptyString) xs) = xs.
Proof.
  intros Hne HF. unfold split. induction HF as [|x xs Hx HF IH]; [done|].
  destruct xs as [|y xs].
  - by apply split_go_whole.
  - rewrite join_cons, (split_go_piece _ _ _ _ Hx). f_equal. by apply IH.
Qed.

Lemma split_segment q :
  plain_parts q →
  split "::" (attribute_segment q) = [q.1.1.1; q.1.1.2; q.1.2; q.2].
Proof.
  destruct q as [[[n p1] p2] p3]. intros ([_ Hn] & [_ H1] & [_ H2] & [_ H3]).
  cbn [fst snd] in *. unfold split, attribute_segment. cbn [fst snd].
  rewrite (split_go_piece _ _ _ _ Hn), (split_go_piece _ _ _ _ H1),
    (split_go_piece _ _ _ _ H2).
  by rewrite (split_go_whole _ _ _ H3).
Qed.

Lemma clean_attr_segment q :
  plain_parts q →
  clean_attr (attribute_segment q) = Some (attribute_segment (sanitize_name q)).
Proof.
  intros Hq. unfold clean_attr. by rewrite (split_segment _ Hq).
Qed.

Lemma segment_bar_free q :
  plain_parts q → PyStr.has_char "|" (attribute_segment q) = false.
Proof.
  destruct q as [[[n p1] p2] p3]. intros ([Hn _] & [H1 _] & [H2 _] & [H3 _]).
  cbn [fst snd] in *. unfold attribute_segment. cbn [fst snd].
  rewrite !has_char_app, Hn, H1, H2, H3. done.
Qed.

Lemma segment_cons q : ∃ a s, attribute_segment q = String a s.
Proof.
  destruct q as [[[n p1] p2] p3]. unfold attribute_segment. cbn [fst snd].
  destruct n as [|a n]; eauto.
Qed.

Lemma join_head_cons sep a s l : ∃ t, PyStr.join sep (String a s :: l) = String a t.
Proof. destruct l; [by eexists|]. rewrite join_cons. by eexists. Qed.

(** X15: on an attribute string whose segments have four parts free of
    the separator characters, the re-sanitizing loop of
    [clean_dashboard_fields] does not fail, sanitizes the name of every
    segment and keeps the three other parts and the order; on the strings
    the serializer writes for sanitized names it changes nothing. *)
Theorem clean_attributes_segments
    (qs : list (string * string * string * string)) :
  Forall plain_parts qs →
  clean_attributes (PyStr.join "|" (attribute_segment <$> qs))
  = Some (PyStr.join "|" (attribute_segment <$> (sanitize_name <$> qs))) ∧
  ∀ names,
    qs = (λ n, (n, "False", "0", "0")) <$> names →
    Forall (λ n, sanitize_field n = n) names →
    clean_attributes (attributes_of names) = Some (attributes_of names).
Proof.
  intros HF.
  assert (clean_attributes (PyStr.join "|" (attribute_segment <$> qs))
          = Some (PyStr.join "|"
                    (attribute_segment <$> (sanitize_name <$> qs)))) as Hmain.
  { destruct qs as [|q qs]; [done|].
    destruct (segment_cons q) as (a & s & Hq).
    destruct (join_head_cons "|" a s (attribute_segment <$> qs)) as [t Ht].
    rewrite fmap_cons, Hq, Ht. unfold clean_attributes.
    rewrite <-Ht, <-Hq, <-fmap_cons.
    rewrite split_join; [|done|].
    - assert (mapM clean_attr (attribute_segment <$> q :: qs)
              = Some (attribute_segment <$> (sanitize_name <$> q :: qs)))
        as ->; [|done].
      apply mapM_Some, Forall2_fmap_l, Forall2_fmap_r, Forall2_fmap_r.
      apply Forall_Forall2_diag. eapply Forall_impl; [exact HF|].
      intros q' Hq'. by apply clean_attr_segment.
    - apply Forall_fmap. eapply Forall_impl; [exact HF|].
      intros q' Hq'. by apply segment_bar_free. }
  split; [done|].
  intros names -> Hnames. unfold attributes_of.
  rewrite <-!list_fmap_compose in Hmain.
  etrans; [exact Hmain|]. do 2 f_equal.
  apply Forall_fmap_ext_1. eapply Forall_impl; [exact Hnames|].
  intros n Hn. unfold sanitize_name, attribute_segment, compose.
  cbn [fst snd]. by rewrite Hn.
Qed.

Lemma clean_attributes_segments_witness :
  clean_attributes "Order_ID::True::1::2|Ship.Date::False::0::0"
  = Some "OrderID::True::1::2|ShipDate::False::0::0".
Proof.
  refine (proj1 (clean_attributes_segments
            [("Order_ID", "True", "1", "2"); ("Ship.Date", "False", "0", "0")]
            _)).
  repeat constructor.
Defined.

Lemma cons_head_app a l k : l ≠ [] → cons_head a (l ++ k) = cons_head a l ++ k.
Proof. by destruct l. Qed.

Lemma cons_head_nonempty a l : cons_head a l ≠ [].
Proof. by destruct l. Qed.

Lemma split_trailing c s :
  ∃ l, l ≠ [] ∧
       split (String c EmptyString) (s +:+ String c EmptyString)
       = l ++ [EmptyString].
Proof.
  unfold split. induction s as [|a s (l & Hl & IH)].
  - exists [EmptyString]. split; [done|].
    change (EmptyString +:+ ?x) with x. cbn [split_go PyStr.startswith].
    by rewrite Ascii.eqb_refl.
  - change (String a s +:+ ?x) with (String a (s +:+ x)).
    cbn [split_go].
    destruct (PyStr.startswith _ _).
    + exists (EmptyString :: l). split; [done|]. cbn [String.length Nat.sub].
      by rewrite IH.
    + exists (cons_head a l). split; [apply cons_head_nonempty|].
      by rewrite IH, cons_head_app.
Qed.

Lemma clean_attr_None seg :
  clean_attr seg = None ↔ (length (split "::" seg) < 4)%nat.
Proof.
  unfold clean_attr.
  destruct (split "::" seg) as [|p0 [|p1 [|p2 [|p3 l]]]]; simpl;
    split; intros; (done || lia).
Qed.

#[local] Instance clean_attr_is_Some_dec seg : Decision (is_Some (clean_attr seg)).
Proof. apply _. Defined.

(** X16: the re-sanitizing loop fails (the code indexes past the end of
    the parts) exactly on a non-empty attribute string with a segment of
    fewer than four parts; an attribute string that ends in the segment
    separator is such a string, and one failing row makes
    [clean_dashboard_fields] fail on a frame that has the column. *)
Theorem clean_attributes_raises :
  (∀ attrs,
     clean_attributes attrs = None ↔
     attrs ≠ EmptyString ∧
     ∃ seg, seg ∈ split "|" attrs ∧ (length (split "::" seg) < 4)%nat) ∧
  (∀ attrs, clean_attributes (attrs +:+ "|") = None) ∧
  (∀ null_text df r,
     PyStr.str_in "View Type Attributes" (columns df) = true →
     r ∈ data df → clean_attributes (View_Type_Attributes r) = None →
     clean_dashboard_fields null_text df = None).
Proof.
  assert (Hiff : ∀ attrs,
     clean_attributes attrs = None ↔
     attrs ≠ EmptyString ∧
     ∃ seg, seg ∈ split "|" attrs ∧ (length (split "::" seg) < 4)%nat).
  { intros attrs. destruct attrs as [|a s].
    { split; [done|]. by intros [? _]. }
    unfold clean_attributes.
    set (segs := split "|" (String a s)).
    destruct (mapM clean_attr segs) as [k|] eqn:E; simpl.
    - split; [done|]. intros [_ (seg & Hseg & Hlen)].
      apply mapM_Some in E.
      apply list_elem_of_lookup in Hseg as [i Hi].
      destruct (Forall2_lookup_l _ _ _ _ _ E Hi) as (y & _ & Hy).
      apply clean_attr_None in Hlen. congruence.
    - split; [|done]. intros _. split; [done|].
      assert (¬ Forall (is_Some ∘ clean_attr) segs) as Hn.
      { intros HF. apply mapM_is_Some in HF. rewrite E in HF.
        by destruct HF. }
      apply not_Forall_Exists in Hn; [|intros x; apply _].
      apply Exists_exists in Hn as (seg & Hseg & Hno).
      exists seg. split; [done|]. apply clean_attr_None.
      simpl in Hno. destruct (clean_attr seg); [|done].
      by destruct Hno. }
  split; [exact Hiff|]. split.
  - intros attrs. apply Hiff. split.
    + destruct attrs; done.
    + destruct (split_trailing "|" attrs) as (l & _ & Hl).
      exists EmptyString. split; [|simpl; lia].
      change (String "|" EmptyString) with "|" in Hl. rewrite Hl.
      apply elem_of_app. right. by apply list_elem_of_singleton.
  - intros null_text df r Hc Hr Hnone. unfold clean_dashboard_fields.
    rewrite Hc.
    destruct (mapM _ _) as [rows|] eqn:E; [|done].
    apply mapM_Some in E. apply Forall2_fmap_l in E.
    apply list_elem_of_lookup in Hr as [i Hi].
    destruct (Forall2_lookup_l _ _ _ _ _ E Hi) as (y & _ & Hy).
    simpl in Hy.
    change (View_Type_Attributes (clean_row null_text r))
      with (View_Type_Attributes r) in Hy.
    by rewrite Hnone in Hy.
Qed.

(** ** Element ids, panels and the cleaning *)

Lemma bar_split c m m' d d' :
  PyStr.has_char c m = false → PyStr.has_char c m' = false →
  m +:+ String c d = m' +:+ String c d' → m = m' ∧ d = d'.
Proof.
  revert m'. induction m as [|a m IH]; intros [|a' m'] Hm Hm'.
  - change (EmptyString +:+ ?x) with x. by intros [= ->].
  - change (EmptyString +:+ ?x) with x.
    change (String a' m' +:+ ?x) with (String a' (m' +:+ x)).
    intros [= <- _]. simpl in Hm'. by rewrite Ascii.eqb_refl in Hm'.
  - change (EmptyString +:+ ?x) with x.
    change (String a m +:+ ?x) with (String a (m +:+ x)).
    intros [= -> _]. simpl in Hm. by rewrite Ascii.eqb_refl in Hm.
  - change (String a m +:+ ?x) with (String a (m +:+ x)).
    change (String a' m' +:+ ?x) with (String a' (m' +:+ x)).
    intros [= -> Heq]. simpl in Hm, Hm'.
    apply orb_false_iff in Hm as [_ Hm]. apply orb_false_iff in Hm' as [_ Hm'].
    destruct (IH _ Hm Hm' Heq) as [-> ->]. done.
Qed.

Lemma assign_ids_row df i r' :
  assign_ids df !! i = Some r' →
  ∃ r, df !! i = Some r ∧
       r' = set_Element_Id
              (pretty (S (index_of (dashboard_key r)
                            (PyStr.unique (dashboard_key <$> df))))) r.
Proof.
  intros Hi. destruct (df !! i) as [r|] eqn:E.
  - exists r. split; [done|]. rewrite (assign_ids_lookup _ _ _ E) in Hi.
    congruence.
  - apply lookup_ge_None in E. apply lookup_lt_Some in Hi.
    rewrite assign_ids_length in Hi. lia.
Qed.

Lemma assign_ids_same_id df i j ri rj :
  assign_ids df !! i = Some ri → assign_ids df !! j = Some rj →
  Element_Id ri = Element_Id rj ↔ dashboard_key ri = dashboard_key rj.
Proof.
  intros Hi Hj.
  destruct (assign_ids_row _ _ _ Hi) as (r0 & H0 & ->).
  destruct (assign_ids_row _ _ _ Hj) as (r1 & H1 & ->).
  change (dashboard_key (set_Element_Id ?s r0)) with (dashboard_key r0).
  change (dashboard_key (set_Element_Id ?s r1)) with (dashboard_key r1).
  cbn [Element_Id set_Element_Id].
  assert (Hin : ∀ k r, df !! k = Some r →
            dashboard_key r ∈ PyStr.unique (dashboard_key <$> df)).
  { intros k r Hk. apply elem_of_unique, list_elem_of_fmap.
    exists r. split; [done|]. by eapply list_elem_of_lookup_2. }
  split.
  - intros Heq. apply (inj pretty) in Heq. injection Heq as Heq.
    pose proof (lookup_index_of _ _ (Hin _ _ H0)) as L0.
    pose proof (lookup_index_of _ _ (Hin _ _ H1)) as L1.
    rewrite Heq in L0. congruence.
  - by intros ->.
Qed.

(** X17: after [assign_ids] two rows with the same module and the same
    dashboard carry the same element id; if no module name of the frame
    holds the bar character, two rows with the same element id have the
    same module and the same dashboard; with a bar in a module name two
    different panels can share an id, the key being the concatenation
    module|dashboard. *)
Theorem assign_ids_panels :
  (∀ df i j ri rj,
     assign_ids df !! i = Some ri → assign_ids df !! j = Some rj →
     Module_ ri = Module_ rj → Dashboard ri = Dashboard rj →
     Element_Id ri = Element_Id rj) ∧
  (∀ df i j ri rj,
     Forall (λ r, PyStr.has_char "|" (Module_ r) = false) df →
     assign_ids df !! i = Some ri → assign_ids df !! j = Some rj →
     Element_Id ri = Element_Id rj →
     Module_ ri = Module_ rj ∧ Dashboard ri = Dashboard rj) ∧
  (∃ ri rj,
     assign_ids bar_rows = [ri; rj] ∧
     Element_Id ri = Element_Id rj ∧ Module_ ri ≠ Module_ rj).
Proof.
  split; [|split].
  - intros df i j ri rj Hi Hj Hm Hd.
    apply (assign_ids_same_id _ _ _ _ _ Hi Hj).
    unfold dashboard_key. by rewrite Hm, Hd.
  - intros df i j ri rj HF Hi Hj Hid.
    apply (assign_ids_same_id _ _ _ _ _ Hi Hj) in Hid.
    destruct (assign_ids_row _ _ _ Hi) as (r0 & H0 & ->).
    destruct (assign_ids_row _ _ _ Hj) as (r1 & H1 & ->).
    rewrite Forall_forall in HF.
    apply (bar_split "|"); [| |exact Hid].
    + apply (HF r0). by eapply list_elem_of_lookup_2.
    + apply (HF r1). by eapply list_elem_of_lookup_2.
  - do 2 eexists. split; [by vm_compute|]. by split.
Qed.

(** X18: the element ids are given before the cleaning and from the names
    as generated; [clean_dashboard_fields] keeps them.  So in the cleaned
    frame two rows have the same id exactly when their module|dashboard
    keys were equal before the cleaning, whatever module and dashboard
    the cleaning leaves them with. *)
Theorem ids_survive_cleaning (null_text : string) (cols : list string)
    (rows : list Row) (df' : DataFrame) (i j : nat) (oi oj : Row) :
  clean_dashboard_fields null_text (mkDataFrame cols (assign_ids rows))
  = Some df' →
  data df' !! i = Some oi → data df' !! j = Some oj →
  ∃ ri rj,
    rows !! i = Some ri ∧ rows !! j = Some rj ∧
    (Element_Id oi = Element_Id oj ↔ dashboard_key ri = dashboard_key rj) ∧
    Module_ oi = PyStr.strip (Module_ ri) ∧
    Module_ oj = PyStr.strip (Module_ rj) ∧
    Dashboard oi
    = PyStr.strip (str_replace " Dashboard" EmptyString (Dashboard ri)) ∧
    Dashboard oj
    = PyStr.strip (str_replace " Dashboard" EmptyString (Dashboard rj)).
Proof.
  intros H Hi Hj.
  destruct (clean_dashboard_fields_rows _ _ _ H) as [_ HF].
  cbn [data] in HF.
  destruct (Forall2_lookup_r _ _ _ _ _ HF Hi) as (ai & Hai & si & ->).
  destruct (Forall2_lookup_r _ _ _ _ _ HF Hj) as (aj & Haj & sj & ->).
  pose proof (assign_ids_same_id _ _ _ _ _ Hai Haj) as Hid.
  destruct (assign_ids_row _ _ _ Hai) as (ri & Hri & Eri).
  destruct (assign_ids_row _ _ _ Haj) as (rj & Hrj & Erj).
  exists ri, rj. split; [done|]. split; [done|].
  assert (dashboard_key ai = dashboard_key ri) as Hki by (by rewrite Eri).
  assert (dashboard_key aj = dashboard_key rj) as Hkj by (by rewrite Erj).
  assert (Module_ ai = Module_ ri ∧ Dashboard ai = Dashboard ri) as [Hmi Hdi]
    by (by rewrite Eri).
  assert (Module_ aj = Module_ rj ∧ Dashboard aj = Dashboard rj) as [Hmj Hdj]
    by (by rewrite Erj).
  split; [by rewrite <-Hki, <-Hkj|].
  cbn [Module_ Dashboard set_View_Type_Attributes clean_row].
  by rewrite Hmi, Hmj, Hdi, Hdj.
Qed.

Lemma ids_survive_cleaning_witness :
  ∃ df' oi oj,
    clean_dashboard_fields "None" (mkDataFrame [] (assign_ids suffix_rows))
    = Some df' ∧
    data df' = [oi; oj] ∧
    Module_ oi = Module_ oj ∧ Dashboard oi = Dashboard oj ∧
    Element_Id oi ≠ Element_Id oj.
Proof.
  do 3 eexists. split; [reflexivity|]. split; [reflexivity|].
  split; [reflexivity|]. split; [reflexivity|].
  intros Heq.
  destruct (ids_survive_cleaning "None" [] suffix_rows _ 0 1 _ _
              eq_refl eq_refl eq_refl)
    as (ri & rj & Hri & Hrj & Hiff & _).
  injection Hri as <-. injection Hrj as <-.
  apply Hiff in Heq. discriminate Heq.
Defined.

(** ** The rows of a table completion *)

Section TableParseFacts.

Import TableParse.

Lemma lookup_setdefault key d (row : gmap string json) k :
  setdefault key d row !! k
  = if decide (key = k) then Some (get row key d) else row !! k.
Proof.
  unfold setdefault, get. destruct (row !! key) eqn:E.
  - case_decide; [subst; by rewrite E|done].
  - rewrite lookup_insert. by case_decide.
Qed.

Lemma get_ext (m m' : gmap string json) k d :
  m !! k = m' !! k → get m k d = get m' k d.
Proof. unfold get. by intros ->. Qed.

Lemma lookup_bools cols (row : gmap string json) k :
  fold_left
    (λ row bool_col,
       <[bool_col := JBool (py_bool (get row bool_col (JBool false)))]> row)
    cols row !! k
  = if decide (k ∈ cols)
    then Some (JBool (py_bool (get row k (JBool false))))
    else row !! k.
Proof.
  revert row. induction cols as [|c cols IH]; intros row; cbn [fold_left].
  - case_decide as H; [by apply elem_of_nil in H|done].
  - rewrite IH. destruct (decide (c = k)) as [->|Hck].
    + rewrite (decide_True (P := k ∈ k :: cols)) by constructor.
      unfold get. rewrite lookup_insert_eq.
      by destruct (decide (k ∈ cols)).
    + unfold get. rewrite lookup_insert_ne by done.
      destruct (decide (k ∈ cols)) as [Hin|Hin].
      * by rewrite decide_True by (by constructor).
      * rewrite decide_False; [done|].
        intros [->|?]%elem_of_cons; done.
Qed.

Ltac not_in :=
  rewrite ?not_elem_of_cons; repeat split; try done; apply not_elem_of_nil.

Ltac other_key := repeat rewrite decide_False by first [done | not_in].

Lemma custom_format (row : gmap string json) format :
  as_str (get row "Format" (JStr EmptyString)) = Some format →
  PyStr.lower (PyStr.strip format) = "custom" →
  row !! "Format" = Some (JStr format).
Proof.
  unfold get. destruct (row !! "Format") as [[]|]; simpl; try done.
  - by intros [= ->].
  - by intros [= <-].
Qed.

Lemma parse_row_lookup row row' k :
  parse_row row = Some row' → row' !! k = parsed_value row k.
Proof.
  unfold parse_row.
  set (r2 := setdefault "Unique Id" (JStr "Record ID")
               (setdefault "Display Field" (JStr "Record ID") row)).
  assert (L2 : ∀ k, r2 !! k
            = if decide (k ∈ ["Display Field"; "Unique Id"])
              then Some (get row k (JStr "Record ID")) else row !! k).
  { intros k'. unfold r2. rewrite !lookup_setdefault.
    destruct (decide ("Unique Id" = k')) as [<-|H1].
    - rewrite decide_True by (by repeat constructor).
      f_equal. apply get_ext. rewrite lookup_setdefault. by other_key.
    - destruct (decide ("Display Field" = k')) as [<-|H2].
      + by rewrite decide_True by (by repeat constructor).
      + by rewrite decide_False by not_in. }
  rewrite (get_ext r2 row "Format") by (rewrite L2; by other_key).
  destruct (as_str (get row "Format" (JStr EmptyString))) as [format|] eqn:Ef;
    [|done].
  cbn [mbind option_bind].
  set (r3 := if decide (PyStr.lower (PyStr.strip format) ≠ "custom")
             then <["Format" := JStr EmptyString]> r2 else r2).
  assert (L3 : ∀ k, r3 !! k
            = if decide (k = "Format")
              then Some (JStr
                     (if decide (PyStr.lower (PyStr.strip format) ≠ "custom")
                      then EmptyString else format))
              else r2 !! k).
  { intros k'. unfold r3.
    destruct (decide (PyStr.lower (PyStr.strip format) ≠ "custom"))
      as [Hc|Hc].
    - rewrite lookup_insert.
      destruct (decide ("Format" = k')) as [<-|]; [by rewrite decide_True|].
      by rewrite decide_False by done.
    - destruct (decide (k' = "Format")) as [->|]; [|done].
      rewrite L2. other_key. apply custom_format; [done|].
      by apply dec_stable. }
  assert (K3 : ∀ key d,
            key ∉ ["Format"; "Display Field"; "Unique Id"] →
            get r3 key d = get row key d).
  { intros key d Hk. apply get_ext. rewrite L3, L2.
    rewrite !not_elem_of_cons in Hk. destruct Hk as (? & ? & ? & _).
    rewrite decide_False by done. by rewrite decide_False by not_in. }
  rewrite (K3 "Auto Increment?"), (K3 "Auto Increment Start") by not_in.
  set (r4 := if py_bool (get row "Auto Increment?" (JBool false))
             then <["Auto Increment Start" :=
                      JStr (py_str (py_or (get row "Auto Increment Start" JNull)
                                          (JStr "1")))]> r3
             else r3).
  assert (L4 : ∀ k, r4 !! k
            = if decide (k = "Auto Increment Start")
              then (if py_bool (get row "Auto Increment?" (JBool false))
                    then Some (JStr (py_str
                                 (py_or (get row "Auto Increment Start" JNull)
                                        (JStr "1"))))
                    else row !! k)
              else r3 !! k).
  { intros k'. unfold r4.
    destruct (py_bool (get row "Auto Increment?" (JBool false))).
    - rewrite lookup_insert.
      destruct (decide ("Auto Increment Start" = k')) as [<-|];
        [by rewrite decide_True|].
      by rewrite decide_False by done.
    - destruct (decide (k' = "Auto Increment Start")) as [->|]; [|done].
      rewrite L3, L2. by other_key. }
  assert (K4 : ∀ key d,
            key ∉ ["Auto Increment Start"; "Format"; "Display Field";
                   "Unique Id"] →
            get r4 key d = get row key d).
  { intros key d Hk. rewrite <-(K3 key d).
    - apply get_ext. rewrite L4.
      rewrite !not_elem_of_cons in Hk. destruct Hk as (? & _).
      by rewrite decide_False by done.
    - rewrite !not_elem_of_cons in Hk. destruct Hk as (? & ? & ? & ? & _).
      not_in. }
  rewrite (K4 "Data Type") by not_in.
  destruct (as_str (get row "Data Type" (JStr EmptyString)))
    as [data_type|] eqn:Ed; [|done].
  cbn [mbind option_bind].
  rewrite (K4 "Decimal Place") by not_in.
  set (v5 := JStr (if PyStr.str_in (PyStr.lower data_type)
                        ["decimal"; "integer"]
                   then py_str (py_or (get row "Decimal Place" JNull)
                                      (JStr "0"))
                   else EmptyString)).
  set (r5 := if PyStr.str_in (PyStr.lower data_type) ["decimal"; "integer"]
             then _ else _).
  assert (E5 : r5 = <["Decimal Place" := v5]> r4).
  { unfold r5, v5. by destruct (PyStr.str_in _ _). }
  rewrite E5. clear E5 r5.
  assert (K5 : get (<["Decimal Place" := v5]> r4) "FieldGroupId" JNull
               = get row "FieldGroupId" JNull).
  { rewrite <-(K4 "FieldGroupId" JNull) by not_in.
    apply get_ext. by rewrite lookup_insert_ne. }
  rewrite K5. intros Hrow. apply (inj Some) in Hrow. rewrite <-Hrow.
  rewrite lookup_bools. unfold parsed_value.
  destruct (decide (k ∈ BOOLEAN_COLUMNS)) as [Hb|Hb].
  { apply (f_equal (λ v, Some (JBool (py_bool v)))). apply get_ext.
    assert (k ∉ ["FieldGroupId"; "Decimal Place"; "Auto Increment Start";
                 "Format"; "Display Field"; "Unique Id"]) as Hk.
    { intros Hk. rewrite !elem_of_cons in Hk.
      destruct Hk as [->|[->|[->|[->|[->|[->|Hk]]]]]];
        try (by apply elem_of_nil in Hk);
        (unfold BOOLEAN_COLUMNS in Hb; rewrite !elem_of_cons in Hb;
         destruct Hb as [?|[?|[?|[?|[?|[?|[?|[?|[?|[?|[?|Hb]]]]]]]]]]];
         try done; by apply elem_of_nil in Hb). }
    rewrite !not_elem_of_cons in Hk.
    destruct Hk as (? & ? & ? & ? & ? & ? & _).
    rewrite !lookup_insert_ne by done.
    rewrite L4, decide_False by done.
    rewrite L3, decide_False by done.
    rewrite L2. by rewrite decide_False by not_in. }
  rewrite lookup_insert.
  destruct (decide (k = "FieldGroupId")) as [->|H6].
  { by rewrite decide_True. }
  rewrite decide_False by done. rewrite lookup_insert.
  destruct (decide (k = "Decimal Place")) as [->|H5].
  { rewrite decide_True by done. unfold v5. by rewrite Ed. }
  rewrite decide_False by done. rewrite L4.
  destruct (decide (k = "Auto Increment Start")) as [->|H4]; [done|].
  rewrite L3.
  destruct (decide (k = "Format")) as [->|H3]; [by rewrite Ef|].
  by rewrite L2.
Qed.

Lemma get_setdefault_ne key d (row : gmap string json) k d' :
  key ≠ k → get (setdefault key d row) k d' = get row k d'.
Proof.
  intros H. apply get_ext. rewrite lookup_setdefault.
  by rewrite decide_False.
Qed.

Lemma get_insert_ne key v (row : gmap string json) k d' :
  key ≠ k → get (<[key := v]> row) k d' = get row k d'.
Proof. intros H. apply get_ext. by rewrite lookup_insert_ne. Qed.

Lemma parse_row_None row :
  parse_row row = None ↔
  as_str (get row "Format" (JStr EmptyString)) = None ∨
  as_str (get row "Data Type" (JStr EmptyString)) = None.
Proof.
  unfold parse_row. rewrite !get_setdefault_ne by done.
  destruct (as_str (get row "Format" (JStr EmptyString))) as [format|];
    [|by split; [left|]].
  cbn [mbind option_bind].
  match goal with
  | |- context [as_str (get ?m "Data Type" ?d)] =>
      assert (get m "Data Type" d = get row "Data Type" d) as ->
  end.
  { destruct (py_bool _); destruct (decide _);
      rewrite ?get_insert_ne, ?get_setdefault_ne by done; done. }
  destruct (as_str (get row "Data Type" (JStr EmptyString))) as [data_type|];
    [|by split; [right|]].
  cbn [mbind option_bind]. split; [done|]. by intros [|].
Qed.

Lemma as_str_get_None (row : gmap string json) key :
  as_str (get row key (JStr EmptyString)) = None ↔
  ∃ v, row !! key = Some v ∧ as_str v = None.
Proof.
  unfold get. destruct (row !! key) as [v|]; simpl.
  - split; [by exists v|]. by intros (? & [= <-] & ?).
  - split; [done|]. by intros (? & ? & ?).
Qed.

(** X19: the loop over the rows of a table completion fails exactly when
    some row holds, under the key Format or Data Type, a value that is not
    a string (the code calls a string method on it); a row without those
    keys, or with strings there, is always processed. *)
Theorem parse_row_raises :
  (∀ row,
     parse_row row = None ↔
     ∃ key v, key ∈ ["Format"; "Data Type"] ∧
              row !! key = Some v ∧ as_str v = None) ∧
  (∀ parsed_data,
     parse_rows parsed_data = None ↔
     ∃ row, row ∈ parsed_data ∧ parse_row row = None).
Proof.
  split.
  - intros row. rewrite parse_row_None, !as_str_get_None. split.
    + intros [(v & ? & ?)|(v & ? & ?)].
      * exists "Format", v. split; [by constructor|done].
      * exists "Data Type", v. split; [by repeat constructor|done].
    + intros (key & v & Hk & Hv & Hs). rewrite !elem_of_cons in Hk.
      destruct Hk as [->|[->|Hk]]; [left|right|by apply elem_of_nil in Hk];
        by exists v.
  - intros parsed_data. unfold parse_rows. split.
    + intros Hn.
      assert (¬ Forall (is_Some ∘ parse_row) parsed_data) as Hno.
      { intros HF. apply mapM_is_Some in HF. rewrite Hn in HF.
        by destruct HF. }
      apply not_Forall_Exists in Hno; [|intros x; apply _].
      apply Exists_exists in Hno as (row & Hrow & Hr).
      exists row. split; [done|]. simpl in Hr.
      destruct (parse_row row); [|done]. by destruct Hr.
    + intros (row & Hrow & Hr).
      destruct (mapM parse_row parsed_data) as [k|] eqn:E; [|done].
      apply mapM_Some in E. apply list_elem_of_lookup in Hrow as [i Hi].
      destruct (Forall2_lookup_l _ _ _ _ _ E Hi) as (y & _ & Hy).
      congruence.
Qed.

Lemma pretty_N_go_nonempty x s :
  s ≠ EmptyString → pretty_N_go x s ≠ EmptyString.
Proof.
  revert s. induction (N.lt_wf_0 x) as [x _ IH]. intros s Hs.
  destruct (decide (x = 0%N)) as [->|Hx].
  - by rewrite pretty_N_go_0.
  - rewrite pretty_N_go_step by lia. apply IH; [|done].
    apply N.div_lt; lia.
Qed.

Lemma pretty_Z_nonempty (n : Z) : pretty n ≠ EmptyString.
Proof.
  assert (∀ p : positive, pretty p ≠ EmptyString) as Hp.
  { intros p. unfold pretty, pretty_positive, pretty, pretty_N.
    rewrite decide_False by done.
    rewrite pretty_N_go_step by lia. by apply pretty_N_go_nonempty. }
  destruct n as [|p|p]; [done|apply Hp|done].
Qed.

Lemma py_str_truthy v : py_bool v = true → py_str v ≠ EmptyString.
Proof.
  destruct v as [|[]|n|s|t a r]; simpl; try done.
  - intros _. apply pretty_Z_nonempty.
  - intros H ->. done.
Qed.

Lemma py_str_or v d :
  d ≠ EmptyString → py_str (py_or v (JStr d)) ≠ EmptyString.
Proof.
  intros Hd. unfold py_or. destruct (py_bool v) eqn:E; [|done].
  by apply py_str_truthy.
Qed.

Lemma py_or_str s d :
  (s = EmptyString → d = EmptyString) →
  py_str (py_or (JStr s) (JStr d)) = s.
Proof.
  intros H. unfold py_or. simpl.
  destruct (String.eqb_spec s EmptyString) as [->|]; simpl; [|done].
  by rewrite H.
Qed.

Ltac not_bool_column :=
  unfold BOOLEAN_COLUMNS; rewrite ?not_elem_of_cons; repeat split; try done;
  apply not_elem_of_nil.

Lemma parsed_value_bool row k :
  k ∈ BOOLEAN_COLUMNS →
  parsed_value row k = Some (JBool (py_bool (get row k (JBool false)))).
Proof. intros H. unfold parsed_value. by rewrite decide_True. Qed.

Lemma parsed_value_group row :
  parsed_value row "FieldGroupId"
  = Some (JStr (py_str (py_or (get row "FieldGroupId" JNull)
                              (JStr EmptyString)))).
Proof.
  unfold parsed_value. rewrite decide_False by not_bool_column.
  by rewrite decide_True.
Qed.

Lemma parsed_value_decimal row :
  parsed_value row "Decimal Place"
  = Some (JStr
      (if PyStr.str_in
            (PyStr.lower
               (default EmptyString
                  (as_str (get row "Data Type" (JStr EmptyString)))))
            ["decimal"; "integer"]
       then py_str (py_or (get row "Decimal Place" JNull) (JStr "0"))
       else EmptyString)).
Proof.
  unfold parsed_value. rewrite decide_False by not_bool_column.
  rewrite decide_False by done. by rewrite decide_True.
Qed.

Lemma parsed_value_start row :
  parsed_value row "Auto Increment Start"
  = if py_bool (get row "Auto Increment?" (JBool false))
    then Some (JStr (py_str (py_or (get row "Auto Increment Start" JNull)
                                   (JStr "1"))))
    else row !! "Auto Increment Start".
Proof.
  unfold parsed_value. rewrite decide_False by not_bool_column.
  do 2 rewrite decide_False by done. by rewrite decide_True.
Qed.

Lemma parsed_value_format row :
  parsed_value row "Format"
  = Some (JStr
      (let format :=
         default EmptyString (as_str (get row "Format" (JStr EmptyString))) in
       if decide (PyStr.lower (PyStr.strip format) ≠ "custom")
       then EmptyString else format)).
Proof.
  unfold parsed_value. rewrite decide_False by not_bool_column.
  do 3 rewrite decide_False by done. by rewrite decide_True.
Qed.

Lemma parsed_value_default row k :
  k ∈ ["Display Field"; "Unique Id"] →
  parsed_value row k = Some (get row k (JStr "Record ID")).
Proof.
  intros H. unfold parsed_value. rewrite !elem_of_cons in H.
  destruct H as [->|[->|H]]; [..|by apply elem_of_nil in H];
    rewrite decide_False by not_bool_column;
    do 4 rewrite decide_False by done;
    by rewrite decide_True by (by repeat constructor).
Qed.

Lemma parsed_value_other row k :
  k ∉ BOOLEAN_COLUMNS →
  k ∉ ["FieldGroupId"; "Decimal Place"; "Auto Increment Start"; "Format";
       "Display Field"; "Unique Id"] →
  parsed_value row k = row !! k.
Proof.
  intros Hb Hk. rewrite !not_elem_of_cons in Hk.
  destruct Hk as (? & ? & ? & ? & ? & ? & _).
  unfold parsed_value. rewrite decide_False by done.
  do 4 rewrite decide_False by done.
  by rewrite decide_False by not_in.
Qed.

(** X20: what a processed row holds.  Every boolean column is a boolean,
    the truth value of what was there (false if nothing was); Display
    Field and Unique Id are present, Record ID if they were missing;
    Format is a string, empty unless it was custom up to case and white
    space, in which case it is kept; Decimal Place is a string, not empty
    for a Data Type decimal or integer and empty for any other;
    FieldGroupId is a string; with a true Auto Increment? the start value
    is a string that is not empty; every other key is as it was. *)
Theorem parse_row_shape (row row' : gmap string json) :
  parse_row row = Some row' →
  (∀ c, c ∈ BOOLEAN_COLUMNS →
        row' !! c = Some (JBool (py_bool (get row c (JBool false))))) ∧
  (∀ c, c ∈ ["Display Field"; "Unique Id"] →
        row' !! c = Some (get row c (JStr "Record ID"))) ∧
  (∃ f, row' !! "Format" = Some (JStr f) ∧
        (f = EmptyString ∨
         PyStr.lower (PyStr.strip f) = "custom" ∧
         row !! "Format" = Some (JStr f))) ∧
  (∃ d t, row' !! "Decimal Place" = Some (JStr d) ∧
          get row "Data Type" (JStr EmptyString) = JStr t ∧
          (d ≠ EmptyString ↔
           PyStr.str_in (PyStr.lower t) ["decimal"; "integer"] = true)) ∧
  (∃ g, row' !! "FieldGroupId" = Some (JStr g)) ∧
  (py_bool (get row "Auto Increment?" (JBool false)) = true →
   ∃ s, row' !! "Auto Increment Start" = Some (JStr s) ∧ s ≠ EmptyString) ∧
  (∀ k, k ∉ BOOLEAN_COLUMNS →
        k ∉ ["FieldGroupId"; "Decimal Place"; "Auto Increment Start";
             "Format"; "Display Field"; "Unique Id"] →
        row' !! k = row !! k).
Proof.
  intros H. pose proof (λ k, parse_row_lookup row row' k H) as L.
  assert (is_Some (as_str (get row "Format" (JStr EmptyString))) ∧
          is_Some (as_str (get row "Data Type" (JStr EmptyString))))
    as [[format Ef] [t Et]].
  { destruct (as_str (get row "Format" (JStr EmptyString))) eqn:E1;
      [|by rewrite (proj2 (parse_row_None row)) in H; [|left]].
    destruct (as_str (get row "Data Type" (JStr EmptyString))) eqn:E2;
      [|by rewrite (proj2 (parse_row_None row)) in H; [|right]].
    split; by eexists. }
  repeat split.
  - intros c Hc. by rewrite L, parsed_value_bool.
  - intros c Hc. by rewrite L, parsed_value_default.
  - rewrite L, parsed_value_format, Ef. cbn [from_option id]. cbv zeta.
    eexists. split; [reflexivity|].
    destruct (decide (PyStr.lower (PyStr.strip format) ≠ "custom")) as [|Hc];
      [by left|right].
    apply dec_stable in Hc. split; [done|]. by apply custom_format.
  - rewrite L, parsed_value_decimal, Et. cbn [from_option id].
    exists (if PyStr.str_in (PyStr.lower t) ["decimal"; "integer"]
            then py_str (py_or (get row "Decimal Place" JNull) (JStr "0"))
            else EmptyString), t.
    split; [done|]. split.
    { destruct (get row "Data Type" (JStr EmptyString)); try done.
      by injection Et as ->. }
    destruct (PyStr.str_in (PyStr.lower t) ["decimal"; "integer"]).
    + split; [done|]. intros _. by apply py_str_or.
    + split; [done|]. done.
  - rewrite L, parsed_value_group. by eexists.
  - intros Hb. rewrite L, parsed_value_start, Hb.
    eexists. split; [reflexivity|]. by apply py_str_or.
  - intros k Hb Hk. by rewrite L, parsed_value_other.
Qed.

Lemma parse_row_shape_witness :
  ∃ row', parse_row order_row = Some row' ∧
          row' !! "Notes?" = Some (JBool true) ∧
          row' !! "Format" = Some (JStr " Custom ").
Proof.
  eexists. split; [reflexivity|].
  pose proof (parse_row_shape order_row _ eq_refl)
    as (Hb & _ & (f & Hf & _) & _).
  split; [exact (Hb "Notes?" ltac:(by constructor))|].
  reflexivity.
Defined.

(** X21: processing a processed row again succeeds and changes nothing:
    the loop is idempotent on the rows it accepts. *)
Theorem parse_row_idempotent (row row' : gmap string json) :
  parse_row row = Some row' → parse_row row' = Some row'.
Proof.
  intros H. pose proof (λ k, parse_row_lookup row row' k H) as L.
  assert (is_Some (as_str (get row "Format" (JStr EmptyString))) ∧
          is_Some (as_str (get row "Data Type" (JStr EmptyString))))
    as [[format Ef] [t Et]].
  { destruct (as_str (get row "Format" (JStr EmptyString))) eqn:E1;
      [|by rewrite (proj2 (parse_row_None row)) in H; [|left]].
    destruct (as_str (get row "Data Type" (JStr EmptyString))) eqn:E2;
      [|by rewrite (proj2 (parse_row_None row)) in H; [|right]].
    split; by eexists. }
  assert (Gt : get row' "Data Type" (JStr EmptyString)
               = get row "Data Type" (JStr EmptyString)).
  { apply get_ext. rewrite L. apply parsed_value_other; [not_bool_column|].
    not_in. }
  assert (Gf : get row' "Format" (JStr EmptyString)
               = JStr (if decide (PyStr.lower (PyStr.strip format) ≠ "custom")
                       then EmptyString else format)).
  { unfold get. rewrite L, parsed_value_format, Ef. done. }
  destruct (parse_row row') as [row''|] eqn:E.
  2:{ apply parse_row_None in E. rewrite Gt, Gf, Et in E.
      by destruct E. }
  f_equal. apply map_eq. intros k.
  rewrite (parse_row_lookup _ _ k E).
  destruct (decide (k ∈ BOOLEAN_COLUMNS)) as [Hb|Hb].
  { rewrite parsed_value_bool by done. unfold get at 1.
    rewrite !L, parsed_value_bool by done. done. }
  destruct (decide (k = "FieldGroupId")) as [->|H6].
  { rewrite parsed_value_group. unfold get at 1.
    rewrite !L, parsed_value_group. cbn [from_option id].
    by rewrite py_or_str. }
  destruct (decide (k = "Decimal Place")) as [->|H5].
  { rewrite parsed_value_decimal, Gt. unfold get at 2.
    rewrite !L, parsed_value_decimal. cbn [from_option id].
    destruct (PyStr.str_in _ _); [|done].
    rewrite py_or_str; [done|]. intros Hs.
    by apply (py_str_or (get row "Decimal Place" JNull) "0") in Hs. }
  destruct (decide (k = "Auto Increment Start")) as [->|H4].
  { rewrite parsed_value_start.
    assert (get row' "Auto Increment?" (JBool false)
            = JBool (py_bool (get row "Auto Increment?" (JBool false))))
      as ->.
    { unfold get at 1. rewrite L, parsed_value_bool; [done|].
      unfold BOOLEAN_COLUMNS. by repeat constructor. }
    cbn [py_bool]. rewrite !L, parsed_value_start.
    destruct (py_bool (get row "Auto Increment?" (JBool false))) eqn:Ea;
      [|done].
    unfold get at 1. rewrite L, parsed_value_start, Ea.
    cbn [from_option id]. rewrite py_or_str; [done|]. intros Hs.
    by apply (py_str_or (get row "Auto Increment Start" JNull) "1") in Hs. }
  destruct (decide (k = "Format")) as [->|H3].
  { rewrite parsed_value_format, Gf, L, parsed_value_format, Ef.
    cbn [as_str from_option id]. cbv zeta.
    destruct (decide (PyStr.lower (PyStr.strip format) ≠ "custom")) as [Hc|Hc].
    - by rewrite decide_True.
    - by rewrite decide_False. }
  destruct (decide (k ∈ ["Display Field"; "Unique Id"])) as [H2|H2].
  { rewrite parsed_value_default by done. unfold get at 1.
    rewrite !L, parsed_value_default by done. done. }
  rewrite parsed_value_other; [done|done|].
  rewrite !not_elem_of_cons in H2. destruct H2 as (? & ? & _). not_in.
Qed.

Lemma parse_row_idempotent_witness :
  ∃ row', parse_row order_row = Some row' ∧ parse_row row' = Some row'.
Proof.
  eexists. split; [reflexivity|].
  exact (parse_row_idempotent order_row _ eq_refl).
Defined.

End TableParseFacts.

(** ** The module-to-tables map *)

Lemma fold_insert_lookup {V} (f : string → V) (keys : list string)
    (m : gmap string V) k :
  fold_left (λ m key, <[key := f key]> m) keys m !! k
  = if decide (k ∈ keys) then Some (f k) else m !! k.
Proof.
  revert m. induction keys as [|key keys IH]; intros m; cbn [fold_left].
  - by rewrite decide_False by apply not_elem_of_nil.
  - rewrite IH. destruct (decide (k ∈ keys)) as [Hin|Hin].
    + by rewrite decide_True by (by constructor).
    + rewrite lookup_insert. destruct (decide (key = k)) as [->|Hne].
      * by rewrite decide_True by constructor.
      * rewrite decide_False; [done|]. intros [->|?]%elem_of_cons; done.
Qed.

(** X22: [extract_module_table_map] has an entry exactly for the modules
    that occur in the table sheet; the entry of a module lists the table
    names of the rows of that module, each once, in first-seen order. *)
Theorem extract_module_table_map_entries (tables_df : list TableRow) :
  (∀ module,
     extract_module_table_map tables_df !! module
     = if decide (module ∈ table_module <$> tables_df)
       then Some (PyStr.unique
                    (table_name
                       <$> filter (λ r, table_module r = module) tables_df))
       else None) ∧
  (∀ module tables,
     extract_module_table_map tables_df !! module = Some tables →
     NoDup tables ∧ tables ≠ [] ∧
     ∀ t, t ∈ tables ↔ mkTableRow module t ∈ tables_df).
Proof.
  assert (Hl : ∀ module,
     extract_module_table_map tables_df !! module
     = if decide (module ∈ table_module <$> tables_df)
       then Some (PyStr.unique
                    (table_name
                       <$> filter (λ r, table_module r = module) tables_df))
       else None).
  { intros module. unfold extract_module_table_map.
    rewrite (fold_insert_lookup
               (λ module, PyStr.unique
                  (table_name
                     <$> filter (λ r, table_module r = module) tables_df))).
    destruct (decide (module ∈ table_module <$> tables_df)) as [Hin|Hin].
    - rewrite decide_True; [done|].
      rewrite merge_sort_Permutation. by apply elem_of_unique.
    - rewrite decide_False; [done|].
      rewrite merge_sort_Permutation. by rewrite elem_of_unique. }
  split; [exact Hl|].
  intros module tables. rewrite Hl.
  destruct (decide (module ∈ table_module <$> tables_df)) as [Hin|]; [|done].
  intros [= <-].
  assert (Hmem : ∀ t,
    t ∈ PyStr.unique
          (table_name <$> filter (λ r, table_module r = module) tables_df)
    ↔ mkTableRow module t ∈ tables_df).
  { intros t. rewrite elem_of_unique, list_elem_of_fmap. split.
    - intros ([m t'] & -> & Hr). apply list_elem_of_filter in Hr as [Hm Hr].
      simpl in Hm. by subst m.
    - intros Hr. exists (mkTableRow module t). split; [done|].
      by apply list_elem_of_filter. }
  split; [apply NoDup_unique|]. split; [|exact Hmem].
  apply list_elem_of_fmap in Hin as ([m t] & -> & Hr). cbn [table_module].
  intros Hnil. apply (proj2 (Hmem t)) in Hr. cbn [table_module] in Hr.
  rewrite Hnil in Hr.
  by apply elem_of_nil in Hr.
Qed.

(** ** The helper methods and the inline rules *)

(** X23: [get_field_priority] numbers the pattern groups 0 to 5 and gives
    10 to a name in none of them.  On a name that the normalization of
    [advanced_field_priority] leaves unchanged, and that does not match
    both an amount and a status pattern, the two agree on the group; the
    helper tests the amount patterns before the status patterns and the
    inline scorer the other way round, so on a name that matches both and
    no earlier group they differ. *)
Theorem get_field_priority_groups :
  (∀ s, get_field_priority s ∈ [0; 1; 2; 3; 4; 5; 10]) ∧
  (∀ s, normalize s = s →
        any_in AMOUNT_PATTERN s && any_in STATUS_PATTERN s = false →
        advanced_field_priority (CStr s) = group_score (get_field_priority s)) ∧
  (∀ s, normalize s = s →
        get_field_priority s = 3 → any_in STATUS_PATTERN s = true →
        advanced_field_priority (CStr s) = 5).
Proof.
  split; [|split].
  - intros s. unfold get_field_priority.
    repeat match goal with
    | |- context [any_in ?l s] => destruct (any_in l s)
    end; rewrite !elem_of_cons; tauto.
  - intros s Hn Hno. unfold advanced_field_priority, get_field_priority.
    rewrite Hn. cbn [scan_priority priority_map].
    fold ID_PATTERN NAME_PATTERN DATE_PATTERN STATUS_PATTERN AMOUNT_PATTERN
      CONTACT_PATTERN.
    destruct (any_in ID_PATTERN s); [done|].
    destruct (any_in NAME_PATTERN s); [done|].
    destruct (any_in DATE_PATTERN s); [done|].
    destruct (any_in AMOUNT_PATTERN s), (any_in STATUS_PATTERN s);
      try done.
    by destruct (any_in CONTACT_PATTERN s).
  - intros s Hn Hp Hs. unfold advanced_field_priority. rewrite Hn.
    unfold get_field_priority in Hp.
    cbn [scan_priority priority_map].
    fold ID_PATTERN NAME_PATTERN DATE_PATTERN STATUS_PATTERN AMOUNT_PATTERN
      CONTACT_PATTERN.
    destruct (any_in ID_PATTERN s); [done|].
    destruct (any_in NAME_PATTERN s); [done|].
    destruct (any_in DATE_PATTERN s); [done|].
    by rewrite Hs.
Qed.

Lemma any_in_app l1 l2 s : any_in (l1 ++ l2) s = any_in l1 s || any_in l2 s.
Proof. unfold any_in. apply existsb_app. Qed.

(** X24: [calculate_field_height] returns 84, 64, 50 or 74.  On a name
    without hyphen and underscore (its normalization is its lower case)
    that holds none of description, comment, notes and address, it is the
    height that [position_dashboard_fields] writes; 84 itself is never
    written by the pass. *)
Theorem calculate_field_height_inline :
  (∀ s, calculate_field_height s ∈ [84; 64; 50; 74]) ∧
  (∀ s, normalize s = PyStr.lower s →
        any_in ["description"; "comment"; "notes"; "address"]
               (PyStr.lower s) = false →
        calculate_field_height s = (field_size s).2) ∧
  (∀ s, (field_size s).2 ≠ 84).
Proof.
  split; [|split].
  - intros s. unfold calculate_field_height. cbv zeta.
    repeat match goal with
    | |- context [any_in ?l ?t] => destruct (any_in l t)
    end; rewrite !elem_of_cons; tauto.
  - intros s Hn Hno. unfold calculate_field_height, field_size. cbv zeta.
    rewrite Hn, Hno.
    change ["description"; "comment"; "notes"; "address"]
      with (["description"; "comment"; "notes"] ++ ["address"]) in Hno.
    rewrite any_in_app in Hno. apply orb_false_iff in Hno as [-> _].
    destruct (any_in DATE_PATTERN (PyStr.lower s)); [done|].
    by destruct (any_in ID_PATTERN (PyStr.lower s)).
  - intros s. unfold field_size. cbv zeta.
    repeat match goal with
    | |- context [any_in ?l ?t] => destruct (any_in l t)
    end; done.
Qed.

Example helper_tests_amount_first :
  normalize "total status" = "total status" ∧
  get_field_priority "total status" = 3 ∧
  advanced_field_priority (CStr "total status") = 5 ∧
  calculate_field_height "ship date" = (field_size "ship date").2 ∧
  calculate_field_height "notes" = 84 ∧ (field_size "notes").2 = 100.
Proof. by vm_compute. Qed.
